(** * XlsxImagePreservingProcessor: the in-place price rewriter

    A shallow embedding of [src/xlsx_image_preserving_processor.py] and the
    properties of it that the specification states.

    The processor treats an xlsx file as a zip archive, extracts it into a
    scratch directory, rewrites the numeric cells of one column in every
    worksheet part, and packs the directory again.

    Conventions of the embedding:
    - Python [int] is [Z]; counters that only grow from 0 are [nat];
    - Python [float] is an IEEE-754 binary64 value, [spec_float] with
      [SFadd 53 1024] for [+];
    - [str], [bytes] are [string] and [list byte];
    - an exception is [None] in an [option] result;
    - the standard library calls whose bodies are not part of the repository
      ([int], [float], [str], [ET.parse], [tree.write]) are the fields of the
      class [PyRuntime]; every general theorem holds for every runtime;
    - disk I/O is assumed not to fail and the input and output paths are
      assumed distinct ([shutil.copy2] succeeds).

    The configuration ([src/config.py]), the choice of a processor
    ([src/base_processor.py], [src/processors.py]) and the configuration
    step of [src/unified_bot.py] are embedded after the rewriter, with
    their own conventions. *)

From Stdlib Require Import ZArith String Ascii List Lia DecimalString SpecFloat.
From Equations Require Import Equations.
From stdpp Require Import gmap strings list fin_maps.

Open Scope Z_scope.

(** ** Column letters: [_column_number_to_letter] *)

Module Column.

(** [chr(column_number % 26 + ord('A'))] *)
Definition letter_of (column_number : Z) : ascii :=
  ascii_of_nat (Z.to_nat (column_number mod 26 + 65)).

(** The [while column_number > 0] loop; [result] is the list being appended
    to. *)
Equations? loop (column_number : Z) (result : list ascii) : list ascii
  by wf (Z.to_nat column_number) lt :=
  loop column_number result with Z_lt_dec 0 column_number => {
    | left _ :=
        loop ((column_number - 1) / 26)
             (result ++ [letter_of (column_number - 1)]);
    | right _ := result }.
Proof.
  assert ((column_number - 1) / 26 < column_number)
    by (apply Z.div_lt_upper_bound; lia).
  assert (0 <= (column_number - 1) / 26) by (apply Z.div_pos; lia).
  lia.
Qed.

(** [''.join(reversed(result))] *)
Definition _column_number_to_letter (column_number : Z) : string :=
  string_of_list_ascii (rev (loop column_number [])).

(** The reference inverse of the specification ([letterToNumber]): the
    letters read as a bijective base-26 numeral, ['A'] being the digit 1. *)
Definition digit_of (c : ascii) : Z := Z.of_nat (nat_of_ascii c) - 64.

Definition letter_to_number (s : string) : Z :=
  fold_left (fun acc c => acc * 26 + digit_of c) (list_ascii_of_string s) 0.

End Column.

(** ** The XML element tree ([xml.etree.ElementTree.Element]) *)

#[warnings="-register-all"]
Inductive element : Type :=
  Element (tag : string) (attrib : list (string * string))
          (text : option string) (tail : option string)
          (children : list element).

Definition tag (e : element) : string :=
  match e with Element t _ _ _ _ => t end.
Definition attrib (e : element) : list (string * string) :=
  match e with Element _ a _ _ _ => a end.
Definition text (e : element) : option string :=
  match e with Element _ _ x _ _ => x end.
Definition tail (e : element) : option string :=
  match e with Element _ _ _ x _ => x end.
Definition children (e : element) : list element :=
  match e with Element _ _ _ _ c => c end.

Definition set_text (x : option string) (e : element) : element :=
  match e with Element t a _ tl c => Element t a x tl c end.
Definition set_children (c : list element) (e : element) : element :=
  match e with Element t a x tl _ => Element t a x tl c end.

(** [elem.get(key)] *)
Fixpoint assoc (key : string) (l : list (string * string)) : option string :=
  match l with
  | [] => None
  | (k, v) :: l' => if String.eqb k key then Some v else assoc key l'
  end.

Definition get (e : element) (key : string) : option string :=
  assoc key (attrib e).

(** [NAMESPACES['main']] and the qualified tags [f'{{{ns}}}name'] *)
Definition ns : string :=
  "http://schemas.openxmlformats.org/spreadsheetml/2006/main".

Definition qname (name : string) : string := ("{" ++ ns ++ "}" ++ name)%string.

Definition has_tag (name : string) (e : element) : bool :=
  String.eqb (tag e) (qname name).

(** [elem.find(tag)]: the first direct child with that tag. *)
Definition find_child (name : string) (e : element) : option element :=
  List.find (has_tag name) (children e).

(** [root.find('.//tag')]: the first proper descendant with that tag, in
    document order. *)
Fixpoint find_desc (name : string) (e : element) : option element :=
  let fix go (cs : list element) : option element :=
    match cs with
    | [] => None
    | c :: cs' =>
        if has_tag name c then Some c
        else match find_desc name c with
             | Some d => Some d
             | None => go cs'
             end
    end in
  go (children e).

(** The tree after the element found by [find_desc] has been mutated into
    [new]; the tree itself when there is no such element. *)
Fixpoint subst_desc (name : string) (new : element) (e : element) : element :=
  let fix go (cs : list element) : list element :=
    match cs with
    | [] => []
    | c :: cs' =>
        if has_tag name c then new :: cs'
        else match find_desc name c with
             | Some _ => subst_desc name new c :: cs'
             | None => c :: go cs'
             end
    end in
  set_children (go (children e)) e.

(** The search of [find_desc] and the replacement of [subst_desc] over a
    list of siblings. *)
Fixpoint find_in (name : string) (cs : list element) : option element :=
  match cs with
  | [] => None
  | c :: cs' =>
      if has_tag name c then Some c
      else match find_desc name c with
           | Some d => Some d
           | None => find_in name cs'
           end
  end.

Fixpoint subst_in (name : string) (new : element) (cs : list element)
    : list element :=
  match cs with
  | [] => []
  | c :: cs' =>
      if has_tag name c then new :: cs'
      else match find_desc name c with
           | Some _ => subst_desc name new c :: cs'
           | None => c :: subst_in name new cs'
           end
  end.

(** Apply [f] to the first element of [l] that satisfies [p]. *)
Fixpoint update_first {A} (p : A -> bool) (f : A -> A) (l : list A) : list A :=
  match l with
  | [] => []
  | x :: l' => if p x then f x :: l' else x :: update_first p f l'
  end.

(** ** The standard library calls the rewriter relies on *)

Abbreviation bytes := (list Byte.byte).

Class PyRuntime := {
  (** [int(s)] on a string; [None] is [ValueError] *)
  py_int : string -> option Z;
  (** [float(s)] on a string; [None] is [ValueError] *)
  py_float : string -> option spec_float;
  (** [str(x)] on a float *)
  py_str : spec_float -> string;
  (** [ET.parse(path).getroot()] on the bytes of the file; [None] is
      [ParseError] *)
  xml_parse : bytes -> option element;
  (** the bytes [tree.write(path, encoding='utf-8', xml_declaration=True)]
      leaves in the file *)
  xml_write : element -> bytes
}.

(** [old_price + markup] on two floats *)
Definition float_add (x y : spec_float) : spec_float := SFadd 53 1024 x y.

(** [f'{row_num}'] *)
Definition str_int (n : Z) : string := NilZero.string_of_int (Z.to_int n).

(** ** The cell rewriter: [_update_sheet_prices] *)

Section Rewriter.
Context `{PyRuntime}.

(** [cell_type not in [None, 'n']] is the negation of this test. *)
Definition numeric_type (cell : element) : bool :=
  match get cell "t" with
  | None => true
  | Some t => String.eqb t "n"
  end.

(** The body of [if cell.get('r') == cell_ref:] for one matching cell.  The
    result is the cell after the visit and the increment of
    [updated_count]. *)
Definition update_cell (markup : spec_float) (cell : element) : element * nat :=
  if negb (numeric_type cell) then (cell, 0%nat)
  else
    match find_child "v" cell with
    | Some value_elem =>
        match text value_elem with
        | Some s =>
            if String.eqb s EmptyString then (cell, 0%nat)
            else
              match py_float s with
              | Some old_price =>
                  let new_price := float_add old_price markup in
                  (set_children
                     (update_first (has_tag "v")
                        (set_text (Some (py_str new_price)))
                        (children cell)) cell,
                   1%nat)
              | None => (cell, 0%nat)
              end
        | None => (cell, 0%nat)
        end
    | None => (cell, 0%nat)
    end.

(** One turn of [for cell in row.findall(f'{{{ns}}}c')]; children of the row
    with another tag are not visited. *)
Definition visit_cell (cell_ref : string) (markup : spec_float)
    (cell : element) : element * nat :=
  if has_tag "c" cell then
    match get cell "r" with
    | Some r => if String.eqb r cell_ref then update_cell markup cell
                else (cell, 0%nat)
    | None => (cell, 0%nat)
    end
  else (cell, 0%nat).

(** The inner [for] loop, threading [updated_count]. *)
Fixpoint visit_cells (cell_ref : string) (markup : spec_float)
    (cells : list element) (updated_count : nat) : list element * nat :=
  match cells with
  | [] => ([], updated_count)
  | cell :: rest =>
      let '(cell', k) := visit_cell cell_ref markup cell in
      let '(rest', n) := visit_cells cell_ref markup rest (updated_count + k) in
      (cell' :: rest', n)
  end.

(** [int(row.get('r', 0))]; [None] when [int] raises. *)
Definition row_number (row : element) : option Z :=
  match get row "r" with
  | None => Some 0
  | Some r => py_int r
  end.

(** [f'{column_letter}{row_num}'] *)
Definition cell_ref_of (column_letter : string) (row_num : Z) : string :=
  (column_letter ++ str_int row_num)%string.

(** One turn of [for row in sheet_data.findall(f'{{{ns}}}row')]. *)
Definition visit_row (column_letter : string) (markup : spec_float)
    (header_row : Z) (row : element) (updated_count : nat)
    : option (element * nat) :=
  if has_tag "row" row then
    row_num ← row_number row;
    if row_num <=? header_row then Some (row, updated_count)
    else
      let '(cells', n) :=
        visit_cells (cell_ref_of column_letter row_num) markup
                    (children row) updated_count in
      Some (set_children cells' row, n)
  else Some (row, updated_count).

(** The outer [for] loop; [None] when a row number does not convert. *)
Fixpoint visit_rows (column_letter : string) (markup : spec_float)
    (header_row : Z) (rows : list element) (updated_count : nat)
    : option (list element * nat) :=
  match rows with
  | [] => Some ([], updated_count)
  | row :: rest =>
      '(row', k) ← visit_row column_letter markup header_row row updated_count;
      '(rest', n) ← visit_rows column_letter markup header_row rest k;
      Some (row' :: rest', n)
  end.

(** What a call of [_update_sheet_prices] does with the parsed tree. *)
Inductive sheet_result :=
  | SheetError                               (* [except Exception]: return 0 *)
  | SheetNoData                              (* [sheet_data is None]: return 0 *)
  | SheetWritten (root : element) (updated_count : nat).

Definition update_tree (root : element) (markup : spec_float)
    (price_column header_row : Z) : sheet_result :=
  let column_letter := Column._column_number_to_letter price_column in
  match find_desc "sheetData" root with
  | None => SheetNoData
  | Some sheet_data =>
      match visit_rows column_letter markup header_row
                       (children sheet_data) 0%nat with
      | None => SheetError
      | Some (rows', updated_count) =>
          SheetWritten
            (subst_desc "sheetData" (set_children rows' sheet_data) root)
            updated_count
      end
  end.

End Rewriter.

(** ** The archive and the scratch directory *)

(** A path relative to the root of the archive, as its components:
    [xl/worksheets/sheet1.xml] is [["xl"; "worksheets"; "sheet1.xml"]]. *)
Abbreviation path := (list string).

(** A member of the input archive: a file with its decompressed bytes, or a
    directory entry (a member whose name ends in [/]). *)
Inductive zentry :=
  | ZFile (name : path) (data : bytes)
  | ZDir (name : path).

(** The extracted tree under [extract_dir]: the regular files with their
    bytes, and the directories.  The root [[]] is [extract_dir] itself. *)
Record fs := { fs_files : gmap path bytes; fs_dirs : gset path }.

Definition fs_empty : fs := {| fs_files := ∅; fs_dirs := {[ [] ]} |}.

(** The non-empty prefixes of a path, the path itself included. *)
Fixpoint inits1 (p : path) : list path :=
  match p with
  | [] => []
  | c :: p' => [c] :: map (cons c) (inits1 p')
  end.

(** [os.path.dirname] *)
Definition dirname (p : path) : path := removelast p.

(** [zipfile] drops the empty, [.] and [..] components of a member name
    before it joins it to the target directory. *)
Definition valid_part (c : string) : bool :=
  negb (String.eqb c EmptyString || String.eqb c "." || String.eqb c "..").

Definition sanitize (p : path) : path := filter (fun c => Is_true (valid_part c)) p.

Definition is_file (s : fs) (p : path) : bool := bool_decide (p ∈ dom (fs_files s)).
Definition is_dir (s : fs) (p : path) : bool := bool_decide (p ∈ fs_dirs s).

(** [os.makedirs(d)] where needed; fails when a component of [d] exists as a
    regular file. *)
Definition makedirs (d : path) (s : fs) : option fs :=
  if existsb (is_file s) (inits1 d) then None
  else Some {| fs_files := fs_files s;
               fs_dirs := fs_dirs s ∪ list_to_set (inits1 d) |}.

(** [ZipFile._extract_member] *)
Definition extract_member (s : fs) (m : zentry) : option fs :=
  match m with
  | ZDir name => makedirs (sanitize name) s
  | ZFile name data =>
      let target := sanitize name in
      s' ← makedirs (dirname target) s;
      if is_dir s' target then None
      else Some {| fs_files := <[target := data]> (fs_files s');
                   fs_dirs := fs_dirs s' |}
  end.

(** [zip_ref.extractall(extract_dir)] *)
Fixpoint extractall (members : list zentry) (s : fs) : option fs :=
  match members with
  | [] => Some s
  | m :: rest => s' ← extract_member s m; extractall rest s'
  end.

(** [os.path.exists] *)
Definition exists_ (s : fs) (p : path) : bool := is_dir s p || is_file s p.

(** The entry [p] seen from the directory [d]: its name when it lies directly
    in [d]. *)
Definition child_name (d p : path) : option string :=
  match p with
  | [] => None
  | _ => if bool_decide (removelast p = d) then last p else None
  end.

(** [os.listdir(d)]; [None] when [d] is not a directory.  The order of the
    names is the one in which the file system hands them out. *)
Definition listdir (s : fs) (d : path) : option (list string) :=
  if is_dir s d then
    Some (omap (child_name d) (elements (dom (fs_files s) ∪ fs_dirs s)))
  else None.

(** [name.endswith(suffix)] *)
Definition endswith (name suffix : string) : bool :=
  bool_decide (list_ascii_of_string suffix `suffix_of` list_ascii_of_string name).

(** [os.path.join(extract_dir, 'xl', 'worksheets')] *)
Definition worksheets_dir : path := ["xl"; "worksheets"]%string.
Arguments worksheets_dir : simpl never.

(** What [output_file] holds when the call returns: the copy of the input
    made by [shutil.copy2], or the archive written by
    [ZipFile(output_file, 'w')] with one member per [zip_ref.write]. *)
Inductive output :=
  | Copied
  | Packed (members : list (path * bytes)).

Section Orchestrator.
Context `{PyRuntime}.

(** [_update_sheet_prices] on the scratch directory: the directory after
    the call and the returned count. *)
Definition _update_sheet_prices (s : fs) (sheet_path : path)
    (markup : spec_float) (price_column header_row : Z) : fs * nat :=
  match fs_files s !! sheet_path ≫= xml_parse with
  | None => (s, 0%nat)
  | Some root =>
      match update_tree root markup price_column header_row with
      | SheetWritten root' updated_count =>
          ({| fs_files := <[sheet_path := xml_write root']> (fs_files s);
              fs_dirs := fs_dirs s |}, updated_count)
      | SheetNoData | SheetError => (s, 0%nat)
      end
  end.

(** One turn of [for sheet_file in os.listdir(worksheets_dir)]. *)
Definition visit_sheet (markup : spec_float) (price_column header_row : Z)
    (st : fs * nat) (sheet_file : string) : fs * nat :=
  let '(s, total_updated) := st in
  if endswith sheet_file ".xml" then
    let '(s', updated) :=
      _update_sheet_prices s (worksheets_dir ++ [sheet_file])
                           markup price_column header_row in
    (s', (total_updated + updated)%nat)
  else (s, total_updated).

(** [for root, dirs, files in os.walk(extract_dir)]: every regular file with
    its path relative to [extract_dir]. *)
Definition walk (s : fs) : list (path * bytes) := map_to_list (fs_files s).

(** [update_prices_in_xlsx].  [input] is what [zipfile.ZipFile] finds in the
    copy of the input file: [None] when it is not a zip archive. *)
Definition update_prices_in_xlsx (input : option (list zentry))
    (markup : spec_float) (price_column header_row : Z) : output * nat :=
  match input with
  | None => (Copied, 0%nat)
  | Some members =>
      match extractall members fs_empty with
      | None => (Copied, 0%nat)
      | Some s =>
          if negb (exists_ s worksheets_dir) then (Copied, 0%nat)
          else
            match listdir s worksheets_dir with
            | None => (Copied, 0%nat)
            | Some sheet_files =>
                let '(s', total_updated) :=
                  foldl (visit_sheet markup price_column header_row)
                        (s, 0%nat) sheet_files in
                (Packed (walk s'), total_updated)
            end
      end
  end.

End Orchestrator.

(** ** The vocabulary of the specification

    The notions the properties are stated with: which cells are eligible,
    what a rewritten cell looks like, which parts are worksheet documents,
    and what an archive holds when it is read by member name. *)

(** A worksheet document: a member directly in [xl/worksheets] whose name
    ends in [.xml]. *)
Definition is_sheet (p : path) : bool :=
  bool_decide (dirname p = worksheets_dir)
  && match last p with
     | Some name => endswith name ".xml"
     | None => false
     end.

Section Vocabulary.
Context `{PyRuntime}.

(** The number the value node of a cell holds: the text of the first [v]
    child, when it is not empty and [float] accepts it. *)
Definition cell_value (cell : element) : option spec_float :=
  value_elem ← find_child "v" cell;
  s ← text value_elem;
  if String.eqb s EmptyString then None else py_float s.

(** Zeros and finite floats; the infinities and nan are not. *)
Definition is_finite (x : spec_float) : bool :=
  match x with
  | S754_zero _ | S754_finite _ _ _ => true
  | S754_infinity _ | S754_nan => false
  end.

(** The cell lies in the target column of a data row: its reference is the
    column letter followed by the number of the row that owns it, and that
    number is strictly greater than the header row. *)
Definition in_target (column_letter : string) (header_row : Z)
    (row cell : element) : bool :=
  has_tag "row" row && has_tag "c" cell &&
  match row_number row with
  | Some row_num =>
      (header_row <? row_num)
      && bool_decide (get cell "r" = Some (cell_ref_of column_letter row_num))
  | None => false
  end.

(** Eligibility as the rewriter decides it: conditions (a), (b), (c) and a
    value that [float] accepts. *)
Definition eligible (column_letter : string) (header_row : Z)
    (row cell : element) : bool :=
  in_target column_letter header_row row cell
  && numeric_type cell
  && bool_decide (is_Some (cell_value cell)).

(** Eligibility as the data model words it: the value is moreover finite. *)
Definition eligible_finite (column_letter : string) (header_row : Z)
    (row cell : element) : bool :=
  in_target column_letter header_row row cell
  && numeric_type cell
  && match cell_value cell with Some x => is_finite x | None => false end.

(** The cell with the text of its value node replaced by [g] of the old
    value; the cell itself when it has no value. *)
Definition map_value (g : spec_float -> spec_float) (cell : element) : element :=
  match cell_value cell with
  | Some x =>
      set_children
        (update_first (has_tag "v") (set_text (Some (py_str (g x))))
                      (children cell)) cell
  | None => cell
  end.

(** What one call does to a value: [old_price + markup]. *)
Definition add_markup (markup : spec_float) : spec_float -> spec_float :=
  fun old_price => float_add old_price markup.

(** A row with every eligible cell rewritten and nothing else touched. *)
Definition map_row (g : spec_float -> spec_float) (column_letter : string)
    (header_row : Z) (row : element) : element :=
  set_children
    (map (fun cell => if eligible column_letter header_row row cell
                      then map_value g cell else cell)
         (children row)) row.

(** The number of eligible cells of a list of rows. *)
Definition eligible_count (column_letter : string) (header_row : Z)
    (rows : list element) : nat :=
  sum_list
    (map (fun row =>
            length (List.filter (eligible column_letter header_row row)
                                (children row)))
         rows).

(** Every row number of the sheet converts: the rewrite of the sheet does
    not fail half way. *)
Definition rows_numbered (rows : list element) : bool :=
  forallb (fun row => negb (has_tag "row" row)
                      || bool_decide (is_Some (row_number row))) rows.

(** The contribution of one worksheet part to the returned count: its
    eligible cells when it parses, has a [sheetData] and all its row numbers
    convert; nothing otherwise. *)
Definition document_count (data : bytes) (price_column header_row : Z) : nat :=
  match xml_parse data with
  | Some root =>
      match find_desc "sheetData" root with
      | Some sheet_data =>
          if rows_numbered (children sheet_data)
          then eligible_count (Column._column_number_to_letter price_column)
                              header_row (children sheet_data)
          else 0%nat
      | None => 0%nat
      end
  | None => 0%nat
  end.

(** The bytes written back for a worksheet part and the count returned
    for it, when its rewrite goes through; [None] when the part is left as
    it is (it does not parse, it has no [sheetData], or a row number does
    not convert). *)
Definition sheet_outcome (markup : spec_float) (price_column header_row : Z)
    (data : bytes) : option (bytes * nat) :=
  root ← xml_parse data;
  match update_tree root markup price_column header_row with
  | SheetWritten root' updated_count => Some (xml_write root', updated_count)
  | SheetNoData | SheetError => None
  end.

(** The bytes of the member [p] after the loop over the worksheet parts. *)
Definition rewrite_member (markup : spec_float) (price_column header_row : Z)
    (p : path) (data : bytes) : bytes :=
  if is_sheet p then
    match sheet_outcome markup price_column header_row data with
    | Some (data', _) => data'
    | None => data
    end
  else data.

(** What the entry [sheet_file] of [xl/worksheets] adds to the total. *)
Definition contribution (markup : spec_float) (price_column header_row : Z)
    (s : fs) (sheet_file : string) : nat :=
  if endswith sheet_file ".xml" then
    match fs_files s !! (worksheets_dir ++ [sheet_file])
          ≫= sheet_outcome markup price_column header_row with
    | Some (_, updated_count) => updated_count
    | None => 0%nat
    end
  else 0%nat.

End Vocabulary.

(** The scratch directory with the part [p] rewritten to [data]. *)
Definition written (s : fs) (p : path) (data : bytes) : fs :=
  {| fs_files := <[p := data]> (fs_files s); fs_dirs := fs_dirs s |}.

(** The tree a successful rewrite leaves: the rows of the first [sheetData]
    replaced by [rows']. *)
Definition with_rows (root sheet_data : element) (rows' : list element) : element :=
  subst_desc "sheetData" (set_children rows' sheet_data) root.

(** The files of an archive by name, as [ZipFile.read(name)] and the
    extraction see them: the name normalised, the last member of a name
    winning. *)
Fixpoint archive_files (members : list zentry) (acc : gmap path bytes)
    : gmap path bytes :=
  match members with
  | [] => acc
  | ZFile name data :: rest => archive_files rest (<[sanitize name := data]> acc)
  | ZDir _ :: rest => archive_files rest acc
  end.

(** The member names of an archive, directory entries included. *)
Definition entry_name (m : zentry) : path :=
  match m with ZFile name _ | ZDir name => name end.

Definition namelist (members : list zentry) : list path := entry_name <$> members.

(** The member names of what [output_file] holds. *)
Definition output_namelist (input : list zentry) (out : output) : list path :=
  match out with
  | Copied => namelist input
  | Packed members => members.*1
  end.

(** The bytes of the member [p] of what [output_file] holds. *)
Definition output_read (input : list zentry) (out : output) (p : path)
    : option bytes :=
  match out with
  | Copied => archive_files input ∅ !! p
  | Packed members => (list_to_map members : gmap path bytes) !! p
  end.

(** ** Notions of the loop invariants and of two calls in a row *)

(** The members the loop has gone through, for the names [l]. *)
Definition visited_paths (l : list string) : list path :=
  (fun n => worksheets_dir ++ [n]) <$> l.

(** Every entry of the scratch directory lies on the way to a member. *)
Definition on_the_way (members : list zentry) (p : path) : Prop :=
  p = [] \/ exists m, m ∈ members /\ p `prefix_of` sanitize (entry_name m).

Definition all_on_the_way (members : list zentry) (s : fs) : Prop :=
  forall p, p ∈ dom (fs_files s) ∪ fs_dirs s -> on_the_way members p.

(** The worksheet part an entry of [xl/worksheets] names, with its bytes. *)
Definition sheet_entry (s : fs) (sheet_file : string) : option (path * bytes) :=
  if endswith sheet_file ".xml"
  then (fun data => (worksheets_dir ++ [sheet_file], data))
         <$> fs_files s !! (worksheets_dir ++ [sheet_file])
  else None.

(** The archive the second call opens: the members the first call wrote. *)
Definition repacked (packed : list (path * bytes)) : list zentry :=
  (fun pd => ZFile pd.1 pd.2) <$> packed.

(** A scratch directory as an extraction leaves it: the path of a file is
    normalised, it is not a directory, and the directories above it
    exist. *)
Definition well_formed (s : fs) : Prop :=
  forall p, p ∈ dom (fs_files s) ->
    sanitize p = p /\ p ∉ fs_dirs s
    /\ forall q, q ∈ inits1 (dirname p) -> q ∈ fs_dirs s.

Section Chain.
Context `{PyRuntime}.

(** The text [str] gives for a float converts back to that float. *)
Definition reparses (y : spec_float) : Prop :=
  py_str y <> EmptyString /\ py_float (py_str y) = Some y.

(** Every eligible value of the rows converts back after [g]. *)
Definition values_reparse (g : spec_float -> spec_float)
    (column_letter : string) (header_row : Z) (rows : list element) : Prop :=
  forall row cell x,
    row ∈ rows -> cell ∈ children row ->
    eligible column_letter header_row row cell = true ->
    cell_value cell = Some x ->
    reparses (g x).

(** A worksheet part for which the chain can be followed: what the first
    call writes parses back to the tree it wrote, and so do the new values
    of its eligible cells. *)
Definition rewrite_reparses (markup : spec_float) (price_column header_row : Z)
    (data : bytes) : Prop :=
  forall root sheet_data,
    xml_parse data = Some root ->
    find_desc "sheetData" root = Some sheet_data ->
    rows_numbered (children sheet_data) = true ->
    let column_letter := Column._column_number_to_letter price_column in
    let root' :=
      with_rows root sheet_data
        (map (map_row (add_markup markup) column_letter header_row)
             (children sheet_data)) in
    xml_parse (xml_write root') = Some root'
    /\ values_reparse (add_markup markup) column_letter header_row
                      (children sheet_data).

End Chain.

(** * Configuration and the choice of a processor

    A shallow embedding of the pure parts of [src/config.py],
    [src/base_processor.py] ([detect_file_type]), [src/processors.py]
    (the factory and [StandardPriceProcessor._process_workbook]) and of the
    configuration step of [src/unified_bot.py].

    Conventions of the embedding:
    - [os.environ], as [load_dotenv()] leaves it, is a finite map from names
      to values; [os.path.exists] is a predicate on paths handed to the
      functions that call it;
    - [str.lower] and [os.path.basename], whose bodies are not part of the
      repository, are the fields of the class [PyText];
    - a function that can raise returns a [result]; the only exception these
      functions raise is [ValueError], and each place that raises it has its
      constructor in [exn] (the messages are not modelled). *)

(** ** Exceptions *)

Inductive exn :=
  | NotSet (name : string)          (* a required variable is unset or empty *)
  | NotANumber (text : string)      (* [int(text)], [float(text)] *)
  | CredentialsNotFound (credentials_file : string)
  | UnknownFileType (file_type : string).

Inductive result (A : Type) :=
  | Ok (a : A)
  | Raise (e : exn).
Arguments Ok {A} a.
Arguments Raise {A} e.

#[global] Instance result_bind : MBind result :=
  fun A B f r => match r with Ok a => f a | Raise e => Raise e end.

(** ** The environment *)

Abbreviation environ := (gmap string string).

(** [os.getenv(name)] *)
Definition getenv (env : environ) (name : string) : option string := env !! name.

(** [os.getenv(name, fallback)] *)
Definition getenv_default (env : environ) (name fallback : string) : string :=
  default fallback (env !! name).

(** The value of an optional string when it is truthy: [None] and the empty
    string are not. *)
Definition truthy (value : option string) : option string :=
  match value with
  | Some s => if String.eqb s EmptyString then None else Some s
  | None => None
  end.

(** [value = os.getenv(name)], then [if not value: raise ValueError(...)] *)
Definition required (env : environ) (name : string) : result string :=
  match truthy (getenv env name) with
  | Some value => Ok value
  | None => Raise (NotSet name)
  end.

Class PyText := {
  (** [s.lower()] *)
  str_lower : string -> string;
  (** [os.path.basename(p)] *)
  path_basename : string -> string
}.

Section Conversions.
Context `{PyRuntime}.

(** [int(text)] *)
Definition to_int (text : string) : result Z :=
  match py_int text with
  | Some n => Ok n
  | None => Raise (NotANumber text)
  end.

(** [float(text)] *)
Definition to_float (text : string) : result spec_float :=
  match py_float text with
  | Some x => Ok x
  | None => Raise (NotANumber text)
  end.

End Conversions.

(** ** [config.py] *)

Module TelegramUserConfig.

Record t := {
  api_id : Z;
  api_hash : string;
  phone : string;
  session_name : string
}.

Section Env.
Context `{PyRuntime}.

Definition from_env (env : environ) : result t :=
  api_id ← required env "TELEGRAM_API_ID";
  api_hash ← required env "TELEGRAM_API_HASH";
  phone ← required env "TELEGRAM_PHONE";
  let session_name := getenv_default env "TELEGRAM_SESSION_NAME" "user_session" in
  api_id ← to_int api_id;
  Ok {| api_id := api_id; api_hash := api_hash; phone := phone;
        session_name := session_name |}.

End Env.

End TelegramUserConfig.

Module BotConfig.

Record t := {
  bot_token : string;
  target_channel_id : string
}.

Definition from_env (env : environ) : result t :=
  bot_token ← required env "BOT_TOKEN";
  target_channel_id ← required env "TARGET_CHANNEL_ID";
  Ok {| bot_token := bot_token; target_channel_id := target_channel_id |}.

End BotConfig.

Module GoogleSheetsConfig.

Record t := {
  credentials_file : string;
  spreadsheet_id : string
}.

(** [None] in the result is the [None] the function returns when
    [required] is false. *)
Definition from_env (path_exists : string -> bool) (env : environ)
    (required : bool) : result (option t) :=
  let credentials_file :=
    getenv_default env "GOOGLE_SHEETS_CREDENTIALS_FILE" "credentials.json" in
  match truthy (getenv env "CIFROVOY_RAY_SPREADSHEET_ID") with
  | None =>
      if negb required then Ok None
      else Raise (NotSet "CIFROVOY_RAY_SPREADSHEET_ID")
  | Some spreadsheet_id =>
      if negb (path_exists credentials_file) then
        if required then Raise (CredentialsNotFound credentials_file)
        else Ok None
      else Ok (Some {| credentials_file := credentials_file;
                       spreadsheet_id := spreadsheet_id |})
  end.

End GoogleSheetsConfig.

Module DataSourcesConfig.

Record t := {
  enable_xtreme_case : bool;
  enable_cifrovoy_ray : bool;
  xtreme_case_channel_id : option string
}.

Section Env.
Context `{PyText}.

Definition from_env (env : environ) : result t :=
  let enable_xtreme_case :=
    String.eqb (str_lower (getenv_default env "ENABLE_XTREME_CASE" "true"))
               "true" in
  let enable_cifrovoy_ray :=
    String.eqb (str_lower (getenv_default env "ENABLE_CIFROVOY_RAY" "false"))
               "true" in
  xtreme_case_channel_id ←
    (if enable_xtreme_case
     then channel ← required env "XTREME_CASE_CHANNEL_ID"; Ok (Some channel)
     else Ok None);
  Ok {| enable_xtreme_case := enable_xtreme_case;
        enable_cifrovoy_ray := enable_cifrovoy_ray;
        xtreme_case_channel_id := xtreme_case_channel_id |}.

End Env.

End DataSourcesConfig.

Module ProcessorConfig.

Record t := {
  markup_value : spec_float;
  price_col_index : Z;
  header_row : Z;
  output_subdir : string
}.

Section Env.
Context `{PyRuntime}.

Definition xtreme_case (env : environ) : result t :=
  markup ← to_float (getenv_default env "MARKUP_XTREME_CASE" "200");
  Ok {| markup_value := markup; price_col_index := 4; header_row := 5;
        output_subdir := "processed_files" |}.

Definition cifrovoy_ray (env : environ) : result t :=
  markup ← to_float (getenv_default env "MARKUP_CIFROVOY_RAY" "50");
  Ok {| markup_value := markup; price_col_index := 4; header_row := 5;
        output_subdir := "processed_files" |}.

Definition default (env : environ) : result t :=
  markup ← to_float (getenv_default env "MARKUP_DEFAULT" "50");
  Ok {| markup_value := markup; price_col_index := 4; header_row := 5;
        output_subdir := "processed_files" |}.

End Env.

End ProcessorConfig.

Module AppConfig.

Record t := {
  temp_dir : string;
  output_dir : string;
  log_level : string;
  log_file : string;
  telegram_check_interval : Z;
  sheets_check_interval : Z
}.

Section Env.
Context `{PyRuntime}.

Definition from_env (env : environ) : result t :=
  let temp_dir := getenv_default env "TEMP_DIR" "./temp" in
  let output_dir := getenv_default env "OUTPUT_DIR" "./processed_files" in
  let log_level := getenv_default env "LOG_LEVEL" "INFO" in
  let log_file := getenv_default env "LOG_FILE" "bot.log" in
  telegram_check_interval ←
    to_int (getenv_default env "TELEGRAM_CHECK_INTERVAL" "60");
  sheets_check_interval ←
    to_int (getenv_default env "SHEETS_CHECK_INTERVAL" "300");
  Ok {| temp_dir := temp_dir; output_dir := output_dir;
        log_level := log_level; log_file := log_file;
        telegram_check_interval := telegram_check_interval;
        sheets_check_interval := sheets_check_interval |}.

End Env.

End AppConfig.

Section Getters.
Context `{PyRuntime} `{PyText}.

Definition get_telegram_user_config (env : environ)
    : result TelegramUserConfig.t :=
  TelegramUserConfig.from_env env.

Definition get_bot_config (env : environ) : result BotConfig.t :=
  BotConfig.from_env env.

Definition get_google_sheets_config (path_exists : string -> bool)
    (env : environ) (required : bool) : result (option GoogleSheetsConfig.t) :=
  GoogleSheetsConfig.from_env path_exists env required.

Definition get_data_sources_config (env : environ) : result DataSourcesConfig.t :=
  DataSourcesConfig.from_env env.

Definition get_app_config (env : environ) : result AppConfig.t :=
  AppConfig.from_env env.

End Getters.

(** ** [base_processor.py]: [detect_file_type] *)

(** [keyword in file_name] on two strings *)
Fixpoint contains (keyword file_name : string) : bool :=
  String.prefix keyword file_name
  || match file_name with
     | EmptyString => false
     | String _ rest => contains keyword rest
     end.

Section Detection.
Context `{PyText}.

Definition detect_file_type (file_path : string) : string :=
  let file_name := str_lower (path_basename file_path) in
  if existsb (fun keyword => contains keyword file_name)
             ["benks"; "energea"; "pitaka"; "uag"; "uniq"; "vaja"]%string
  then "xtreme_case"%string
  else if existsb (fun keyword => contains keyword file_name)
                  ["cifrovoy"; "digital"; "cr"]%string
  then "cifrovoy_ray"%string
  else "default"%string.

End Detection.

(** ** [processors.py] *)

Inductive processor_class :=
  | StandardPriceProcessor
  | MultiSheetPriceProcessor
  | XtremeCaseProcessor       (* a [StandardPriceProcessor] *)
  | CifrovoyRayProcessor.     (* a [MultiSheetPriceProcessor] *)

(** [isinstance(processor, MultiSheetPriceProcessor)] *)
Definition splits_sheets (c : processor_class) : bool :=
  match c with
  | MultiSheetPriceProcessor | CifrovoyRayProcessor => true
  | StandardPriceProcessor | XtremeCaseProcessor => false
  end.

(** A processor: its class and the configuration [BasePriceProcessor.__init__]
    copies into its attributes. *)
Record processor := {
  class_of : processor_class;
  config : ProcessorConfig.t
}.

Section Processors.
Context `{PyRuntime} `{PyText}.

(** [StandardPriceProcessor._process_workbook], inherited by
    [XtremeCaseProcessor]; [input] is what [zipfile.ZipFile] finds in
    [input_file]. *)
Definition _process_workbook (self : processor) (input : option (list zentry))
    : output * nat :=
  update_prices_in_xlsx input
    (ProcessorConfig.markup_value (config self))
    (ProcessorConfig.price_col_index (config self))
    (ProcessorConfig.header_row (config self)).

(** [XtremeCaseProcessor(config)] *)
Definition new_XtremeCaseProcessor (env : environ)
    (config : option ProcessorConfig.t) : result processor :=
  config ← match config with
           | None => ProcessorConfig.xtreme_case env
           | Some config => Ok config
           end;
  Ok {| class_of := XtremeCaseProcessor; config := config |}.

(** [CifrovoyRayProcessor(config)] *)
Definition new_CifrovoyRayProcessor (env : environ)
    (config : option ProcessorConfig.t) : result processor :=
  config ← match config with
           | None => ProcessorConfig.cifrovoy_ray env
           | Some config => Ok config
           end;
  Ok {| class_of := CifrovoyRayProcessor; config := config |}.

End Processors.

Module ProcessorFactory.

Section Env.
Context `{PyRuntime} `{PyText}.

Definition create_processor (env : environ) (file_type : string)
    (config : option ProcessorConfig.t) : result processor :=
  if String.eqb file_type "xtreme_case" then new_XtremeCaseProcessor env config
  else if String.eqb file_type "cifrovoy_ray"
  then new_CifrovoyRayProcessor env config
  else if String.eqb file_type "default" then
    config ← match config with
             | None => ProcessorConfig.default env
             | Some config => Ok config
             end;
    Ok {| class_of := StandardPriceProcessor; config := config |}
  else Raise (UnknownFileType file_type).

Definition auto_create_processor (env : environ) (file_path : string)
    : result processor :=
  temp_processor ←
    (config ← ProcessorConfig.default env;
     Ok {| class_of := StandardPriceProcessor; config := config |});
  let file_type := detect_file_type file_path in
  create_processor env file_type None.

End Env.

End ProcessorFactory.

(** ** [unified_bot.py]: the configuration step of [UnifiedPriceBot.__init__] *)

Module UnifiedPriceBot.

Record t := {
  data_sources_config : DataSourcesConfig.t;
  bot_config : BotConfig.t;
  app_config : AppConfig.t;
  telegram_user_config : option TelegramUserConfig.t;
  google_sheets_config : option GoogleSheetsConfig.t
}.

Section Env.
Context `{PyRuntime} `{PyText}.

Definition __init__ (path_exists : string -> bool) (env : environ) : result t :=
  data_sources_config ← get_data_sources_config env;
  bot_config ← get_bot_config env;
  app_config ← get_app_config env;
  telegram_user_config ←
    (if DataSourcesConfig.enable_xtreme_case data_sources_config
     then c ← get_telegram_user_config env; Ok (Some c)
     else Ok None);
  google_sheets_config ←
    (if DataSourcesConfig.enable_cifrovoy_ray data_sources_config
     then get_google_sheets_config path_exists env true
     else Ok None);
  Ok {| data_sources_config := data_sources_config;
        bot_config := bot_config;
        app_config := app_config;
        telegram_user_config := telegram_user_config;
        google_sheets_config := google_sheets_config |}.

(** The variables the step reads when both sources are switched off. *)
Definition core_variables : list string :=
  [ "ENABLE_XTREME_CASE"; "ENABLE_CIFROVOY_RAY"; "BOT_TOKEN";
    "TARGET_CHANNEL_ID"; "TEMP_DIR"; "OUTPUT_DIR"; "LOG_LEVEL"; "LOG_FILE";
    "TELEGRAM_CHECK_INTERVAL"; "SHEETS_CHECK_INTERVAL" ]%string.

End Env.

End UnifiedPriceBot.

(** ** A reference runtime for the examples

    The examples below need the library calls on a few concrete arguments.
    [Demo] gives them there: the conversions agree with Python on ASCII
    decimal integers with an optional minus sign and an optional [.0], on the
    spellings [inf], [Infinity], [-inf] and [nan], and on the floats those
    denote while they stay integers of magnitude below 10^16; the XML codec
    agrees with ElementTree on the documents listed in [Demo.documents] and on
    the trees the rewriter makes of them. *)

Module Demo.

Definition int_of_text (s : string) : option Z :=
  Z.of_int <$> NilZero.int_of_string s.

(** The float nearest to an integer, ties to even. *)
Definition float_of_Z (negative : bool) (z : Z) : spec_float :=
  binary_normalize 53 1024 z 0 negative.

Definition strip_suffix (suffix s : string) : string :=
  if endswith s suffix
  then String.substring 0 (String.length s - String.length suffix) s
  else s.

Definition float_of_text (s : string) : option spec_float :=
  if String.eqb s "inf" || String.eqb s "Infinity" then Some (S754_infinity false)
  else if String.eqb s "-inf" then Some (S754_infinity true)
  else if String.eqb s "nan" then Some S754_nan
  else z ← int_of_text (strip_suffix ".0" s);
       Some (float_of_Z (String.prefix "-" s) z).

(** The integer a finite float denotes, when it denotes one. *)
Definition integer_value (m : positive) (e : Z) : option Z :=
  if 0 <=? e then Some (Z.pos m * 2 ^ e)
  else if Z.pos m mod 2 ^ (- e) =? 0 then Some (Z.pos m / 2 ^ (- e))
  else None.

Definition str_float (x : spec_float) : string :=
  match x with
  | S754_nan => "nan"
  | S754_infinity false => "inf"
  | S754_infinity true => "-inf"
  | S754_zero false => "0.0"
  | S754_zero true => "-0.0"
  | S754_finite s m e =>
      match integer_value m e with
      | Some z =>
          if z <? 10 ^ 16
          then ((if s then "-" else EmptyString) ++ str_int z ++ ".0")%string
          else "?"
      | None => "?"
      end
  end.

(** *** Serialisation, as [tree.write] does it for trees in the main
    namespace whose strings need no escaping *)

Definition dquote : string := String (ascii_of_nat 34) EmptyString.
Definition newline : string := String (ascii_of_nat 10) EmptyString.

Definition local_name (t : string) : string :=
  String.substring (String.length (qname EmptyString))
                   (String.length t - String.length (qname EmptyString)) t.

Definition write_attrib (kv : string * string) : string :=
  (" " ++ fst kv ++ "=" ++ dquote ++ snd kv ++ dquote)%string.

Definition concat_strings (l : list string) : string :=
  fold_right String.append EmptyString l.

Definition opt_string (o : option string) : string :=
  match o with Some s => s | None => EmptyString end.

Fixpoint write_element (extra : string) (e : element) : string :=
  let name := local_name (tag e) in
  let opening :=
    ("<" ++ name ++ concat_strings (map write_attrib (attrib e)) ++ extra)%string in
  let inner := concat_strings (map (write_element EmptyString) (children e)) in
  ((match text e, children e with
    | None, [] => opening ++ " />"
    | _, _ => opening ++ ">" ++ opt_string (text e) ++ inner ++ "</" ++ name ++ ">"
    end) ++ opt_string (tail e))%string.

Definition write_document (root : element) : string :=
  ("<?xml version='1.0' encoding='utf-8'?>" ++ newline
   ++ write_element (" xmlns=" ++ dquote ++ ns ++ dquote) root)%string.

(** *** The documents of the examples and their trees *)

Definition node (name : string) (a : list (string * string))
    (x : option string) (c : list element) : element :=
  Element (qname name) a x None c.

Definition cell (r : string) (a : list (string * string)) (v : string) : element :=
  node "c" (("r", r) :: a) None [node "v" [] (Some v) []].

Definition sheet_data (rows : list element) : element :=
  node "sheetData" [] None rows.

Definition sheet (rows : list element) : element :=
  node "worksheet" [] None [sheet_data rows].

Definition worksheet_open : string :=
  "<worksheet xmlns='http://schemas.openxmlformats.org/spreadsheetml/2006/main'>".

(** Header row 5, then D6 = 100, D7 = N/A, D8 = 250. *)
Definition prices_xml : string :=
  (worksheet_open ++ "<sheetData>"
   ++ "<row r='5'><c r='D5'><v>1</v></c></row>"
   ++ "<row r='6'><c r='C6' t='s'><v>0</v></c><c r='D6'><v>100</v></c></row>"
   ++ "<row r='7'><c r='D7'><v>N/A</v></c></row>"
   ++ "<row r='8'><c r='D8' t='n'><v>250</v></c></row>"
   ++ "</sheetData></worksheet>")%string.

Definition row (r : string) (cells : list element) : element :=
  node "row" [("r", r)] None cells.

Definition prices_rows : list element :=
  [ row "5" [cell "D5" [] "1"];
    row "6" [cell "C6" [("t", "s")] "0"; cell "D6" [] "100"];
    row "7" [cell "D7" [] "N/A"];
    row "8" [cell "D8" [("t", "n")] "250"] ]%string.

Definition prices_tree : element := sheet prices_rows.

(** D6 holds the spelling of an infinity. *)
Definition infinity_xml : string :=
  (worksheet_open ++ "<sheetData>"
   ++ "<row r='6'><c r='D6'><v>Infinity</v></c></row>"
   ++ "</sheetData></worksheet>")%string.

Definition infinity_rows : list element :=
  [ row "6" [cell "D6" [] "Infinity"] ]%string.

Definition infinity_tree : element := sheet infinity_rows.

(** The second row carries a row number that [int] rejects. *)
Definition badrow_xml : string :=
  (worksheet_open ++ "<sheetData>"
   ++ "<row r='6'><c r='D6'><v>100</v></c></row>"
   ++ "<row r='x'><c r='D7'><v>1</v></c></row>"
   ++ "</sheetData></worksheet>")%string.

Definition badrow_rows : list element :=
  [ row "6" [cell "D6" [] "100"]; row "x" [cell "D7" [] "1"] ]%string.

Definition badrow_tree : element := sheet badrow_rows.

(** D6 = 2^53, the first integer whose successor is not a float. *)
Definition large_xml : string :=
  (worksheet_open ++ "<sheetData>"
   ++ "<row r='6'><c r='D6'><v>9007199254740992</v></c></row>"
   ++ "</sheetData></worksheet>")%string.

Definition large_rows : list element :=
  [ row "6" [cell "D6" [] "9007199254740992"] ]%string.

Definition large_tree : element := sheet large_rows.

(** A document that is not well formed: the root element is never closed. *)
Definition malformed_xml : string := worksheet_open.

Definition documents : list (string * element) :=
  [ (prices_xml, prices_tree); (infinity_xml, infinity_tree);
    (badrow_xml, badrow_tree); (large_xml, large_tree) ].

(** The trees the rewriter writes in the examples; their serialisations
    parse back to them. *)
Definition large_tree_written : element :=
  sheet [ row "6" [cell "D6" [] "9007199254740992.0"] ]%string.

(** The tree of the price sheet after a rewrite with markup 50. *)
Definition prices_tree_written : element :=
  sheet [ row "5" [cell "D5" [] "1"];
          row "6" [cell "C6" [("t", "s")] "0"; cell "D6" [] "150.0"];
          row "7" [cell "D7" [] "N/A"];
          row "8" [cell "D8" [("t", "n")] "300.0"] ]%string.

(** The tree of the price sheet after a second rewrite with markup 50. *)
Definition prices_tree_written_twice : element :=
  sheet [ row "5" [cell "D5" [] "1"];
          row "6" [cell "C6" [("t", "s")] "0"; cell "D6" [] "200.0"];
          row "7" [cell "D7" [] "N/A"];
          row "8" [cell "D8" [("t", "n")] "350.0"] ]%string.

Definition rewritten_trees : list element :=
  [ large_tree_written; prices_tree_written ].

Definition lookup_document (s : string) : option element :=
  match List.find (fun d => String.eqb (fst d) s) documents with
  | Some d => Some (snd d)
  | None =>
      List.find (fun t => String.eqb (write_document t) s) rewritten_trees
  end.

Definition parse (b : bytes) : option element :=
  lookup_document (string_of_list_byte b).

Definition write (root : element) : bytes :=
  list_byte_of_string (write_document root).

Definition runtime : PyRuntime :=
  {| py_int := int_of_text;
     py_float := float_of_text;
     py_str := str_float;
     xml_parse := parse;
     xml_write := write |}.

(** *** Archives of the examples *)

Definition sheet_path (name : string) : path := worksheets_dir ++ [name].

Definition file (p : path) (s : string) : zentry := ZFile p (list_byte_of_string s).

Definition png : path := ["xl"; "media"; "image1.png"]%string.

Definition png_bytes : bytes := list_byte_of_string "PNG-image-bytes".

(** An archive with a picture and no worksheet part. *)
Definition picture_only : list zentry := [ZFile png png_bytes].

(** An archive whose first worksheet part is malformed and whose second one
    holds the prices, next to a picture. *)
Definition two_sheets : list zentry :=
  [ file (sheet_path "sheet1.xml") malformed_xml;
    file (sheet_path "sheet2.xml") prices_xml;
    ZFile png png_bytes ].

(** An archive with the price sheet and a picture. *)
Definition prices_archive : list zentry :=
  [ file (sheet_path "sheet1.xml") prices_xml; ZFile png png_bytes ].

(** An archive whose only sheet holds 2^53 in D6. *)
Definition large_archive : list zentry :=
  [ file (sheet_path "sheet1.xml") large_xml ].

(** An archive that lists a directory entry next to its worksheet part. *)
Definition with_directory_entry : list zentry :=
  [ ZDir ["xl"; "media"]%string; file (sheet_path "sheet1.xml") prices_xml ].

(** The scratch directory an archive extracts to (the empty one if the
    extraction fails). *)
Definition extracted (members : list zentry) : fs :=
  default fs_empty (extractall members fs_empty).

(** The scratch directory of an archive that holds one worksheet part. *)
Definition one_sheet (xml : string) : fs :=
  written fs_empty (sheet_path "sheet1.xml") (list_byte_of_string xml).

(** The markups of the examples, 50.0 and 1.0. *)
Definition fifty : spec_float := float_of_Z false 50.
Definition one : spec_float := float_of_Z false 1.

(** *** A worksheet part without [sheetData] and a runtime that parses it *)

Definition empty_xml : string := (worksheet_open ++ "</worksheet>")%string.

Definition empty_tree : element := node "worksheet" [] None [].

Definition parse_more (b : bytes) : option element :=
  if String.eqb (string_of_list_byte b) empty_xml then Some empty_tree
  else parse b.

Definition runtime_more : PyRuntime :=
  {| py_int := int_of_text;
     py_float := float_of_text;
     py_str := str_float;
     xml_parse := parse_more;
     xml_write := write |}.

(** An archive whose only worksheet part has no [sheetData]. *)
Definition empty_sheet_archive : list zentry :=
  [ file (sheet_path "sheet1.xml") empty_xml; ZFile png png_bytes ].

(** *** [str.lower] on ASCII strings and [os.path.basename] on POSIX paths *)

Definition lower_ascii (c : ascii) : ascii :=
  let n := nat_of_ascii c in
  if ((65 <=? n) && (n <=? 90))%nat then ascii_of_nat (n + 32) else c.

Fixpoint lower (s : string) : string :=
  match s with
  | EmptyString => EmptyString
  | String c rest => String (lower_ascii c) (lower rest)
  end.

Fixpoint basename (p : string) : string :=
  match p with
  | EmptyString => EmptyString
  | String c rest =>
      if Ascii.eqb c "/" || contains "/" rest then basename rest else p
  end.

Definition text_runtime : PyText :=
  {| str_lower := lower; path_basename := basename |}.

(** *** Environments of the examples *)

(** The Telegram source is on (the default), the sheets source is off (the
    default). *)
Definition environment : environ :=
  list_to_map
    [ ("BOT_TOKEN", "123456:token"); ("TARGET_CHANNEL_ID", "@prices");
      ("XTREME_CASE_CHANNEL_ID", "@xtreme"); ("TELEGRAM_API_ID", "12345");
      ("TELEGRAM_API_HASH", "0123abcd"); ("TELEGRAM_PHONE", "+10000000000");
      ("MARKUP_XTREME_CASE", "200") ]%string.

(** Both sources are off; the Telegram variables are absent. *)
Definition environment_off : environ :=
  list_to_map
    [ ("ENABLE_XTREME_CASE", "False"); ("BOT_TOKEN", "123456:token");
      ("TARGET_CHANNEL_ID", "@prices") ]%string.

(** Both sources are off; the Telegram variables are set all the same. *)
Definition environment_off_more : environ :=
  list_to_map
    [ ("ENABLE_XTREME_CASE", "False"); ("BOT_TOKEN", "123456:token");
      ("TARGET_CHANNEL_ID", "@prices"); ("TELEGRAM_API_ID", "not a number");
      ("XTREME_CASE_CHANNEL_ID", "@xtreme") ]%string.

(** The markup of plain price lists does not convert. *)
Definition environment_bad_markup : environ :=
  list_to_map [ ("MARKUP_DEFAULT", "fifty") ]%string.

(** No file exists. *)
Definition no_file (p : string) : bool := false.

End Demo.

(** * Properties *)

(** ** Column letters *)

Section ColumnFacts.
Import Column.

Lemma loop_nonpos n result : n <= 0 -> loop n result = result.
Proof.
  intros Hn. rewrite loop_equation_1.
  destruct (Z_lt_dec 0 n); [lia | reflexivity].
Qed.

Lemma loop_pos n result :
  0 < n -> loop n result = loop ((n - 1) / 26) (result ++ [letter_of (n - 1)]).
Proof.
  intros Hn. rewrite loop_equation_1.
  destruct (Z_lt_dec 0 n); [reflexivity | lia].
Qed.

(** The accumulator only ever grows at its end. *)
Lemma loop_acc n : forall result, loop n result = result ++ loop n [].
Proof.
  destruct (Z_le_gt_dec n 0) as [Hn | Hn].
  { intros result. rewrite !loop_nonpos by lia. by rewrite app_nil_r. }
  assert (0 <= n) as Hn0 by lia. clear Hn.
  revert n Hn0. apply (Z_lt_induction (fun n => forall result, _)).
  intros n IH result.
  destruct (Z_le_gt_dec n 0) as [Hn | Hn].
  { rewrite !loop_nonpos by lia. by rewrite app_nil_r. }
  rewrite (loop_pos n result), (loop_pos n []) by lia.
  assert ((n - 1) / 26 < n) by (apply Z.div_lt_upper_bound; lia).
  assert (0 <= (n - 1) / 26) by (apply Z.div_pos; lia).
  rewrite (IH ((n - 1) / 26) ltac:(lia) (result ++ _)).
  rewrite (IH ((n - 1) / 26) ltac:(lia) ([] ++ _)).
  by rewrite app_assoc.
Qed.

Lemma digit_of_letter_of k : digit_of (letter_of k) = k mod 26 + 1.
Proof.
  unfold digit_of, letter_of.
  assert (0 <= k mod 26 < 26) by (apply Z.mod_pos_bound; lia).
  rewrite nat_ascii_embedding by lia. lia.
Qed.

Lemma letter_to_number_snoc l c :
  letter_to_number (string_of_list_ascii (l ++ [c]))
  = letter_to_number (string_of_list_ascii l) * 26 + digit_of c.
Proof.
  unfold letter_to_number.
  rewrite !list_ascii_of_string_of_list_ascii, fold_left_app. reflexivity.
Qed.

(** The letters of a positive column: those of the quotient, then the last
    one. *)
Lemma letters_step n :
  0 < n ->
  rev (loop n []) = rev (loop ((n - 1) / 26) []) ++ [letter_of (n - 1)].
Proof.
  intros Hn. rewrite loop_pos by lia. rewrite loop_acc.
  rewrite rev_app_distr. reflexivity.
Qed.

Lemma letter_to_number_inverse n :
  0 <= n -> letter_to_number (_column_number_to_letter n) = n.
Proof.
  intros Hn0. generalize Hn0. revert n Hn0.
  apply (Z_lt_induction
           (fun n => 0 <= n ->
                     letter_to_number (_column_number_to_letter n) = n)).
  intros n IH Hn. unfold _column_number_to_letter in *.
  destruct (Z.eq_dec n 0) as [-> | Hne].
  { rewrite loop_nonpos by lia. reflexivity. }
  rewrite letters_step by lia. rewrite letter_to_number_snoc.
  assert ((n - 1) / 26 < n) by (apply Z.div_lt_upper_bound; lia).
  assert (0 <= (n - 1) / 26) by (apply Z.div_pos; lia).
  rewrite IH by lia. rewrite digit_of_letter_of.
  pose proof (Z.div_mod (n - 1) 26 ltac:(lia)). lia.
Qed.

End ColumnFacts.

(** C7.  [_column_number_to_letter] is the conventional spreadsheet
    lettering: for every column number from 1 to 18278 the reference inverse
    gives the number back, and 1, 26, 27, 52, 702 and 703 are A, Z, AA, AZ,
    ZZ and AAA. *)
Theorem column_letter_roundtrip :
  (forall n, 1 <= n <= 18278 ->
     Column.letter_to_number (Column._column_number_to_letter n) = n)
  /\ Column._column_number_to_letter 1 = "A"%string
  /\ Column._column_number_to_letter 26 = "Z"%string
  /\ Column._column_number_to_letter 27 = "AA"%string
  /\ Column._column_number_to_letter 52 = "AZ"%string
  /\ Column._column_number_to_letter 702 = "ZZ"%string
  /\ Column._column_number_to_letter 703 = "AAA"%string.
Proof.
  split.
  - intros n Hn. apply letter_to_number_inverse. lia.
  - repeat split; reflexivity.
Qed.

Lemma column_letter_roundtrip_witness :
  1 <= 18278 <= 18278
  /\ Column.letter_to_number (Column._column_number_to_letter 18278) = 18278.
Proof.
  split; [lia |]. apply (proj1 column_letter_roundtrip 18278). lia.
Defined.


(** ** The rewriter, cell by cell *)

Section RewriterFacts.
Context `{PyRuntime}.

Implicit Types (row cell root : element) (markup : spec_float).

Lemma set_children_id e : set_children (children e) e = e.
Proof. by destruct e. Qed.

Lemma children_set_children c e : children (set_children c e) = c.
Proof. by destruct e. Qed.

Lemma attrib_set_children c e : attrib (set_children c e) = attrib e.
Proof. by destruct e. Qed.

Lemma tag_set_children c e : tag (set_children c e) = tag e.
Proof. by destruct e. Qed.

Lemma has_tag_set_children name c e :
  has_tag name (set_children c e) = has_tag name e.
Proof. unfold has_tag. by rewrite tag_set_children. Qed.

Lemma get_set_children c e key : get (set_children c e) key = get e key.
Proof. unfold get. by rewrite attrib_set_children. Qed.

Lemma map_id_eq {A} (f : A -> A) (l : list A) :
  (forall x, x ∈ l -> f x = x) -> map f l = l.
Proof.
  induction l as [| x l IH]; intros Hf; [done |]. cbn.
  rewrite Hf by set_solver. rewrite IH; [done |]. intros; apply Hf; set_solver.
Qed.

Lemma update_cell_spec markup cell :
  update_cell markup cell
  = if numeric_type cell && bool_decide (is_Some (cell_value cell))
    then (map_value (add_markup markup) cell, 1%nat)
    else (cell, 0%nat).
Proof.
  unfold update_cell, map_value, cell_value, add_markup.
  destruct (numeric_type cell); cbn; [| done].
  destruct (find_child "v" cell) as [value_elem |]; cbn; [| done].
  destruct (text value_elem) as [s |]; cbn; [| done].
  destruct (String.eqb s EmptyString); cbn; [done |].
  destruct (py_float s); cbn; done.
Qed.

Lemma visit_cell_spec column_letter header_row markup row row_num cell :
  has_tag "row" row = true ->
  row_number row = Some row_num ->
  header_row < row_num ->
  visit_cell (cell_ref_of column_letter row_num) markup cell
  = if eligible column_letter header_row row cell
    then (map_value (add_markup markup) cell, 1%nat)
    else (cell, 0%nat).
Proof.
  intros Htag Hnum Hlt. unfold visit_cell, eligible, in_target.
  rewrite Htag, Hnum. cbn.
  destruct (has_tag "c" cell); cbn; [| done].
  assert ((header_row <? row_num) = true) as -> by (apply Z.ltb_lt; lia). cbn.
  destruct (get cell "r") as [r |]; cbn.
  - destruct (String.eqb_spec r (cell_ref_of column_letter row_num)) as [-> | Hne].
    + rewrite bool_decide_eq_true_2 by done. cbn. apply update_cell_spec.
    + rewrite bool_decide_eq_false_2 by congruence. done.
  - rewrite bool_decide_eq_false_2 by congruence. done.
Qed.

(** A cell that is not eligible is returned as it is, whatever the reference
    looked for. *)
Lemma visit_cells_spec cell_ref markup cells k :
  visit_cells cell_ref markup cells k
  = (map (fun cell => (visit_cell cell_ref markup cell).1) cells,
     (k + sum_list (map (fun cell => (visit_cell cell_ref markup cell).2) cells))%nat).
Proof.
  revert k. induction cells as [| cell rest IH]; intros k; cbn.
  - f_equal. lia.
  - destruct (visit_cell cell_ref markup cell) as [cell' j] eqn:Hc.
    rewrite IH. cbn. f_equal. lia.
Qed.

Lemma sum_indicator {A} (p : A -> bool) (l : list A) :
  sum_list (map (fun x => if p x then 1%nat else 0%nat) l)
  = length (List.filter p l).
Proof.
  induction l as [| x l IH]; cbn; [done |]. destruct (p x); cbn; lia.
Qed.

Lemma not_eligible_row column_letter header_row row cell :
  (has_tag "row" row = false
   \/ (exists row_num, row_number row = Some row_num /\ row_num <= header_row)
   \/ row_number row = None) ->
  eligible column_letter header_row row cell = false.
Proof.
  unfold eligible, in_target.
  intros [-> | [(row_num & -> & Hle) | ->]]; cbn; [done | | ].
  - assert ((header_row <? row_num) = false) as -> by (apply Z.ltb_ge; lia).
    by rewrite !andb_false_r.
  - by rewrite !andb_false_r.
Qed.

Lemma map_row_untouched g column_letter header_row row :
  (forall cell, eligible column_letter header_row row cell = false) ->
  map_row g column_letter header_row row = row.
Proof.
  intros Hel. unfold map_row. rewrite map_id_eq.
  - apply set_children_id.
  - intros cell _. by rewrite Hel.
Qed.

Lemma eligible_count_cons column_letter header_row row rows :
  eligible_count column_letter header_row (row :: rows)
  = (length (List.filter (eligible column_letter header_row row) (children row))
     + eligible_count column_letter header_row rows)%nat.
Proof. reflexivity. Qed.

Lemma filter_none {A} (p : A -> bool) (l : list A) :
  (forall x, p x = false) -> List.filter p l = [].
Proof.
  intros Hp. induction l as [| x l IH]; cbn; [done |]. by rewrite Hp.
Qed.

Lemma visit_row_spec column_letter markup header_row row k :
  visit_row column_letter markup header_row row k
  = if negb (has_tag "row" row) || bool_decide (is_Some (row_number row))
    then Some (map_row (add_markup markup) column_letter header_row row,
               (k + length (List.filter (eligible column_letter header_row row)
                                        (children row)))%nat)
    else None.
Proof.
  unfold visit_row.
  destruct (has_tag "row" row) eqn:Htag; cbn.
  - destruct (row_number row) as [row_num |] eqn:Hnum; cbn; [| done].
    destruct (Z.leb_spec row_num header_row) as [Hle | Hlt].
    + rewrite map_row_untouched, filter_none; cbn.
      * do 2 f_equal. lia.
      * intros; apply not_eligible_row; eauto.
      * intros; apply not_eligible_row; eauto.
    + rewrite visit_cells_spec. unfold map_row. do 2 f_equal.
      * f_equal. apply map_ext. intros cell.
        rewrite (visit_cell_spec _ header_row _ row) by done.
        by destruct (eligible _ _ _ _).
      * f_equal. rewrite <- sum_indicator. f_equal. apply map_ext. intros cell.
        rewrite (visit_cell_spec _ header_row _ row) by done.
        by destruct (eligible _ _ _ _).
  - rewrite map_row_untouched, filter_none; cbn.
    + do 2 f_equal. lia.
    + intros; apply not_eligible_row; eauto.
    + intros; apply not_eligible_row; eauto.
Qed.

(** The two loops compute the declarative rewrite of the rows and the number
    of eligible cells, or fail on a row number that does not convert. *)
Lemma visit_rows_spec column_letter markup header_row rows k :
  visit_rows column_letter markup header_row rows k
  = if rows_numbered rows
    then Some (map (map_row (add_markup markup) column_letter header_row) rows,
               (k + eligible_count column_letter header_row rows)%nat)
    else None.
Proof.
  revert k. induction rows as [| row rest IH]; intros k.
  - cbn. do 2 f_equal. unfold eligible_count. cbn. lia.
  - cbn [visit_rows rows_numbered forallb]. rewrite visit_row_spec.
    fold (rows_numbered rest). rewrite eligible_count_cons.
    destruct (negb (has_tag "row" row) || bool_decide (is_Some (row_number row)));
      cbn -[eligible_count]; [| done].
    rewrite IH.
    destruct (rows_numbered rest); cbn -[eligible_count]; [| done].
    do 2 f_equal. lia.
Qed.

Lemma update_tree_spec root markup price_column header_row :
  update_tree root markup price_column header_row
  = match find_desc "sheetData" root with
    | None => SheetNoData
    | Some sheet_data =>
        let column_letter := Column._column_number_to_letter price_column in
        if rows_numbered (children sheet_data)
        then SheetWritten
               (subst_desc "sheetData"
                  (set_children
                     (map (map_row (add_markup markup) column_letter header_row)
                          (children sheet_data)) sheet_data) root)
               (eligible_count column_letter header_row (children sheet_data))
        else SheetError
    end.
Proof.
  unfold update_tree. destruct (find_desc "sheetData" root); [| done].
  rewrite visit_rows_spec. cbn. by destruct (rows_numbered _).
Qed.

End RewriterFacts.

(** ** Trees: finding and replacing the first descendant *)

Section TreeFacts.

Lemma element_induction (P : element -> Prop) :
  (forall t a x tl cs, Forall P cs -> P (Element t a x tl cs)) ->
  forall e, P e.
Proof.
  intros Hstep. fix IH 1. intros [t a x tl cs]. apply Hstep.
  induction cs as [| c cs IHcs]; constructor; [apply IH | apply IHcs].
Qed.

Lemma find_desc_unfold name e : find_desc name e = find_in name (children e).
Proof. destruct e as [t a x tl cs]. cbn. induction cs; cbn; [done |]. by rewrite IHcs. Qed.

Lemma subst_desc_unfold name new e :
  subst_desc name new e = set_children (subst_in name new (children e)) e.
Proof.
  destruct e as [t a x tl cs]. cbn. f_equal.
  induction cs; cbn; [done |]. by rewrite IHcs.
Qed.

Lemma find_desc_none_subst name new e :
  find_desc name e = None -> subst_desc name new e = e.
Proof.
  induction e as [t a x tl cs IH] using element_induction.
  rewrite find_desc_unfold, subst_desc_unfold. cbn. intros Hnone. f_equal.
  induction cs as [| c cs IHcs]; cbn in *; [done |].
  destruct (has_tag name c); [done |].
  destruct (find_desc name c) eqn:Hc; [done |].
  inversion IH; subst. f_equal. by apply IHcs.
Qed.

(** After the replacement the search finds the replacement. *)
Lemma find_desc_subst name new e :
  has_tag name new = true ->
  is_Some (find_desc name e) ->
  find_desc name (subst_desc name new e) = Some new.
Proof.
  intros Hnew. induction e as [t a x tl cs IH] using element_induction.
  rewrite subst_desc_unfold, !find_desc_unfold. cbn.
  induction cs as [| c cs IHcs]; cbn; intros Hsome.
  - by destruct Hsome.
  - inversion IH as [| ? ? IHc IHrest]; subst.
    destruct (has_tag name c) eqn:Hc; cbn.
    + by rewrite Hnew.
    + destruct (find_desc name c) eqn:Hd; cbn.
      * rewrite subst_desc_unfold, has_tag_set_children, Hc.
        rewrite <- subst_desc_unfold, IHc; [done | by eexists].
      * rewrite Hc, Hd. by apply IHcs.
Qed.

(** Replacing twice is replacing once by the second element. *)
Lemma subst_desc_subst name new new' e :
  has_tag name new = true ->
  subst_desc name new' (subst_desc name new e) = subst_desc name new' e.
Proof.
  intros Hnew. induction e as [t a x tl cs IH] using element_induction.
  rewrite !subst_desc_unfold. cbn. f_equal.
  induction cs as [| c cs IHcs]; cbn; [done |].
  inversion IH as [| ? ? IHc IHrest]; subst.
  destruct (has_tag name c) eqn:Hc; cbn.
  - by rewrite Hnew.
  - destruct (find_desc name c) eqn:Hd; cbn.
    + rewrite subst_desc_unfold, has_tag_set_children, Hc.
      rewrite <- subst_desc_unfold, find_desc_subst by (done || by eexists).
      by rewrite IHc.
    + rewrite Hc, Hd. f_equal. by apply IHcs.
Qed.

Lemma find_desc_has_tag name e d :
  find_desc name e = Some d -> has_tag name d = true.
Proof.
  induction e as [t a x tl cs IH] using element_induction.
  rewrite find_desc_unfold. cbn.
  induction cs as [| c cs IHcs]; cbn; [done |].
  inversion IH as [| ? ? IHc IHrest]; subst.
  destruct (has_tag name c) eqn:Hc; [by intros [= <-] |].
  destruct (find_desc name c) eqn:Hd; [intros [= <-]; by apply IHc |].
  by apply IHcs.
Qed.

End TreeFacts.

(** ** One worksheet part *)

Section SheetFacts.
Context `{PyRuntime}.

Lemma update_sheet_prices_spec s p markup price_column header_row data root sheet_data :
  fs_files s !! p = Some data ->
  xml_parse data = Some root ->
  find_desc "sheetData" root = Some sheet_data ->
  let column_letter := Column._column_number_to_letter price_column in
  _update_sheet_prices s p markup price_column header_row
  = if rows_numbered (children sheet_data)
    then (written s p
            (xml_write
               (with_rows root sheet_data
                  (map (map_row (add_markup markup) column_letter header_row)
                       (children sheet_data)))),
          eligible_count column_letter header_row (children sheet_data))
    else (s, 0%nat).
Proof.
  intros Hfile Hparse Hfind. unfold _update_sheet_prices.
  rewrite Hfile. cbn. rewrite Hparse, update_tree_spec, Hfind. cbn.
  by destruct (rows_numbered _).
Qed.

Lemma update_sheet_prices_unreadable s p markup price_column header_row :
  fs_files s !! p ≫= xml_parse = None ->
  _update_sheet_prices s p markup price_column header_row = (s, 0%nat).
Proof. intros Hnone. unfold _update_sheet_prices. by rewrite Hnone. Qed.

Lemma find_update_first name (f : element -> element) cs :
  (forall c, has_tag name (f c) = has_tag name c) ->
  List.find (has_tag name) (update_first (has_tag name) f cs)
  = f <$> List.find (has_tag name) cs.
Proof.
  intros Hf. induction cs as [| c cs IH]; cbn; [done |].
  destruct (has_tag name c) eqn:Hc; cbn.
  - by rewrite Hf, Hc.
  - by rewrite Hc.
Qed.

(** The value node of a rewritten cell carries the text of the new value. *)
Lemma find_child_map_value g cell x :
  cell_value cell = Some x ->
  find_child "v" (map_value g cell)
  = set_text (Some (py_str (g x))) <$> find_child "v" cell.
Proof.
  intros Hx. unfold map_value. rewrite Hx. unfold find_child.
  rewrite children_set_children. apply find_update_first. by intros [].
Qed.

(** The four conditions of eligibility, spelled out. *)
Lemma eligible_conditions column_letter header_row row cell :
  eligible column_letter header_row row cell = true
  <-> has_tag "row" row = true /\ has_tag "c" cell = true
      /\ numeric_type cell = true
      /\ (exists row_num,
            row_number row = Some row_num
            /\ get cell "r" = Some (cell_ref_of column_letter row_num)
            /\ header_row < row_num)
      /\ (exists x, cell_value cell = Some x).
Proof.
  unfold eligible, in_target. rewrite !andb_true_iff, !bool_decide_eq_true.
  split.
  - intros [[[[Hr Hc] Hn] Ht] [x Hx]].
    destruct (row_number row) as [row_num |]; [| done].
    apply andb_true_iff in Hn as [Hlt Href].
    apply bool_decide_eq_true in Href. apply Z.ltb_lt in Hlt.
    repeat split; eauto.
  - intros (Hr & Hc & Ht & (row_num & Hnum & Href & Hlt) & x & Hx).
    rewrite Hnum. repeat split; eauto.
    apply andb_true_iff. split; [by apply Z.ltb_lt | by apply bool_decide_eq_true].
Qed.

(** What [map_row] does at each position. *)
Lemma lookup_map_row g column_letter header_row rows i j row cell :
  rows !! i = Some row ->
  children row !! j = Some cell ->
  exists row',
    map (map_row g column_letter header_row) rows !! i = Some row'
    /\ attrib row' = attrib row /\ tag row' = tag row
    /\ length (children row') = length (children row)
    /\ children row' !! j
       = Some (if eligible column_letter header_row row cell
               then map_value g cell else cell).
Proof.
  intros Hrow Hcell. exists (map_row g column_letter header_row row).
  split; [by rewrite list_lookup_fmap, Hrow |].
  unfold map_row.
  rewrite attrib_set_children, tag_set_children, children_set_children.
  rewrite length_map, list_lookup_fmap, Hcell. done.
Qed.

End SheetFacts.

(** ** The scratch directory and the loop over the worksheet parts *)

Section DirectoryFacts.
Context `{PyRuntime}.

Implicit Types (s : fs) (p q d : path) (l : list string).

Lemma snoc_inj (d d' : path) (n n' : string) :
  d ++ [n] = d' ++ [n'] -> d = d' /\ n = n'.
Proof. intros Heq. apply app_inj_tail in Heq. done. Qed.

Lemma dirname_snoc d n : dirname (d ++ [n]) = d.
Proof. unfold dirname. apply removelast_last. Qed.

Lemma path_snoc p : p <> [] -> exists n, p = dirname p ++ [n] /\ last p = Some n.
Proof.
  intros Hne. destruct (exists_last Hne) as (d & n & ->).
  exists n. by rewrite dirname_snoc, last_snoc.
Qed.

Lemma child_name_spec d p n : child_name d p = Some n <-> p = d ++ [n].
Proof.
  unfold child_name. split.
  - destruct p as [| c p']; [done |]. case_bool_decide as Hd; [| done].
    intros Hlast. destruct (path_snoc (c :: p')) as (n' & Heq & Hlast'); [done |].
    fold (dirname (c :: p')) in Hd. rewrite Hd in Heq. congruence.
  - intros ->. destruct (d ++ [n]) as [| c p'] eqn:Heq.
    { by destruct d. }
    rewrite <- Heq. fold (dirname (d ++ [n])).
    rewrite dirname_snoc, bool_decide_eq_true_2 by done. apply last_snoc.
Qed.

Lemma is_sheet_snoc n : is_sheet (worksheets_dir ++ [n]) = endswith n ".xml".
Proof.
  unfold is_sheet. rewrite dirname_snoc, last_snoc.
  by rewrite bool_decide_eq_true_2.
Qed.

Lemma is_sheet_spec p :
  is_sheet p = true
  <-> exists n, p = worksheets_dir ++ [n] /\ endswith n ".xml" = true.
Proof.
  split.
  - unfold is_sheet. intros [Hd Hl]%andb_true_iff.
    apply bool_decide_eq_true in Hd.
    destruct (last p) as [n |] eqn:Hlast; [| done].
    exists n. split; [| done].
    apply last_Some in Hlast as [d' ->]. rewrite dirname_snoc in Hd. by subst.
  - intros (n & -> & Hn). by rewrite is_sheet_snoc.
Qed.

Lemma NoDup_omap_inj {A B} (f : A -> option B) (l : list A) :
  (forall x y z, f x = Some z -> f y = Some z -> x = y) ->
  NoDup l -> NoDup (omap f l).
Proof.
  intros Hinj. induction 1 as [| x l Hx Hl IH]; cbn; [constructor |].
  destruct (f x) as [z |] eqn:Hz; [| done].
  constructor; [| done].
  intros (y & Hy & Hfy)%list_elem_of_omap.
  by rewrite (Hinj _ _ _ Hz Hfy) in Hx.
Qed.

(** [os.listdir] hands out every entry of the directory once. *)
Lemma listdir_spec s d l :
  listdir s d = Some l ->
  is_dir s d = true /\ NoDup l
  /\ forall n, n ∈ l <-> d ++ [n] ∈ dom (fs_files s) ∪ fs_dirs s.
Proof.
  unfold listdir. destruct (is_dir s d); [| done]. intros [= <-].
  split; [done |]. split.
  - apply NoDup_omap_inj; [| apply NoDup_elements].
    intros x y n Hx%child_name_spec Hy%child_name_spec. congruence.
  - intros n. rewrite list_elem_of_omap. split.
    + intros (q & Hq & Hn%child_name_spec). subst. by apply elem_of_elements.
    + intros Hn. exists (d ++ [n]). split; [by apply elem_of_elements |].
      by apply child_name_spec.
Qed.

(** [_update_sheet_prices] through the outcome of the part it is given. *)
Lemma update_sheet_prices_outcome s p markup price_column header_row :
  _update_sheet_prices s p markup price_column header_row
  = match fs_files s !! p ≫= sheet_outcome markup price_column header_row with
    | Some (data', updated_count) => (written s p data', updated_count)
    | None => (s, 0%nat)
    end.
Proof.
  unfold _update_sheet_prices, sheet_outcome.
  destruct (fs_files s !! p) as [data |]; cbn; [| done].
  destruct (xml_parse data) as [root |]; cbn; [| done].
  by destruct (update_tree root markup price_column header_row).
Qed.

Lemma visit_sheet_spec markup price_column header_row s t n :
  exists s',
    visit_sheet markup price_column header_row (s, t) n
    = (s', (t + contribution markup price_column header_row s n)%nat)
    /\ fs_dirs s' = fs_dirs s
    /\ forall q,
         fs_files s' !! q
         = (fun data => if bool_decide (q = worksheets_dir ++ [n])
                        then rewrite_member markup price_column header_row q data
                        else data) <$> fs_files s !! q.
Proof.
  unfold visit_sheet, contribution.
  destruct (endswith n ".xml") eqn:Hn.
  - rewrite update_sheet_prices_outcome.
    destruct (_ ≫= _) as [[data' k] |] eqn:Hout.
    + eexists. split; [reflexivity |]. split; [reflexivity |]. intros q.
      unfold written. cbn [fs_files].
      destruct (fs_files s !! (worksheets_dir ++ [n])) as [data |] eqn:Hdata;
        cbn in Hout; [| done].
      case_bool_decide as Hq.
      * subst q. rewrite lookup_insert_eq, Hdata. cbn.
        unfold rewrite_member. by rewrite is_sheet_snoc, Hn, Hout.
      * rewrite lookup_insert_ne by done. by destruct (fs_files s !! q).
    + exists s. split; [f_equal; lia |]. split; [done |]. intros q.
      case_bool_decide as Hq.
      * subst q.
        destruct (fs_files s !! (worksheets_dir ++ [n])) as [data |] eqn:Hdata;
          [| done]. cbn in *.
        unfold rewrite_member. by rewrite is_sheet_snoc, Hn, Hout.
      * by destruct (fs_files s !! q).
  - exists s. split; [f_equal; lia |]. split; [done |]. intros q.
    destruct (fs_files s !! q) as [data |]; [| done]. cbn.
    case_bool_decide as Hq; [| done].
    subst q. unfold rewrite_member. by rewrite is_sheet_snoc, Hn.
Qed.

Lemma contribution_ext markup price_column header_row s s' n :
  fs_files s' !! (worksheets_dir ++ [n]) = fs_files s !! (worksheets_dir ++ [n]) ->
  contribution markup price_column header_row s' n
  = contribution markup price_column header_row s n.
Proof. unfold contribution. by intros ->. Qed.

(** The loop over the names [l], none of them twice: every part named is
    rewritten on its own, the counts add up. *)
Lemma foldl_visit_sheet markup price_column header_row l :
  NoDup l ->
  forall s t,
  exists s',
    foldl (visit_sheet markup price_column header_row) (s, t) l
    = (s', (t + sum_list (contribution markup price_column header_row s <$> l))%nat)
    /\ fs_dirs s' = fs_dirs s
    /\ forall q,
         fs_files s' !! q
         = (fun data => if bool_decide (q ∈ visited_paths l)
                        then rewrite_member markup price_column header_row q data
                        else data) <$> fs_files s !! q.
Proof.
  induction 1 as [| n l Hn Hl IH]; intros s t.
  - exists s. cbn. split; [f_equal; lia |]. split; [done |]. intros q.
    rewrite bool_decide_eq_false_2 by (unfold visited_paths; set_solver).
    by destruct (fs_files s !! q).
  - destruct (visit_sheet_spec markup price_column header_row s t n)
      as (s1 & Hstep & Hdirs1 & Hfiles1).
    destruct (IH s1 (t + contribution markup price_column header_row s n)%nat)
      as (s' & Hloop & Hdirs' & Hfiles').
    exists s'. cbn [foldl]. rewrite Hstep, Hloop. split; [| split].
    + f_equal. cbn. rewrite <- Nat.add_assoc. do 2 f_equal.
      assert (contribution markup price_column header_row s1 <$> l
              = contribution markup price_column header_row s <$> l) as ->;
        [| done].
      apply list_fmap_ext. intros i n' Hn'. apply contribution_ext.
      rewrite Hfiles1. rewrite bool_decide_eq_false_2.
      * by destruct (fs_files s !! _).
      * intros [_ ->]%snoc_inj. apply Hn. by eapply list_elem_of_lookup_2.
    + by rewrite Hdirs', Hdirs1.
    + intros q. rewrite Hfiles', Hfiles1. unfold visited_paths. cbn.
      destruct (fs_files s !! q) as [data |]; [| done]. cbn. f_equal.
      destruct (decide (q = worksheets_dir ++ [n])) as [-> | Hq].
      * rewrite (bool_decide_eq_true_2 (_ = _)) by done.
        rewrite (bool_decide_eq_true_2 (_ ∈ _ :: _)) by set_solver.
        rewrite bool_decide_eq_false_2; [done |].
        intros (n' & [_ ->]%snoc_inj & Hn')%list_elem_of_fmap. done.
      * rewrite (bool_decide_eq_false_2 (_ = _)) by done.
        do 2 case_bool_decide; first [done | set_solver].
Qed.

End DirectoryFacts.

(** ** Extraction and repacking *)

Section ArchiveFacts.
Context `{PyRuntime}.

Implicit Types (s : fs) (p q d : path) (members : list zentry).

Lemma makedirs_files d s s' : makedirs d s = Some s' -> fs_files s' = fs_files s.
Proof. unfold makedirs. destruct (existsb _ _); [done |]. by intros [= <-]. Qed.

Lemma makedirs_dirs d s s' :
  makedirs d s = Some s' -> fs_dirs s' = fs_dirs s ∪ list_to_set (inits1 d).
Proof. unfold makedirs. destruct (existsb _ _); [done |]. by intros [= <-]. Qed.

Lemma archive_files_app members members' acc :
  archive_files (members ++ members') acc
  = archive_files members' (archive_files members acc).
Proof.
  revert acc. induction members as [| [name data | name] rest IH]; intros acc;
    cbn; [done | apply IH | apply IH].
Qed.

(** The files of the scratch directory are the members of the archive read
    by name. *)
Lemma extractall_files members s s' :
  extractall members s = Some s' ->
  fs_files s' = archive_files members (fs_files s).
Proof.
  revert s. induction members as [| m rest IH]; intros s; cbn.
  - by intros [= <-].
  - destruct (extract_member s m) as [s1 |] eqn:Hm; cbn; [| done].
    intros Hrest. rewrite (IH _ Hrest). clear Hrest IH.
    destruct m as [name data | name]; cbn in Hm.
    + destruct (makedirs (dirname (sanitize name)) s) as [s2 |] eqn:Hmk;
        cbn in Hm; [| done].
      destruct (is_dir s2 (sanitize name)); [done |].
      injection Hm as <-. cbn. by rewrite (makedirs_files _ _ _ Hmk).
    + by rewrite (makedirs_files _ _ _ Hm).
Qed.

Lemma inits1_prefix d q : q ∈ inits1 d -> q `prefix_of` d.
Proof.
  revert q. induction d as [| c d IH]; intros q; cbn; [set_solver |].
  rewrite elem_of_cons. intros [-> | Hq].
  - by exists d.
  - apply list_elem_of_fmap in Hq as (q' & -> & Hq').
    apply prefix_cons. by apply IH.
Qed.

Lemma dirname_prefix p : dirname p `prefix_of` p.
Proof.
  destruct p as [| c p']; [done |].
  destruct (path_snoc (c :: p')) as (n & Heq & _); [done |].
  rewrite Heq at 2. by eexists.
Qed.

Lemma on_the_way_mono members members' p :
  members ⊆ members' -> on_the_way members p -> on_the_way members' p.
Proof. intros Hsub [-> | (m & Hm & Hp)]; [by left | right; eauto]. Qed.

Lemma makedirs_on_the_way members d s s' m :
  m ∈ members ->
  d `prefix_of` sanitize (entry_name m) ->
  all_on_the_way members s ->
  makedirs d s = Some s' ->
  all_on_the_way members s'.
Proof.
  intros Hm Hd Hinv Hmk p.
  rewrite (makedirs_files _ _ _ Hmk), (makedirs_dirs _ _ _ Hmk).
  rewrite !elem_of_union, elem_of_list_to_set.
  intros [Hp | [Hp | Hp]]; [apply Hinv; set_solver | apply Hinv; set_solver |].
  right. exists m. split; [done |]. etrans; [by apply inits1_prefix | done].
Qed.

Lemma extractall_on_the_way members :
  forall done s s',
    all_on_the_way done s ->
    extractall members s = Some s' ->
    all_on_the_way (done ++ members) s'.
Proof.
  induction members as [| m rest IH]; intros done s s' Hinv; cbn.
  - intros [= <-]. by rewrite app_nil_r.
  - destruct (extract_member s m) as [s1 |] eqn:Hm; cbn; [| done].
    intros Hrest.
    replace (done ++ m :: rest) with ((done ++ [m]) ++ rest)
      by (by rewrite <- app_assoc).
    apply (IH _ s1); [| done]. clear Hrest IH.
    assert (all_on_the_way (done ++ [m]) s) as Hinv'.
    { intros p Hp. eapply on_the_way_mono; [| by apply Hinv]. set_solver. }
    assert (m ∈ done ++ [m]) as Hin by set_solver.
    destruct m as [name data | name]; cbn in Hm.
    + destruct (makedirs (dirname (sanitize name)) s) as [s2 |] eqn:Hmk;
        cbn in Hm; [| done].
      destruct (is_dir s2 (sanitize name)); [done |]. injection Hm as <-.
      pose proof (makedirs_on_the_way _ _ _ _ _ Hin (dirname_prefix _) Hinv' Hmk)
        as Hinv2.
      intros p. cbn. rewrite dom_insert_L, !elem_of_union, elem_of_singleton.
      intros [[-> | Hp] | Hp]; [| apply Hinv2; set_solver | apply Hinv2; set_solver].
      right. by exists (ZFile name data).
    + by eapply (makedirs_on_the_way _ _ _ _ (ZDir name)).
Qed.

(** An archive with no member at or under [xl/worksheets] extracts, if at
    all, to a directory without [xl/worksheets]. *)
Lemma no_worksheets_dir members s :
  (forall m, m ∈ members ->
             ~ worksheets_dir `prefix_of` sanitize (entry_name m)) ->
  extractall members fs_empty = Some s ->
  exists_ s worksheets_dir = false.
Proof.
  intros Hnone Hext.
  assert (all_on_the_way ([] ++ members) s) as Hinv.
  { eapply extractall_on_the_way; [| done].
    intros p. cbn. rewrite dom_empty_L. intros Hp. left. set_solver. }
  unfold exists_, is_dir, is_file.
  apply orb_false_iff. split; apply bool_decide_eq_false; intros Hin.
  - destruct (Hinv worksheets_dir) as [Hnil | (m & Hm & Hp)];
      [set_solver | done | by eapply Hnone].
  - destruct (Hinv worksheets_dir) as [Hnil | (m & Hm & Hp)];
      [set_solver | done | by eapply Hnone].
Qed.

(** Every way in which [update_prices_in_xlsx] ends. *)
Lemma update_prices_cases members markup price_column header_row :
  (update_prices_in_xlsx (Some members) markup price_column header_row
   = (Copied, 0%nat)
   /\ (extractall members fs_empty = None
       \/ exists s, extractall members fs_empty = Some s
                    /\ is_dir s worksheets_dir = false))
  \/ exists s sheet_files s',
       extractall members fs_empty = Some s
       /\ listdir s worksheets_dir = Some sheet_files
       /\ update_prices_in_xlsx (Some members) markup price_column header_row
          = (Packed (walk s'),
             sum_list (contribution markup price_column header_row s
                         <$> sheet_files))
       /\ fs_dirs s' = fs_dirs s
       /\ forall q, fs_files s' !! q
                    = rewrite_member markup price_column header_row q
                        <$> fs_files s !! q.
Proof.
  unfold update_prices_in_xlsx.
  destruct (extractall members fs_empty) as [s |] eqn:Hext; [| left; eauto].
  destruct (listdir s worksheets_dir) as [sheet_files |] eqn:Hls.
  - right. destruct (listdir_spec _ _ _ Hls) as (Hdir & Hnd & Hmem).
    unfold exists_. rewrite Hdir. cbn.
    destruct (foldl_visit_sheet markup price_column header_row _ Hnd s 0%nat)
      as (s' & Hloop & Hdirs & Hfiles).
    exists s, sheet_files, s'. rewrite Hloop. cbn.
    split; [done |]. split; [done |]. split; [done |]. split; [done |].
    intros q. rewrite Hfiles.
    destruct (fs_files s !! q) as [data |] eqn:Hq; [| done]. cbn. f_equal.
    case_bool_decide as Hvis; [done |].
    unfold rewrite_member. destruct (is_sheet q) eqn:Hsheet; [| done].
    exfalso. apply Hvis. apply is_sheet_spec in Hsheet as (n & -> & _).
    unfold visited_paths. apply list_elem_of_fmap. exists n. split; [done |].
    apply Hmem. apply elem_of_union_l, elem_of_dom. eauto.
  - left. split.
    + by destruct (negb (exists_ s worksheets_dir)).
    + right. exists s. split; [done |].
      unfold listdir in Hls. by destruct (is_dir s worksheets_dir).
Qed.

End ArchiveFacts.

(** ** The claims about one worksheet *)

Section SheetClaims.
Context `{PyRuntime}.

(** C1, as the code has it.  Take a worksheet part that parses and has a
    [sheetData].  If one of its row numbers does not convert, the call
    leaves the part as it is and returns 0.  Otherwise the part is written
    back with the same rows and cells in the same places, and a cell is
    rewritten (the text of its value node becomes the text of the old value
    plus the markup, and it counts for one in the result) if and only if
    (a) its type tag is absent or [n], (b) its reference is the target
    column letter followed by the number of its row, (c) that number is
    strictly greater than the header row, and (d) the text of its value
    node is not empty and is accepted by [float], whether the float is
    finite or not; every other cell is the same element as before and
    counts for nothing. *)
Theorem rewritten_iff_eligible s p markup price_column header_row data root sheet_data :
  fs_files s !! p = Some data ->
  xml_parse data = Some root ->
  find_desc "sheetData" root = Some sheet_data ->
  let column_letter := Column._column_number_to_letter price_column in
  if rows_numbered (children sheet_data) then
    exists rows',
      _update_sheet_prices s p markup price_column header_row
      = (written s p (xml_write (with_rows root sheet_data rows')),
         eligible_count column_letter header_row (children sheet_data))
      /\ length rows' = length (children sheet_data)
      /\ forall i j row cell,
           children sheet_data !! i = Some row ->
           children row !! j = Some cell ->
           exists row' cell',
             rows' !! i = Some row'
             /\ attrib row' = attrib row
             /\ length (children row') = length (children row)
             /\ children row' !! j = Some cell'
             /\ (eligible column_letter header_row row cell = true
                 <-> has_tag "row" row = true /\ has_tag "c" cell = true
                     /\ numeric_type cell = true
                     /\ (exists row_num,
                           row_number row = Some row_num
                           /\ get cell "r" = Some (cell_ref_of column_letter row_num)
                           /\ header_row < row_num)
                     /\ (exists x, cell_value cell = Some x))
             /\ match cell_value cell with
                | Some x =>
                    if eligible column_letter header_row row cell
                    then cell' = map_value (add_markup markup) cell
                         /\ text <$> find_child "v" cell'
                            = Some (Some (py_str (float_add x markup)))
                    else cell' = cell
                | None =>
                    eligible column_letter header_row row cell = false
                    /\ cell' = cell
                end
  else
    _update_sheet_prices s p markup price_column header_row = (s, 0%nat).
Proof.
  intros Hfile Hparse Hfind column_letter.
  rewrite (update_sheet_prices_spec _ _ _ _ _ _ _ _ Hfile Hparse Hfind).
  fold column_letter.
  destruct (rows_numbered (children sheet_data)); [| done].
  eexists. split; [reflexivity |]. split; [by rewrite length_map |].
  intros i j row cell Hrow Hcell.
  destruct (lookup_map_row (add_markup markup) column_letter header_row
              _ _ _ _ _ Hrow Hcell) as (row' & Hrow' & Hattr & _ & Hlen & Hcell').
  exists row', (if eligible column_letter header_row row cell
                then map_value (add_markup markup) cell else cell).
  do 4 (split; [done |]). split; [apply eligible_conditions |].
  destruct (cell_value cell) as [x |] eqn:Hx.
  - destruct (eligible _ _ _ _) eqn:Hel; [| done].
    split; [done |]. rewrite (find_child_map_value _ _ x Hx).
    unfold cell_value in Hx.
    destruct (find_child "v" cell) as [value_elem |]; [| done].
    by destruct value_elem.
  - assert (eligible column_letter header_row row cell = false) as Hel.
    { unfold eligible. rewrite Hx. rewrite bool_decide_eq_false_2.
      - by rewrite andb_false_r.
      - by intros [? ?]. }
    by rewrite Hel.
Qed.

End SheetClaims.

Lemma rewritten_iff_eligible_witness :
  let s := Demo.one_sheet Demo.prices_xml in
  let p := Demo.sheet_path "sheet1.xml" in
  fs_files s !! p = Some (list_byte_of_string Demo.prices_xml)
  /\ @xml_parse Demo.runtime (list_byte_of_string Demo.prices_xml)
     = Some Demo.prices_tree
  /\ (@_update_sheet_prices Demo.runtime s p Demo.fifty 4 5).2 = 2%nat.
Proof.
  intros s p.
  assert (fs_files s !! p = Some (list_byte_of_string Demo.prices_xml)) as Hfile
    by (vm_compute; reflexivity).
  assert (@xml_parse Demo.runtime (list_byte_of_string Demo.prices_xml)
          = Some Demo.prices_tree) as Hparse by (vm_compute; reflexivity).
  assert (find_desc "sheetData" Demo.prices_tree
          = Some (Demo.sheet_data Demo.prices_rows)) as Hfind
    by (vm_compute; reflexivity).
  split; [exact Hfile |]. split; [exact Hparse |].
  pose proof (@rewritten_iff_eligible Demo.runtime s p Demo.fifty 4 5 _ _ _
                Hfile Hparse Hfind) as W.
  cbv zeta in W.
  match type of W with
  | if ?b then _ else _ =>
      assert (b = true) as Hb by (vm_compute; reflexivity); rewrite Hb in W
  end.
  destruct W as (rows' & Heq & _). rewrite Heq. vm_compute. reflexivity.
Defined.

(** C1, as the specification words it, asks for a finite value.  The cell
    D6 of this sheet holds [Infinity]: it is in the target column below the
    header row and untyped, its value is not finite, and yet the call counts
    it and replaces its text (by [inf], the text of infinity plus 50). *)
Lemma infinite_value_rewritten :
  let s := Demo.one_sheet Demo.infinity_xml in
  let p := Demo.sheet_path "sheet1.xml" in
  let row := Demo.row "6" [Demo.cell "D6" [] "Infinity"] in
  let cell := Demo.cell "D6" [] "Infinity" in
  let after := @_update_sheet_prices Demo.runtime s p Demo.fifty 4 5 in
  (@xml_parse Demo.runtime <$> fs_files s !! p) = Some (Some (Demo.sheet [row]))
  /\ @in_target Demo.runtime "D" 5 row cell = true
  /\ numeric_type cell = true
  /\ @cell_value Demo.runtime cell = Some (S754_infinity false)
  /\ @eligible_finite Demo.runtime "D" 5 row cell = false
  /\ after.2 = 1%nat
  /\ fs_files after.1 !! p
     = Some (@xml_write Demo.runtime
               (Demo.sheet [Demo.row "6" [Demo.cell "D6" [] "inf"]])).
Proof. vm_compute. repeat split; reflexivity. Qed.

Section BoundaryClaims.
Context `{PyRuntime}.

(** C6, as the code has it.  Take a worksheet part that parses and has a
    [sheetData], and a header row [header_row].  If one of its row numbers
    does not convert, the call leaves the part as it is: no cell at all is
    modified.  Otherwise the part is written back, every row whose number is
    at most [header_row] is the same element as before, whatever the column
    and the type of its cells, and every cell of a row numbered
    [header_row + 1] whose reference is the target column letter followed by
    that number, whose type tag is absent or [n] and whose value [float]
    accepts, is rewritten. *)
Theorem header_boundary s p markup price_column header_row data root sheet_data :
  fs_files s !! p = Some data ->
  xml_parse data = Some root ->
  find_desc "sheetData" root = Some sheet_data ->
  let column_letter := Column._column_number_to_letter price_column in
  if rows_numbered (children sheet_data) then
    exists rows' updated_count,
      _update_sheet_prices s p markup price_column header_row
      = (written s p (xml_write (with_rows root sheet_data rows')), updated_count)
      /\ (forall i row row_num,
            children sheet_data !! i = Some row ->
            row_number row = Some row_num ->
            row_num <= header_row ->
            rows' !! i = Some row)
      /\ (forall i j row cell x,
            children sheet_data !! i = Some row ->
            children row !! j = Some cell ->
            has_tag "row" row = true ->
            row_number row = Some (header_row + 1) ->
            has_tag "c" cell = true ->
            get cell "r" = Some (cell_ref_of column_letter (header_row + 1)) ->
            numeric_type cell = true ->
            cell_value cell = Some x ->
            exists row' cell',
              rows' !! i = Some row'
              /\ children row' !! j = Some cell'
              /\ cell' = map_value (add_markup markup) cell
              /\ text <$> find_child "v" cell'
                 = Some (Some (py_str (float_add x markup))))
  else
    _update_sheet_prices s p markup price_column header_row = (s, 0%nat).
Proof.
  intros Hfile Hparse Hfind column_letter.
  rewrite (update_sheet_prices_spec _ _ _ _ _ _ _ _ Hfile Hparse Hfind).
  fold column_letter.
  destruct (rows_numbered (children sheet_data)); [| done].
  do 2 eexists. split; [reflexivity |]. split.
  - intros i row row_num Hrow Hnum Hle.
    rewrite list_lookup_fmap, Hrow. cbn. f_equal.
    apply map_row_untouched. intros cell. apply not_eligible_row. eauto.
  - intros i j row cell x Hrow Hcell Htag Hnum Hc Href Htype Hx.
    destruct (lookup_map_row (add_markup markup) column_letter header_row
                _ _ _ _ _ Hrow Hcell) as (row' & Hrow' & _ & _ & _ & Hcell').
    assert (eligible column_letter header_row row cell = true) as Hel.
    { apply eligible_conditions. repeat split; eauto.
      exists (header_row + 1). repeat split; eauto; lia. }
    rewrite Hel in Hcell'.
    exists row', (map_value (add_markup markup) cell).
    repeat split; try done.
    rewrite (find_child_map_value _ _ x Hx).
    unfold cell_value in Hx.
    destruct (find_child "v" cell) as [value_elem |]; [| done].
    by destruct value_elem.
Qed.

(** C10.  [_column_number_to_letter] returns for every integer; on a column
    number that is zero or negative the loop is not entered and the result
    is the empty string, so that the reference a rewrite looks for in a row
    is the row number alone. *)
Theorem nonpositive_column column_number :
  column_number <= 0 ->
  Column._column_number_to_letter column_number = EmptyString
  /\ (forall row_num,
        cell_ref_of (Column._column_number_to_letter column_number) row_num
        = str_int row_num)
  /\ (forall markup header_row row row_num k,
        has_tag "row" row = true ->
        row_number row = Some row_num ->
        header_row < row_num ->
        visit_row (Column._column_number_to_letter column_number)
                  markup header_row row k
        = let '(cells', n) :=
            visit_cells (str_int row_num) markup (children row) k in
          Some (set_children cells' row, n)).
Proof.
  intros Hn.
  assert (Column._column_number_to_letter column_number = EmptyString) as Hempty.
  { unfold Column._column_number_to_letter. by rewrite loop_nonpos. }
  split; [done |]. split.
  - intros row_num. by rewrite Hempty.
  - intros markup header_row row row_num k Htag Hnum Hlt.
    unfold visit_row. rewrite Htag, Hnum, Hempty. cbn.
    destruct (Z.leb_spec row_num header_row); [lia | done].
Qed.

End BoundaryClaims.

Lemma header_boundary_witness :
  let s := Demo.one_sheet Demo.prices_xml in
  let p := Demo.sheet_path "sheet1.xml" in
  fs_files s !! p = Some (list_byte_of_string Demo.prices_xml)
  /\ @xml_parse Demo.runtime (list_byte_of_string Demo.prices_xml)
     = Some Demo.prices_tree
  /\ find_desc "sheetData" Demo.prices_tree = Some (Demo.sheet_data Demo.prices_rows)
  /\ exists rows',
       (@_update_sheet_prices Demo.runtime s p Demo.fifty 4 5).1
       = written s p (@xml_write Demo.runtime
                        (with_rows Demo.prices_tree
                                   (Demo.sheet_data Demo.prices_rows) rows'))
       /\ rows' !! 0%nat = Some (Demo.row "5" [Demo.cell "D5" [] "1"]).
Proof.
  intros s p.
  assert (fs_files s !! p = Some (list_byte_of_string Demo.prices_xml)) as Hfile
    by (vm_compute; reflexivity).
  assert (@xml_parse Demo.runtime (list_byte_of_string Demo.prices_xml)
          = Some Demo.prices_tree) as Hparse by (vm_compute; reflexivity).
  assert (find_desc "sheetData" Demo.prices_tree
          = Some (Demo.sheet_data Demo.prices_rows)) as Hfind
    by (vm_compute; reflexivity).
  do 3 (split; [assumption |]).
  pose proof (@header_boundary Demo.runtime s p Demo.fifty 4 5 _ _ _
                Hfile Hparse Hfind) as W.
  cbv zeta in W.
  match type of W with
  | if ?b then _ else _ =>
      assert (b = true) as Hb by (vm_compute; reflexivity); rewrite Hb in W
  end.
  destruct W as (rows' & n & Heq & Hheader & _).
  exists rows'. rewrite Heq. split; [reflexivity |].
  apply (Hheader 0%nat _ 5); [reflexivity | vm_compute; reflexivity | lia].
Defined.

(** C6 promises the rewrite of every such cell in every call.  In this
    sheet D6 = 100 lies in row 6, the first row below header row 5, in the
    target column and untyped; the row after it carries the number [x],
    [int] raises, the handler of [_update_sheet_prices] returns 0 before the
    tree is written, and D6 is not modified. *)
Lemma unconverted_row_blocks_rewrite :
  let s := Demo.one_sheet Demo.badrow_xml in
  let p := Demo.sheet_path "sheet1.xml" in
  let row := Demo.row "6" [Demo.cell "D6" [] "100"] in
  let cell := Demo.cell "D6" [] "100" in
  (@xml_parse Demo.runtime <$> fs_files s !! p)
  = Some (Some (Demo.sheet [row; Demo.row "x" [Demo.cell "D7" [] "1"]]))
  /\ @row_number Demo.runtime row = Some (5 + 1)
  /\ get cell "r" = Some (cell_ref_of (Column._column_number_to_letter 4) (5 + 1))
  /\ numeric_type cell = true
  /\ @cell_value Demo.runtime cell = Some (Demo.float_of_Z false 100)
  /\ @_update_sheet_prices Demo.runtime s p Demo.fifty 4 5 = (s, 0%nat).
Proof. vm_compute. repeat split; reflexivity. Qed.

Lemma nonpositive_column_witness :
  0 <= 0 /\ Column._column_number_to_letter 0 = EmptyString.
Proof.
  split; [lia |]. apply (fun H => proj1 (nonpositive_column (H := Demo.runtime) 0 H)).
  lia.
Defined.

(** ** The claims about the whole call *)

Section ArchiveClaims.
Context `{PyRuntime}.

Implicit Types (s : fs) (p q : path) (members : list zentry).

(** C5.  On an input that is not a zip archive the call returns 0 and
    [output_file] holds the copy of the input; so it does on an archive with
    no member at or under [xl/worksheets], whether the extraction goes
    through or not.  The call is a total function: no exception leaves
    it. *)
Theorem fallback_copy markup price_column header_row :
  update_prices_in_xlsx None markup price_column header_row = (Copied, 0%nat)
  /\ forall members,
       (forall m, m ∈ members ->
                  ~ worksheets_dir `prefix_of` sanitize (entry_name m)) ->
       update_prices_in_xlsx (Some members) markup price_column header_row
       = (Copied, 0%nat).
Proof.
  split; [done |]. intros members Hnone.
  destruct (update_prices_cases members markup price_column header_row)
    as [[Hcopy _] | (s & l & s' & Hext & Hls & _)]; [done |].
  exfalso. pose proof (no_worksheets_dir _ _ Hnone Hext) as Hex.
  destruct (listdir_spec _ _ _ Hls) as (Hdir & _).
  unfold exists_ in Hex. by rewrite Hdir in Hex.
Qed.

Lemma elem_of_walk s p data : (p, data) ∈ walk s <-> fs_files s !! p = Some data.
Proof. apply elem_of_map_to_list. Qed.

Lemma sum_list_without {A} `{EqDecision A} (f : A -> nat) (x : A) (l : list A) :
  f x = 0%nat ->
  sum_list (f <$> l) = sum_list (f <$> filter (fun y => y <> x) l).
Proof.
  intros Hx. induction l as [| y l IH]; [done |].
  rewrite filter_cons. destruct (decide (y <> x)) as [Hy | Hy]; cbn.
  - by rewrite IH.
  - apply dec_stable in Hy. subst y. by rewrite Hx, IH.
Qed.

(** A part whose rewrite does not go through does not stop the call. *)
Lemma unwritten_sheet_repacked members s sheet_files p data
    markup price_column header_row :
  extractall members fs_empty = Some s ->
  listdir s worksheets_dir = Some sheet_files ->
  fs_files s !! p = Some data ->
  sheet_outcome markup price_column header_row data = None ->
  exists packed,
    update_prices_in_xlsx (Some members) markup price_column header_row
    = (Packed packed,
       sum_list (contribution markup price_column header_row s <$> sheet_files))
    /\ (p, data) ∈ packed
    /\ forall q data',
         q <> p ->
         fs_files s !! q = Some data' ->
         (q, rewrite_member markup price_column header_row q data') ∈ packed.
Proof.
  intros Hext Hls Hdata Hout.
  destruct (update_prices_cases members markup price_column header_row)
    as [[_ [Hnone | (s0 & Hs0 & Hnodir)]]
       | (s0 & l & s' & Hext' & Hls' & Hres & _ & Hfiles)].
  { congruence. }
  { assert (s0 = s) as -> by congruence.
    unfold listdir in Hls. by rewrite Hnodir in Hls. }
  assert (s0 = s) as -> by congruence. assert (l = sheet_files) as -> by congruence.
  exists (walk s'). split; [done |]. split.
  - apply elem_of_walk. rewrite Hfiles, Hdata. cbn. f_equal.
    unfold rewrite_member. rewrite Hout. by destruct (is_sheet p).
  - intros q data' Hq Hdata'. apply elem_of_walk. by rewrite Hfiles, Hdata'.
Qed.

(** C9.  When the rewrite of one worksheet part raises (the part does not
    parse, or one of its row numbers does not convert), the handler of
    [_update_sheet_prices] returns 0 and leaves the part as it was
    extracted; the call still goes through the other parts, each rewritten
    on its own, repacks the directory and returns the sum of the counts of
    the other parts. *)
Theorem sheet_failure_contained members s sheet_files p data
    markup price_column header_row :
  extractall members fs_empty = Some s ->
  listdir s worksheets_dir = Some sheet_files ->
  is_sheet p = true ->
  fs_files s !! p = Some data ->
  (xml_parse data = None
   \/ exists root,
        xml_parse data = Some root
        /\ update_tree root markup price_column header_row = SheetError) ->
  exists sheet_file packed,
    p = worksheets_dir ++ [sheet_file]
    /\ sheet_file ∈ sheet_files
    /\ _update_sheet_prices s p markup price_column header_row = (s, 0%nat)
    /\ update_prices_in_xlsx (Some members) markup price_column header_row
       = (Packed packed,
          sum_list (contribution markup price_column header_row s
                      <$> filter (fun n => n <> sheet_file) sheet_files))
    /\ (p, data) ∈ packed
    /\ forall q data',
         q <> p ->
         fs_files s !! q = Some data' ->
         (q, rewrite_member markup price_column header_row q data') ∈ packed.
Proof.
  intros Hext Hls Hsheet Hdata Hfail.
  assert (sheet_outcome markup price_column header_row data = None) as Hout.
  { unfold sheet_outcome.
    destruct Hfail as [-> | (root & -> & Herr)]; cbn; [done |]. by rewrite Herr. }
  apply is_sheet_spec in Hsheet as (sheet_file & -> & Hxml).
  destruct (listdir_spec _ _ _ Hls) as (Hdir & Hnd & Hmem).
  destruct (unwritten_sheet_repacked _ _ _ _ _ markup price_column header_row
              Hext Hls Hdata Hout) as (packed & Hres & Hin & Hrest).
  exists sheet_file, packed.
  split; [done |].
  split; [apply Hmem, elem_of_union_l, elem_of_dom; eauto |].
  split.
  { rewrite update_sheet_prices_outcome, Hdata. cbn. by rewrite Hout. }
  split; [| done].
  rewrite Hres. f_equal. apply sum_list_without.
  unfold contribution. rewrite Hxml, Hdata. cbn. by rewrite Hout.
Qed.

(** C3, as the code has it.  The output is the untouched copy of the input
    only when the input is not a zip archive, when its extraction fails, or
    when the extracted tree has no directory [xl/worksheets]; the count is
    then 0.  A worksheet part that does not parse is none of these: the call
    repacks the directory, that part keeps its bytes, and every other member
    is in the output as the loop left it, the other worksheet parts
    rewritten. *)
Theorem fallback_only_on_archive_errors input markup price_column header_row :
  (forall n,
     update_prices_in_xlsx input markup price_column header_row = (Copied, n) ->
     n = 0%nat
     /\ (input = None
         \/ exists members,
              input = Some members
              /\ (extractall members fs_empty = None
                  \/ exists s, extractall members fs_empty = Some s
                               /\ is_dir s worksheets_dir = false)))
  /\ (forall members s p data,
        input = Some members ->
        extractall members fs_empty = Some s ->
        is_dir s worksheets_dir = true ->
        is_sheet p = true ->
        fs_files s !! p = Some data ->
        xml_parse data = None ->
        exists packed total,
          update_prices_in_xlsx input markup price_column header_row
          = (Packed packed, total)
          /\ (p, data) ∈ packed
          /\ forall q data',
               q <> p ->
               fs_files s !! q = Some data' ->
               (q, rewrite_member markup price_column header_row q data') ∈ packed).
Proof.
  split.
  - intros n Hcopy. destruct input as [members |].
    + destruct (update_prices_cases members markup price_column header_row)
        as [[Hres Hwhy] | (s0 & l & s' & _ & _ & Hres & _)].
      * split; [congruence |]. right. eauto.
      * congruence.
    + cbn in Hcopy. split; [congruence | by left].
  - intros members s p data -> Hext Hdir Hsheet Hdata Hparse.
    assert (exists l, listdir s worksheets_dir = Some l) as [l Hls].
    { unfold listdir. rewrite Hdir. eauto. }
    assert (sheet_outcome markup price_column header_row data = None) as Hout.
    { unfold sheet_outcome. by rewrite Hparse. }
    destruct (unwritten_sheet_repacked _ _ _ _ _ markup price_column header_row
                Hext Hls Hdata Hout) as (packed & Hres & Hin & Hrest).
    eauto 10.
Qed.

End ArchiveClaims.

Lemma fallback_copy_witness :
  (forall m, m ∈ Demo.picture_only ->
             ~ worksheets_dir `prefix_of` sanitize (entry_name m))
  /\ @update_prices_in_xlsx Demo.runtime (Some Demo.picture_only) Demo.fifty 4 5
     = (Copied, 0%nat).
Proof.
  assert (forall m, m ∈ Demo.picture_only ->
                    ~ worksheets_dir `prefix_of` sanitize (entry_name m)) as Hnone.
  { intros m ->%list_elem_of_singleton.
    refine (bool_decide_unpack _ _). vm_compute. exact I. }
  split; [exact Hnone |].
  exact (proj2 (@fallback_copy Demo.runtime Demo.fifty 4 5) _ Hnone).
Defined.

Lemma sheet_failure_contained_witness :
  exists packed,
    @update_prices_in_xlsx Demo.runtime (Some Demo.two_sheets) Demo.fifty 4 5
    = (Packed packed, 2%nat)
    /\ (Demo.sheet_path "sheet1.xml", list_byte_of_string Demo.malformed_xml)
       ∈ packed.
Proof.
  pose (s := Demo.extracted Demo.two_sheets).
  pose (sheet_files := default [] (listdir s worksheets_dir)).
  assert (extractall Demo.two_sheets fs_empty = Some s) as Hext
    by (vm_compute; reflexivity).
  assert (listdir s worksheets_dir = Some sheet_files) as Hls
    by (vm_compute; reflexivity).
  assert (is_sheet (Demo.sheet_path "sheet1.xml") = true) as Hsheet
    by (vm_compute; reflexivity).
  assert (fs_files s !! Demo.sheet_path "sheet1.xml"
          = Some (list_byte_of_string Demo.malformed_xml)) as Hdata
    by (vm_compute; reflexivity).
  assert (@xml_parse Demo.runtime (list_byte_of_string Demo.malformed_xml) = None)
    as Hparse by (vm_compute; reflexivity).
  destruct (@sheet_failure_contained Demo.runtime _ _ _ _ _ Demo.fifty 4 5
              Hext Hls Hsheet Hdata (or_introl Hparse))
    as (sheet_file & packed & Hp & _ & _ & Hres & Hin & _).
  exists packed. split; [| exact Hin].
  unfold Demo.sheet_path in Hp. apply snoc_inj in Hp as [_ <-].
  rewrite Hres. f_equal.
Defined.

(** C3 promises the untouched copy of the input whenever a worksheet part is
    malformed.  In this archive [sheet1.xml] does not parse; the call
    nevertheless returns 2, and the output is not the copy: its member
    [sheet2.xml] holds the rewritten prices, no longer the bytes of the
    input. *)
Lemma malformed_sheet_no_fallback :
  let out := @update_prices_in_xlsx Demo.runtime (Some Demo.two_sheets)
               Demo.fifty 4 5 in
  let extracted := Demo.extracted Demo.two_sheets in
  extractall Demo.two_sheets fs_empty = Some extracted
  /\ (@xml_parse Demo.runtime <$> fs_files extracted !! Demo.sheet_path "sheet1.xml")
     = Some None
  /\ out.2 = 2%nat
  /\ out.1 <> Copied
  /\ output_read Demo.two_sheets out.1 (Demo.sheet_path "sheet2.xml")
     = Some (@xml_write Demo.runtime Demo.prices_tree_written)
  /\ archive_files Demo.two_sheets ∅ !! Demo.sheet_path "sheet2.xml"
     = Some (list_byte_of_string Demo.prices_xml)
  /\ @xml_write Demo.runtime Demo.prices_tree_written
     <> list_byte_of_string Demo.prices_xml.
Proof. vm_compute. repeat split; (reflexivity || discriminate). Qed.

Lemma fallback_only_on_archive_errors_witness :
  exists packed total,
    @update_prices_in_xlsx Demo.runtime (Some Demo.two_sheets) Demo.fifty 4 5
    = (Packed packed, total)
    /\ (Demo.sheet_path "sheet1.xml", list_byte_of_string Demo.malformed_xml)
       ∈ packed.
Proof.
  pose (s := Demo.extracted Demo.two_sheets).
  assert (extractall Demo.two_sheets fs_empty = Some s) as Hext
    by (vm_compute; reflexivity).
  assert (is_dir s worksheets_dir = true) as Hdir by (vm_compute; reflexivity).
  assert (is_sheet (Demo.sheet_path "sheet1.xml") = true) as Hsheet
    by (vm_compute; reflexivity).
  assert (fs_files s !! Demo.sheet_path "sheet1.xml"
          = Some (list_byte_of_string Demo.malformed_xml)) as Hdata
    by (vm_compute; reflexivity).
  assert (@xml_parse Demo.runtime (list_byte_of_string Demo.malformed_xml) = None)
    as Hparse by (vm_compute; reflexivity).
  destruct (proj2 (@fallback_only_on_archive_errors Demo.runtime
                     (Some Demo.two_sheets) Demo.fifty 4 5)
              _ _ _ _ eq_refl Hext Hdir Hsheet Hdata Hparse)
    as (packed & total & Hres & Hin & _).
  exists packed, total. split; [exact Hres | exact Hin].
Defined.

Section CountClaims.
Context `{PyRuntime}.

Implicit Types (s : fs) (p q : path) (members : list zentry).

Lemma document_count_outcome markup price_column header_row data :
  document_count data price_column header_row
  = match sheet_outcome markup price_column header_row data with
    | Some (_, updated_count) => updated_count
    | None => 0%nat
    end.
Proof.
  unfold document_count, sheet_outcome.
  destruct (xml_parse data) as [root |]; cbn; [| done].
  rewrite update_tree_spec.
  destruct (find_desc "sheetData" root); [| done]. cbn.
  by destruct (rows_numbered _).
Qed.

Lemma sum_list_omap {A B} (f : A -> option B) (g : B -> nat) (l : list A) :
  sum_list ((fun x => match f x with Some y => g y | None => 0%nat end) <$> l)
  = sum_list_with g (omap f l).
Proof.
  induction l as [| x l IH]; cbn; [done |].
  destruct (f x); cbn; by rewrite IH.
Qed.

(** The entries of [xl/worksheets] account for the worksheet documents of
    the archive, each once. *)
Lemma contributions_by_document markup price_column header_row s sheet_files :
  listdir s worksheets_dir = Some sheet_files ->
  sum_list (contribution markup price_column header_row s <$> sheet_files)
  = sum_list_with (fun pd => document_count pd.2 price_column header_row)
      (map_to_list (filter (fun pd => is_sheet pd.1 = true) (fs_files s))).
Proof.
  intros (Hdir & Hnd & Hmem)%listdir_spec.
  transitivity
    (sum_list_with (fun pd => document_count pd.2 price_column header_row)
                   (omap (sheet_entry s) sheet_files)).
  - rewrite <- sum_list_omap. f_equal. apply list_fmap_ext.
    intros _ n _. unfold contribution, sheet_entry.
    destruct (endswith n ".xml"); [| done].
    destruct (fs_files s !! (worksheets_dir ++ [n])) as [data |]; cbn; [| done].
    by rewrite (document_count_outcome markup).
  - apply sum_list_with_Permutation_proper. apply NoDup_Permutation.
    + apply NoDup_omap_inj; [| done].
      intros x y [p data]. unfold sheet_entry.
      destruct (endswith x ".xml"), (endswith y ".xml"); try done.
      destruct (fs_files s !! (worksheets_dir ++ [x])); cbn; [| done].
      destruct (fs_files s !! (worksheets_dir ++ [y])); cbn; [| done].
      intros [= <- _] [= -> _]. done.
    + apply NoDup_map_to_list.
    + intros [p data]. rewrite list_elem_of_omap, elem_of_map_to_list.
      rewrite map_lookup_filter_Some. cbn. split.
      * intros (n & Hn & Hentry). unfold sheet_entry in Hentry.
        destruct (endswith n ".xml") eqn:Hxml; [| done].
        destruct (fs_files s !! (worksheets_dir ++ [n])) as [data' |] eqn:Hdata;
          [| done].
        assert (p = worksheets_dir ++ [n] /\ data = data') as [-> ->]
          by (by inversion Hentry).
        split; [done |]. by rewrite is_sheet_snoc.
      * intros [Hdata (n & -> & Hxml)%is_sheet_spec]. exists n. split.
        -- apply Hmem, elem_of_union_l, elem_of_dom. eauto.
        -- unfold sheet_entry. by rewrite Hxml, Hdata.
Qed.

(** C4.  When the call repacks the archive, the integer it returns is the
    number of eligible cells (target column, row number strictly greater
    than the header row, type tag absent or [n], value text accepted by
    [float]) summed over the worksheet documents of the archive it
    processed: a document that does not parse, has no [sheetData] or has a
    row number that does not convert is not processed and adds nothing. *)
Theorem count_accuracy members markup price_column header_row packed total :
  update_prices_in_xlsx (Some members) markup price_column header_row
  = (Packed packed, total) ->
  total
  = sum_list_with (fun pd => document_count pd.2 price_column header_row)
      (map_to_list (filter (fun pd => is_sheet pd.1 = true)
                           (archive_files members ∅))).
Proof.
  intros Hres.
  destruct (update_prices_cases members markup price_column header_row)
    as [[Hcopy _] | (s & l & s' & Hext & Hls & Hres' & _)]; [congruence |].
  rewrite Hres' in Hres. injection Hres as _ <-.
  rewrite (contributions_by_document _ _ _ _ _ Hls).
  by rewrite (extractall_files _ _ _ Hext).
Qed.

(** C2, as the code has it.  Read by member name, every file of the input
    archive that is not a worksheet document has the same bytes in the
    output, and the output has a file under a name exactly when the input
    has one (names taken as [zipfile] normalises them, the last member of a
    name winning).  When the call repacks, the members of the output are
    these files, each once: the directory entries of the input are not
    written back. *)
Theorem files_preserved members markup price_column header_row out total :
  update_prices_in_xlsx (Some members) markup price_column header_row
  = (out, total) ->
  (forall p, is_sheet p = false ->
             output_read members out p = archive_files members ∅ !! p)
  /\ (forall p, is_Some (output_read members out p)
                <-> is_Some (archive_files members ∅ !! p))
  /\ (forall packed,
        out = Packed packed ->
        NoDup packed.*1
        /\ forall p, p ∈ packed.*1 <-> p ∈ dom (archive_files members ∅)).
Proof.
  intros Hres.
  destruct (update_prices_cases members markup price_column header_row)
    as [[Hcopy _] | (s & l & s' & Hext & Hls & Hres' & _ & Hfiles)].
  - assert (out = Copied) as -> by congruence.
    split; [done |]. split; [done |]. by intros packed [=].
  - assert (out = Packed (walk s')) as -> by congruence.
    apply extractall_files in Hext. cbn in Hext.
    assert (forall p, (list_to_map (walk s') : gmap path bytes) !! p
                      = rewrite_member markup price_column header_row p
                          <$> archive_files members ∅ !! p) as Hread.
    { intros p. unfold walk. by rewrite list_to_map_to_list, Hfiles, Hext. }
    split; [| split].
    + intros p Hp. cbn. rewrite Hread. unfold rewrite_member. rewrite Hp.
      by destruct (archive_files members ∅ !! p).
    + intros p. cbn. rewrite Hread. by rewrite fmap_is_Some.
    + intros packed [= <-]. split; [apply NoDup_fst_map_to_list |].
      intros p. unfold walk. rewrite elem_of_dom, <- Hext.
      rewrite <- (fmap_is_Some (rewrite_member markup price_column header_row p)).
      rewrite <- Hfiles, <- elem_of_dom. 
      rewrite list_elem_of_fmap. split.
      * intros ([q data] & -> & Hin%elem_of_map_to_list). apply elem_of_dom. eauto.
      * intros [data Hdata]%elem_of_dom. exists (p, data).
        split; [done | by apply elem_of_map_to_list].
Qed.

End CountClaims.

Lemma count_accuracy_witness :
  exists packed,
    @update_prices_in_xlsx Demo.runtime (Some Demo.two_sheets) Demo.fifty 4 5
    = (Packed packed, 2%nat)
    /\ sum_list_with (fun pd => @document_count Demo.runtime pd.2 4 5)
         (map_to_list (filter (fun pd => is_sheet pd.1 = true)
                              (archive_files Demo.two_sheets ∅)))
       = 2%nat.
Proof.
  destruct (@update_prices_in_xlsx Demo.runtime (Some Demo.two_sheets)
              Demo.fifty 4 5) as [out total] eqn:Hres.
  assert (total = 2%nat) as Htotal.
  { change total with (out, total).2. rewrite <- Hres. vm_compute. reflexivity. }
  destruct out as [| packed].
  { exfalso. assert ((Copied, total).1 <> Copied) as Hne; [| by apply Hne].
    rewrite <- Hres. vm_compute. discriminate. }
  exists packed. subst total. split; [reflexivity |].
  symmetry. exact (@count_accuracy Demo.runtime _ _ _ _ _ _ Hres).
Defined.

Lemma files_preserved_witness :
  let out := (@update_prices_in_xlsx Demo.runtime (Some Demo.two_sheets)
                Demo.fifty 4 5).1 in
  output_read Demo.two_sheets out Demo.png = Some Demo.png_bytes.
Proof.
  intros out.
  pose proof (@files_preserved Demo.runtime Demo.two_sheets Demo.fifty 4 5
                out _ (surjective_pairing _)) as (Hsame & _ & _).
  rewrite Hsame; vm_compute; reflexivity.
Defined.

(** C2 promises the member names of the input in the output.  This archive
    lists the directory entry [xl/media/] before its worksheet part; the
    call repacks, and the output has the worksheet part alone: the walk over
    the scratch directory writes the files it finds and no directory. *)
Lemma directory_entry_dropped :
  let out := (@update_prices_in_xlsx Demo.runtime
                (Some Demo.with_directory_entry) Demo.fifty 4 5).1 in
  ["xl"; "media"]%string ∈ namelist Demo.with_directory_entry
  /\ output_namelist Demo.with_directory_entry out
     = [Demo.sheet_path "sheet1.xml"]
  /\ ["xl"; "media"]%string ∉ output_namelist Demo.with_directory_entry out.
Proof.
  intros out.
  assert (output_namelist Demo.with_directory_entry out
          = [Demo.sheet_path "sheet1.xml"]) as Hnames
    by (vm_compute; reflexivity).
  split; [| split; [exact Hnames |]].
  - refine (bool_decide_unpack _ _). vm_compute. exact I.
  - rewrite Hnames. refine (bool_decide_unpack _ _). vm_compute. exact I.
Qed.

(** ** Two calls in a row *)

Section ChainFacts.
Context `{PyRuntime}.

Implicit Types (row cell root : element) (g : spec_float -> spec_float).

Lemma update_first_twice {A} (p : A -> bool) (f1 f2 : A -> A) (l : list A) :
  (forall x, p (f1 x) = p x) ->
  update_first p f2 (update_first p f1 l) = update_first p (fun x => f2 (f1 x)) l.
Proof.
  intros Hp. induction l as [| x l IH]; cbn; [done |].
  destruct (p x) eqn:Hx; cbn.
  - by rewrite Hp, Hx.
  - by rewrite Hx, IH.
Qed.

Lemma update_first_ext {A} (p : A -> bool) (f1 f2 : A -> A) (l : list A) :
  (forall x, f1 x = f2 x) -> update_first p f1 l = update_first p f2 l.
Proof.
  intros Hf. induction l as [| x l IH]; cbn; [done |].
  by rewrite Hf, IH.
Qed.

Lemma map_value_attrib g cell : attrib (map_value g cell) = attrib cell.
Proof.
  unfold map_value. destruct (cell_value cell); [| done].
  apply attrib_set_children.
Qed.

Lemma map_value_tag g cell : tag (map_value g cell) = tag cell.
Proof.
  unfold map_value. destruct (cell_value cell); [| done].
  apply tag_set_children.
Qed.

(** The value of a rewritten cell is the new value, when its text converts
    back. *)
Lemma cell_value_map_value g cell x :
  cell_value cell = Some x ->
  reparses (g x) ->
  cell_value (map_value g cell) = Some (g x).
Proof.
  intros Hx [Hne Hrt]. unfold cell_value at 1.
  rewrite (find_child_map_value _ _ _ Hx).
  unfold cell_value in Hx.
  destruct (find_child "v" cell) as [value_elem |]; [| done]. cbn.
  destruct value_elem as [t a tx tl cs]. cbn.
  destruct (String.eqb_spec (py_str (g x)) EmptyString); [done | exact Hrt].
Qed.

Lemma map_value_twice g1 g2 cell x :
  cell_value cell = Some x ->
  reparses (g1 x) ->
  map_value g2 (map_value g1 cell) = map_value (fun y => g2 (g1 y)) cell.
Proof.
  intros Hx Hrt. unfold map_value at 1.
  rewrite (cell_value_map_value _ _ _ Hx Hrt).
  unfold map_value. rewrite Hx.
  destruct cell as [t a tx tl cs]. cbn. f_equal.
  rewrite update_first_twice by (by intros []).
  apply update_first_ext. by intros [].
Qed.

Lemma row_number_set_children c row :
  row_number (set_children c row) = row_number row.
Proof. unfold row_number. by rewrite get_set_children. Qed.

Lemma eligible_ext column_letter header_row row row' cell cell' :
  tag row' = tag row -> attrib row' = attrib row ->
  tag cell' = tag cell -> attrib cell' = attrib cell ->
  is_Some (cell_value cell') <-> is_Some (cell_value cell) ->
  eligible column_letter header_row row' cell'
  = eligible column_letter header_row row cell.
Proof.
  intros Htr Har Htc Hac Hval.
  unfold eligible, in_target, numeric_type, has_tag, row_number, get.
  rewrite Htr, Har, Htc, Hac. do 2 f_equal. by apply bool_decide_ext.
Qed.

Lemma eligible_has_value column_letter header_row row cell :
  eligible column_letter header_row row cell = true ->
  exists x, cell_value cell = Some x.
Proof.
  unfold eligible. intros [_ Hval]%andb_true_iff.
  by apply bool_decide_eq_true in Hval.
Qed.

(** The rewritten cell is eligible for the next call exactly when the cell
    was eligible for this one. *)
Lemma eligible_after column_letter header_row g row cell c' :
  (forall x, eligible column_letter header_row row cell = true ->
             cell_value cell = Some x -> reparses (g x)) ->
  eligible column_letter header_row (set_children c' row)
    (if eligible column_letter header_row row cell
     then map_value g cell else cell)
  = eligible column_letter header_row row cell.
Proof.
  intros Hrt. destruct (eligible column_letter header_row row cell) eqn:Hel.
  - rewrite <- Hel. destruct (eligible_has_value _ _ _ _ Hel) as [x Hx].
    apply eligible_ext;
      rewrite ?tag_set_children, ?attrib_set_children,
              ?map_value_tag, ?map_value_attrib; try done.
    rewrite (cell_value_map_value g _ _ Hx) by (by apply Hrt).
    rewrite Hx. by split; eexists.
  - rewrite <- Hel. apply eligible_ext;
      by rewrite ?tag_set_children, ?attrib_set_children.
Qed.

Lemma filter_map_length {A} (p p' : A -> bool) (F : A -> A) (l : list A) :
  (forall x, x ∈ l -> p' (F x) = p x) ->
  length (List.filter p' (map F l)) = length (List.filter p l).
Proof.
  induction l as [| x l IH]; intros Hp; cbn; [done |].
  rewrite Hp by set_solver.
  destruct (p x); cbn; rewrite IH; try done; intros; apply Hp; set_solver.
Qed.

Lemma set_children_twice c c' e :
  set_children c (set_children c' e) = set_children c e.
Proof. by destruct e. Qed.

Lemma map_row_twice g1 g2 column_letter header_row row :
  (forall cell x, cell ∈ children row ->
                  eligible column_letter header_row row cell = true ->
                  cell_value cell = Some x -> reparses (g1 x)) ->
  map_row g2 column_letter header_row (map_row g1 column_letter header_row row)
  = map_row (fun y => g2 (g1 y)) column_letter header_row row
  /\ length (List.filter (eligible column_letter header_row
                            (map_row g1 column_letter header_row row))
               (children (map_row g1 column_letter header_row row)))
     = length (List.filter (eligible column_letter header_row row)
                           (children row)).
Proof.
  intros Hrt. unfold map_row.
  rewrite children_set_children, set_children_twice.
  set (F := fun cell => if eligible column_letter header_row row cell
                        then map_value g1 cell else cell).
  assert (forall cell, cell ∈ children row ->
            eligible column_letter header_row
              (set_children (map F (children row)) row) (F cell)
            = eligible column_letter header_row row cell) as Hsame.
  { intros cell Hin. apply eligible_after. intros; by eapply Hrt. }
  split.
  - f_equal. rewrite map_map. apply map_ext_in. intros cell Hin%list_elem_of_In.
    rewrite (Hsame _ Hin). unfold F.
    destruct (eligible _ _ row cell) eqn:Hel; [| done].
    destruct (eligible_has_value _ _ _ _ Hel) as [x Hx].
    apply (map_value_twice g1 g2 _ x Hx). by eapply Hrt.
  - by apply filter_map_length.
Qed.

Lemma rows_numbered_map_row g column_letter header_row rows :
  rows_numbered (map (map_row g column_letter header_row) rows)
  = rows_numbered rows.
Proof.
  unfold rows_numbered. induction rows as [| row rows IH]; cbn; [done |].
  rewrite IH. do 2 f_equal.
  - unfold map_row. by rewrite has_tag_set_children.
  - apply bool_decide_ext. unfold map_row. by rewrite row_number_set_children.
Qed.

Lemma map_rows_twice g1 g2 column_letter header_row rows :
  values_reparse g1 column_letter header_row rows ->
  map (map_row g2 column_letter header_row)
      (map (map_row g1 column_letter header_row) rows)
  = map (map_row (fun y => g2 (g1 y)) column_letter header_row) rows
  /\ eligible_count column_letter header_row
       (map (map_row g1 column_letter header_row) rows)
     = eligible_count column_letter header_row rows.
Proof.
  intros Hrt. induction rows as [| row rows IH]; [done |].
  destruct IH as [IHmap IHcount].
  { intros r c x Hr. apply Hrt. set_solver. }
  destruct (map_row_twice g1 g2 column_letter header_row row) as [Hmap Hcount].
  { intros c x Hc. apply Hrt; [set_solver | done]. }
  cbn [map]. rewrite !eligible_count_cons. split; [by rewrite Hmap, IHmap |].
  by rewrite Hcount, IHcount.
Qed.

(** The second call on the tree the first one wrote. *)
Lemma update_tree_twice root sheet_data markup price_column header_row :
  find_desc "sheetData" root = Some sheet_data ->
  rows_numbered (children sheet_data) = true ->
  let column_letter := Column._column_number_to_letter price_column in
  values_reparse (add_markup markup) column_letter header_row
                 (children sheet_data) ->
  update_tree
    (with_rows root sheet_data
       (map (map_row (add_markup markup) column_letter header_row)
            (children sheet_data)))
    markup price_column header_row
  = SheetWritten
      (with_rows root sheet_data
         (map (map_row (fun x => add_markup markup (add_markup markup x))
                       column_letter header_row)
              (children sheet_data)))
      (eligible_count column_letter header_row (children sheet_data)).
Proof.
  intros Hfind Hnum column_letter Hrt. unfold with_rows.
  pose proof (find_desc_has_tag _ _ _ Hfind) as Htag.
  rewrite update_tree_spec.
  rewrite find_desc_subst
    by (by rewrite ?has_tag_set_children || by rewrite Hfind).
  cbn zeta. fold column_letter.
  rewrite children_set_children, rows_numbered_map_row, Hnum.
  destruct (map_rows_twice (add_markup markup) (add_markup markup)
              column_letter header_row _ Hrt) as [-> ->].
  rewrite set_children_twice, subst_desc_subst
    by (by rewrite has_tag_set_children).
  done.
Qed.

(** The outcome of a part and of what the first call made of it. *)
Lemma sheet_outcome_twice data root sheet_data markup price_column header_row :
  xml_parse data = Some root ->
  find_desc "sheetData" root = Some sheet_data ->
  rows_numbered (children sheet_data) = true ->
  rewrite_reparses markup price_column header_row data ->
  let column_letter := Column._column_number_to_letter price_column in
  let written_once :=
    xml_write
      (with_rows root sheet_data
         (map (map_row (add_markup markup) column_letter header_row)
              (children sheet_data))) in
  sheet_outcome markup price_column header_row data
  = Some (written_once,
          eligible_count column_letter header_row (children sheet_data))
  /\ sheet_outcome markup price_column header_row written_once
     = Some (xml_write
               (with_rows root sheet_data
                  (map (map_row (fun x => add_markup markup (add_markup markup x))
                                column_letter header_row)
                       (children sheet_data))),
             eligible_count column_letter header_row (children sheet_data)).
Proof.
  intros Hparse Hfind Hnum Hrt column_letter written_once.
  destruct (Hrt root sheet_data Hparse Hfind Hnum) as [Hxml Hval].
  fold column_letter in Hxml, Hval. split.
  - unfold sheet_outcome. rewrite Hparse. cbn.
    rewrite update_tree_spec, Hfind. cbn zeta. by rewrite Hnum.
  - unfold sheet_outcome, written_once. rewrite Hxml.
    cbn -[update_tree with_rows map_row]. subst column_letter.
    by rewrite (update_tree_twice _ _ _ _ _ Hfind Hnum Hval).
Qed.

(** A part the first call leaves alone is left alone by the second. *)
Lemma sheet_outcome_stable markup price_column header_row data :
  rewrite_reparses markup price_column header_row data ->
  forall data',
    data' = match sheet_outcome markup price_column header_row data with
            | Some (written_once, _) => written_once
            | None => data
            end ->
    document_count data' price_column header_row
    = document_count data price_column header_row.
Proof.
  intros Hrt data' ->.
  rewrite !(document_count_outcome markup).
  destruct (sheet_outcome markup price_column header_row data)
    as [[written_once n] |] eqn:Hout; [| by rewrite Hout].
  unfold sheet_outcome in Hout.
  destruct (xml_parse data) as [root |] eqn:Hparse; [| done]. cbn in Hout.
  rewrite update_tree_spec in Hout.
  destruct (find_desc "sheetData" root) as [sheet_data |] eqn:Hfind; [| done].
  cbn zeta in Hout.
  destruct (rows_numbered (children sheet_data)) eqn:Hnum; [| done].
  injection Hout as <- <-.
  destruct (sheet_outcome_twice _ _ _ _ _ _ Hparse Hfind Hnum Hrt) as [_ Htwice].
  unfold with_rows in Htwice. cbn zeta in Htwice. by rewrite Htwice.
Qed.

End ChainFacts.

Section ReextractFacts.
Context `{PyRuntime}.

Implicit Types (s : fs) (p q d : path) (members : list zentry).

Lemma sanitize_idem p : sanitize (sanitize p) = sanitize p.
Proof.
  unfold sanitize. induction p as [| c p IH]; [done |].
  rewrite filter_cons. destruct (decide (Is_true (valid_part c))) as [Hc | Hc].
  - rewrite filter_cons. by rewrite decide_True, IH by done.
  - done.
Qed.

Lemma makedirs_no_file d s s' q :
  makedirs d s = Some s' -> q ∈ inits1 d -> q ∉ dom (fs_files s).
Proof.
  unfold makedirs. destruct (existsb (is_file s) (inits1 d)) eqn:Hex; [done |].
  intros _ Hq Hfile.
  assert (existsb (is_file s) (inits1 d) = true) as Htrue; [| congruence].
  apply existsb_exists. exists q. split; [by apply list_elem_of_In |].
  by apply bool_decide_eq_true.
Qed.

Lemma makedirs_well_formed d s s' :
  well_formed s -> makedirs d s = Some s' -> well_formed s'.
Proof.
  intros Hwf Hmk p.
  rewrite (makedirs_files _ _ _ Hmk), (makedirs_dirs _ _ _ Hmk).
  intros Hp. destruct (Hwf p Hp) as (Hsan & Hnd & Hup).
  split; [done |]. split.
  - rewrite elem_of_union, elem_of_list_to_set. intros [Hd | Hd]; [done |].
    by apply (makedirs_no_file _ _ _ _ Hmk Hd).
  - intros q Hq. apply elem_of_union_l. by apply Hup.
Qed.

Lemma extract_member_well_formed s s' m :
  well_formed s -> extract_member s m = Some s' -> well_formed s'.
Proof.
  intros Hwf. destruct m as [name data | name]; cbn.
  - destruct (makedirs (dirname (sanitize name)) s) as [s1 |] eqn:Hmk;
      cbn; [| done].
    destruct (is_dir s1 (sanitize name)) eqn:Hdir; [done |]. intros [= <-].
    pose proof (makedirs_well_formed _ _ _ Hwf Hmk) as Hwf1.
    intros p. cbn. rewrite dom_insert_L, elem_of_union, elem_of_singleton.
    intros [-> | Hp]; [| by apply Hwf1].
    split; [apply sanitize_idem |]. split.
    + by apply bool_decide_eq_false in Hdir.
    + intros q Hq. rewrite (makedirs_dirs _ _ _ Hmk).
      by apply elem_of_union_r, elem_of_list_to_set.
  - by apply makedirs_well_formed.
Qed.

Lemma extractall_well_formed members s s' :
  well_formed s -> extractall members s = Some s' -> well_formed s'.
Proof.
  revert s. induction members as [| m rest IH]; intros s Hwf; cbn.
  - by intros [= <-].
  - destruct (extract_member s m) as [s1 |] eqn:Hm; cbn; [| done].
    apply IH. by eapply extract_member_well_formed.
Qed.

Lemma well_formed_empty : well_formed fs_empty.
Proof. intros p. cbn. by rewrite dom_empty_L. Qed.

(** The files of a well-formed directory extract again without a clash. *)
Lemma extractall_repacked s1 packed :
  well_formed s1 ->
  (forall pd, pd ∈ packed -> fs_files s1 !! pd.1 = Some pd.2) ->
  forall s2,
    dom (fs_files s2) ⊆ dom (fs_files s1) ->
    fs_dirs s2 ⊆ fs_dirs s1 ->
    is_Some (extractall (repacked packed) s2).
Proof.
  intros Hwf. induction packed as [| [p data] rest IH]; intros Hin s2 Hfiles Hdirs.
  { by eexists. }
  assert (p ∈ dom (fs_files s1)) as Hp.
  { apply elem_of_dom. exists data. apply (Hin (p, data)). by left. }
  destruct (Hwf p Hp) as (Hsan & Hnd & Hup).
  change (is_Some (extract_member s2 (ZFile p data)
                     ≫= extractall (repacked rest))).
  unfold extract_member. rewrite Hsan. unfold makedirs.
  assert (existsb (is_file s2) (inits1 (dirname p)) = false) as ->.
  { apply not_true_is_false. intros (q & Hq%list_elem_of_In & Hfile)%existsb_exists.
    apply bool_decide_eq_true in Hfile.
    destruct (Hwf q (Hfiles _ Hfile)) as (_ & Hqd & _). by apply Hqd, Hup. }
  cbn. unfold is_dir at 1. cbn.
  rewrite bool_decide_eq_false_2.
  - apply IH.
    + intros pd Hpd. apply Hin. by right.
    + cbn. rewrite dom_insert_L. set_solver.
    + cbn. intros q. rewrite elem_of_union, elem_of_list_to_set.
      intros [Hq | Hq]; [by apply Hdirs | by apply Hup].
  - rewrite elem_of_union, elem_of_list_to_set.
    intros [Hq | Hq]; [by apply Hnd, Hdirs | by apply Hnd, Hup].
Qed.

Lemma archive_files_repacked packed acc :
  NoDup packed.*1 ->
  (forall pd, pd ∈ packed -> sanitize pd.1 = pd.1) ->
  archive_files (repacked packed) acc = list_to_map packed ∪ acc.
Proof.
  revert acc. induction packed as [| [p data] rest IH]; intros acc Hnd Hsan.
  - cbn. by rewrite (left_id_L ∅ (∪)).
  - apply NoDup_cons in Hnd as [Hp Hnd].
    change (archive_files (repacked rest) (<[sanitize p := data]> acc)
            = <[p := data]> (list_to_map rest) ∪ acc).
    pose proof (Hsan (p, data) ltac:(by left)) as Hsp.
    change (sanitize p = p) in Hsp. rewrite Hsp.
    rewrite IH by (done || intros; apply Hsan; by right).
    rewrite <- insert_union_r; [by rewrite insert_union_l |].
    by apply not_elem_of_list_to_map_1.
Qed.

End ReextractFacts.

Section ChainClaims.
Context `{PyRuntime}.

Implicit Types (s : fs) (p q : path) (members : list zentry).

Lemma makedirs_dirs_grow d s s' : makedirs d s = Some s' -> fs_dirs s ⊆ fs_dirs s'.
Proof. intros Hmk. rewrite (makedirs_dirs _ _ _ Hmk). set_solver. Qed.

Lemma extractall_dirs_grow members s s' :
  extractall members s = Some s' -> fs_dirs s ⊆ fs_dirs s'.
Proof.
  revert s. induction members as [| m rest IH]; intros s; cbn.
  - by intros [= <-].
  - destruct (extract_member s m) as [s1 |] eqn:Hm; cbn; [| done].
    intros Hrest. etrans; [| by apply IH].
    destruct m as [name data | name]; cbn in Hm.
    + destruct (makedirs (dirname (sanitize name)) s) as [s2 |] eqn:Hmk;
        cbn in Hm; [| done].
      destruct (is_dir s2 (sanitize name)); [done |]. injection Hm as <-. cbn.
      by eapply makedirs_dirs_grow.
    + by eapply makedirs_dirs_grow.
Qed.

(** A worksheet part of a well-formed directory lies in [xl/worksheets], which
    is then a directory. *)
Lemma sheet_file_needs_dir s p :
  well_formed s -> is_sheet p = true -> p ∈ dom (fs_files s) ->
  is_dir s worksheets_dir = true.
Proof.
  intros Hwf (n & -> & _)%is_sheet_spec Hp.
  destruct (Hwf _ Hp) as (_ & _ & Hup).
  apply bool_decide_eq_true, Hup. rewrite dirname_snoc.
  unfold worksheets_dir. cbn. set_solver.
Qed.

Lemma sum_list_with_fmap {A B} (f : A -> B) (g : B -> nat) (l : list A) :
  sum_list_with g (f <$> l) = sum_list_with (fun x => g (f x)) l.
Proof. induction l as [| x l IH]; cbn; [done | by rewrite IH]. Qed.

Lemma sum_list_with_ext_in {A} (g g' : A -> nat) (l : list A) :
  (forall x, x ∈ l -> g x = g' x) -> sum_list_with g l = sum_list_with g' l.
Proof.
  induction l as [| x l IH]; intros Hg; cbn; [done |].
  rewrite Hg by set_solver. rewrite IH; [done |]. intros; apply Hg; set_solver.
Qed.

(** The sum over the worksheet documents does not see a change of the bytes
    that keeps the count of every document. *)
Lemma sum_over_sheets_transform (m m2 : gmap path bytes)
    (F : path -> bytes -> bytes) (dc : bytes -> nat) :
  (forall q, m2 !! q = F q <$> m !! q) ->
  (forall q data, is_sheet q = true -> m !! q = Some data ->
                  dc (F q data) = dc data) ->
  sum_list_with (fun pd => dc pd.2)
    (map_to_list (filter (fun pd => is_sheet pd.1 = true) m2))
  = sum_list_with (fun pd => dc pd.2)
      (map_to_list (filter (fun pd => is_sheet pd.1 = true) m)).
Proof.
  intros Hm2 Hdc.
  set (l := map_to_list (filter (fun pd => is_sheet pd.1 = true) m)).
  transitivity (sum_list_with (fun pd => dc pd.2)
                  ((fun pd => (pd.1, F pd.1 pd.2)) <$> l)).
  - apply sum_list_with_Permutation_proper, NoDup_Permutation.
    + apply NoDup_map_to_list.
    + apply NoDup_fmap_2_strong; [| apply NoDup_map_to_list].
      intros [q d] [q' d'] Hin Hin' [= <- _].
      apply elem_of_map_to_list, map_lookup_filter_Some in Hin as [Hin _].
      apply elem_of_map_to_list, map_lookup_filter_Some in Hin' as [Hin' _].
      congruence.
    + intros [q e]. rewrite elem_of_map_to_list, map_lookup_filter_Some.
      rewrite list_elem_of_fmap, Hm2. cbn. split.
      * intros [He Hq]. destruct (m !! q) as [d |] eqn:Hd; [| done].
        injection He as <-. exists (q, d). split; [done |].
        apply elem_of_map_to_list, map_lookup_filter_Some. done.
      * intros ([q' d] & [= -> ->] & Hin).
        apply elem_of_map_to_list, map_lookup_filter_Some in Hin as [Hd Hq].
        cbn in *. by rewrite Hd.
  - rewrite sum_list_with_fmap. apply sum_list_with_ext_in.
    intros [q d] Hin. cbn.
    apply elem_of_map_to_list, map_lookup_filter_Some in Hin as [Hd Hq].
    by apply Hdc.
Qed.

(** What the second call finds and does, given what the first one did. *)
Lemma second_call members s s1 markup price_column header_row :
  extractall members fs_empty = Some s ->
  fs_dirs s1 = fs_dirs s ->
  (forall q, fs_files s1 !! q
             = rewrite_member markup price_column header_row q
                 <$> fs_files s !! q) ->
  (forall p data, is_sheet p = true -> fs_files s !! p = Some data ->
                  rewrite_reparses markup price_column header_row data) ->
  exists out2,
    update_prices_in_xlsx (Some (repacked (walk s1)))
                          markup price_column header_row
    = (out2,
       sum_list_with (fun pd => document_count pd.2 price_column header_row)
         (map_to_list (filter (fun pd => is_sheet pd.1 = true) (fs_files s))))
    /\ forall p, is_sheet p = true -> is_Some (fs_files s !! p) ->
         output_read (repacked (walk s1)) out2 p
         = rewrite_member markup price_column header_row p
             <$> fs_files s1 !! p.
Proof.
  intros Hext Hdirs1 Hfiles1 Hrt.
  pose proof (extractall_well_formed _ _ _ well_formed_empty Hext) as Hwf.
  assert (dom (fs_files s1) = dom (fs_files s)) as Hdom.
  { apply set_eq. intros q. rewrite !elem_of_dom, Hfiles1. by rewrite fmap_is_Some. }
  assert (well_formed s1) as Hwf1.
  { intros q. rewrite Hdom, Hdirs1. apply Hwf. }
  assert ([] ∈ fs_dirs s1) as Hroot.
  { rewrite Hdirs1. apply (extractall_dirs_grow _ _ _ Hext). cbn. set_solver. }
  destruct (extractall_repacked s1 (walk s1) Hwf1) with (s2 := fs_empty)
    as [s2 Hext2].
  { intros [q d] Hin. by apply elem_of_walk. }
  { cbn. rewrite dom_empty_L. set_solver. }
  { cbn. set_solver. }
  pose proof (extractall_well_formed _ _ _ well_formed_empty Hext2) as Hwf2.
  assert (fs_files s2 = fs_files s1) as Hfiles2.
  { rewrite (extractall_files _ _ _ Hext2). cbn.
    rewrite archive_files_repacked.
    - unfold walk. by rewrite list_to_map_to_list, (right_id_L ∅ (∪)).
    - apply NoDup_fst_map_to_list.
    - intros [q d] Hin%elem_of_walk. cbn. apply Hwf1, elem_of_dom. eauto. }
  assert (sum_list_with (fun pd => document_count pd.2 price_column header_row)
            (map_to_list (filter (fun pd => is_sheet pd.1 = true) (fs_files s2)))
          = sum_list_with (fun pd => document_count pd.2 price_column header_row)
              (map_to_list (filter (fun pd => is_sheet pd.1 = true) (fs_files s))))
    as Hsum.
  { apply (sum_over_sheets_transform _ _
             (rewrite_member markup price_column header_row)
             (fun data => document_count data price_column header_row)).
    - intros q. by rewrite Hfiles2.
    - intros q data Hq Hdata. unfold rewrite_member. rewrite Hq.
      apply (sheet_outcome_stable markup); [by eapply Hrt | done]. }
  destruct (update_prices_cases (repacked (walk s1))
              markup price_column header_row)
    as [[Hcopy [Hnone | (s2' & Hs2' & Hnodir)]]
       | (s2' & l2 & s3 & Hext2' & Hls2 & Hres2 & _ & Hfiles3)].
  - congruence.
  - assert (s2' = s2) as -> by congruence.
    assert (forall p, is_sheet p = true -> fs_files s !! p = None) as Hnosheet.
    { intros p Hp. destruct (fs_files s !! p) as [data |] eqn:Hdata; [| done].
      assert (is_dir s2 worksheets_dir = true); [| congruence].
      apply (sheet_file_needs_dir _ p Hwf2 Hp).
      rewrite Hfiles2, Hdom. apply elem_of_dom. eauto. }
    exists Copied. rewrite Hcopy. split.
    + f_equal. symmetry.
      assert (filter (fun pd : path * bytes => is_sheet pd.1 = true) (fs_files s)
              = ∅) as ->; [| by rewrite map_to_list_empty].
      apply map_empty. intros q. apply eq_None_not_Some.
      intros [d [Hd Hq]%map_lookup_filter_Some]. cbn in Hq.
      by rewrite (Hnosheet q Hq) in Hd.
    + intros p Hp [data Hdata]. by rewrite (Hnosheet p Hp) in Hdata.
  - assert (s2' = s2) as -> by congruence.
    exists (Packed (walk s3)). rewrite Hres2. split.
    + f_equal. by rewrite (contributions_by_document _ _ _ _ _ Hls2).
    + intros p _ _. cbn. unfold walk.
      by rewrite list_to_map_to_list, Hfiles3, Hfiles2.
Qed.

(** C8, as the code has it.  Take a call that repacks, and suppose that
    what it wrote converts back: the worksheet trees through [tree.write]
    and [ET.parse], the new values through [str] and [float].  Then a second
    call on the output returns the same count, every cell eligible for the
    first call being eligible for the second, and in every worksheet
    document it finds, the text of each eligible cell is the text of
    [(old + markup) + markup], the two sums being those of binary64
    floats. *)
Theorem chained_rewrite members markup price_column header_row packed total :
  update_prices_in_xlsx (Some members) markup price_column header_row
  = (Packed packed, total) ->
  (forall p data, is_sheet p = true ->
                  archive_files members ∅ !! p = Some data ->
                  rewrite_reparses markup price_column header_row data) ->
  exists out2,
    update_prices_in_xlsx (Some (repacked packed)) markup price_column header_row
    = (out2, total)
    /\ forall p data root sheet_data,
         is_sheet p = true ->
         archive_files members ∅ !! p = Some data ->
         xml_parse data = Some root ->
         find_desc "sheetData" root = Some sheet_data ->
         rows_numbered (children sheet_data) = true ->
         let column_letter := Column._column_number_to_letter price_column in
         output_read members (Packed packed) p
         = Some (xml_write
                   (with_rows root sheet_data
                      (map (map_row (add_markup markup) column_letter header_row)
                           (children sheet_data))))
         /\ output_read (repacked packed) out2 p
            = Some (xml_write
                      (with_rows root sheet_data
                         (map (map_row
                                 (fun x => add_markup markup (add_markup markup x))
                                 column_letter header_row)
                              (children sheet_data)))).
Proof.
  intros Hres Hrt.
  destruct (update_prices_cases members markup price_column header_row)
    as [[Hcopy _] | (s & l & s1 & Hext & Hls & Hres1 & Hdirs1 & Hfiles1)];
    [congruence |].
  assert (packed = walk s1) as -> by congruence.
  assert (total = sum_list_with
                    (fun pd => document_count pd.2 price_column header_row)
                    (map_to_list (filter (fun pd => is_sheet pd.1 = true)
                                         (fs_files s)))) as ->.
  { rewrite <- (contributions_by_document markup _ _ _ _ Hls). congruence. }
  pose proof (extractall_files _ _ _ Hext) as Hfiles. cbn in Hfiles.
  rewrite <- Hfiles in Hrt.
  destruct (second_call _ _ _ markup price_column header_row
              Hext Hdirs1 Hfiles1 Hrt) as (out2 & Hres2 & Hread2).
  exists out2. split; [done |].
  intros p data root sheet_data Hp Hdata Hparse Hfind Hnum column_letter.
  rewrite <- Hfiles in Hdata.
  destruct (sheet_outcome_twice _ _ _ markup price_column header_row
              Hparse Hfind Hnum (Hrt _ _ Hp Hdata)) as [Hone Htwo].
  fold column_letter in Hone, Htwo.
  assert (fs_files s1 !! p
          = Some (xml_write
                    (with_rows root sheet_data
                       (map (map_row (add_markup markup) column_letter header_row)
                            (children sheet_data))))) as Hp1.
  { rewrite Hfiles1, Hdata. cbn. unfold rewrite_member. by rewrite Hp, Hone. }
  split.
  - cbn. unfold walk. by rewrite list_to_map_to_list.
  - rewrite Hread2 by (done || by eexists). rewrite Hp1. cbn.
    unfold rewrite_member. by rewrite Hp, Htwo.
Qed.

End ChainClaims.

(** C8 promises an increase by twice the markup for every input.  D6 holds
    2^53 = 9007199254740992 and the markup is 1.0: the nearest float to
    2^53 + 1 is 2^53 itself, so each call writes 9007199254740992.0 and
    counts the cell; after the two calls the value is the original one,
    while the original plus twice the markup is 9007199254740994.0. *)
Lemma large_value_not_increased :
  let p := Demo.sheet_path "sheet1.xml" in
  let first := @update_prices_in_xlsx Demo.runtime (Some Demo.large_archive)
                 Demo.one 4 5 in
  let x := Demo.float_of_Z false 9007199254740992 in
  @py_float Demo.runtime "9007199254740992" = Some x
  /\ first.2 = 1%nat
  /\ output_read Demo.large_archive first.1 p
     = Some (@xml_write Demo.runtime Demo.large_tree_written)
  /\ match first.1 with
     | Packed packed =>
         let second := @update_prices_in_xlsx Demo.runtime
                         (Some (repacked packed)) Demo.one 4 5 in
         second.2 = 1%nat
         /\ output_read (repacked packed) second.1 p
            = Some (@xml_write Demo.runtime Demo.large_tree_written)
     | Copied => False
     end
  /\ @py_str Demo.runtime (float_add (float_add x Demo.one) Demo.one)
     = "9007199254740992.0"%string
  /\ @py_str Demo.runtime (float_add x (float_add Demo.one Demo.one))
     = "9007199254740994.0"%string.
Proof. vm_compute. repeat split; reflexivity. Qed.

(** The price sheet through two calls with markup 50: 100 and 250 become
    200.0 and 350.0, and each call counts the two cells. *)
Lemma chained_rewrite_witness :
  exists packed out2,
    @update_prices_in_xlsx Demo.runtime (Some Demo.prices_archive) Demo.fifty 4 5
    = (Packed packed, 2%nat)
    /\ @update_prices_in_xlsx Demo.runtime (Some (repacked packed)) Demo.fifty 4 5
       = (out2, 2%nat)
    /\ output_read (repacked packed) out2 (Demo.sheet_path "sheet1.xml")
       = Some (@xml_write Demo.runtime Demo.prices_tree_written_twice).
Proof.
  destruct (@update_prices_in_xlsx Demo.runtime (Some Demo.prices_archive)
              Demo.fifty 4 5) as [out total] eqn:Hres.
  assert (total = 2%nat) as ->.
  { change total with (out, total).2. rewrite <- Hres. vm_compute. reflexivity. }
  destruct out as [| packed].
  { exfalso. assert ((Copied, 2%nat).1 <> Copied) as Hne; [| by apply Hne].
    rewrite <- Hres. vm_compute. discriminate. }
  assert (forall p data,
            is_sheet p = true ->
            archive_files Demo.prices_archive ∅ !! p = Some data ->
            @rewrite_reparses Demo.runtime Demo.fifty 4 5 data) as Hrt.
  { intros p data Hp Hdata.
    assert (data = list_byte_of_string Demo.prices_xml) as ->.
    { unfold Demo.prices_archive, Demo.file in Hdata. cbn [archive_files] in Hdata.
      apply lookup_insert_Some in Hdata as [[<- _] | [_ Hdata]].
      { vm_compute in Hp. discriminate. }
      apply lookup_insert_Some in Hdata as [[_ <-] | [_ Hdata]]; [reflexivity |].
      by rewrite lookup_empty in Hdata. }
    intros root sheet_data Hparse Hfind Hnum column_letter root'.
    assert (root = Demo.prices_tree) as ->.
    { vm_compute in Hparse. injection Hparse as <-. reflexivity. }
    assert (sheet_data = Demo.sheet_data Demo.prices_rows) as ->.
    { vm_compute in Hfind. injection Hfind as <-. reflexivity. }
    split; [vm_compute; reflexivity |].
    intros row cell x Hrow Hcell Hel Hx.
    unfold Demo.sheet_data, Demo.node, Demo.prices_rows in Hrow. cbn [children] in Hrow.
    apply list_elem_of_In in Hrow. cbn [In] in Hrow.
    destruct Hrow as [<- | [<- | [<- | [<- | []]]]];
      unfold Demo.row, Demo.node in Hcell; cbn [children] in Hcell;
      apply list_elem_of_In in Hcell; cbn [In] in Hcell.
    - destruct Hcell as [<- | []]. vm_compute in Hel. discriminate Hel.
    - destruct Hcell as [<- | [<- | []]]; vm_compute in Hel; [discriminate Hel |].
      vm_compute in Hx. injection Hx as <-.
      split; [vm_compute; discriminate | vm_compute; reflexivity].
    - destruct Hcell as [<- | []]. vm_compute in Hx. discriminate Hx.
    - destruct Hcell as [<- | []].
      vm_compute in Hx. injection Hx as <-.
      split; [vm_compute; discriminate | vm_compute; reflexivity]. }
  destruct (@chained_rewrite Demo.runtime _ _ _ _ _ _ Hres Hrt)
    as (out2 & Hres2 & Hread).
  exists packed, out2. split; [reflexivity |]. split; [exact Hres2 |].
  assert (archive_files Demo.prices_archive ∅ !! Demo.sheet_path "sheet1.xml"
          = Some (list_byte_of_string Demo.prices_xml)) as Hdata
    by (vm_compute; reflexivity).
  assert (@xml_parse Demo.runtime (list_byte_of_string Demo.prices_xml)
          = Some Demo.prices_tree) as Hparse by (vm_compute; reflexivity).
  assert (find_desc "sheetData" Demo.prices_tree
          = Some (Demo.sheet_data Demo.prices_rows)) as Hfind
    by (vm_compute; reflexivity).
  assert (@rows_numbered Demo.runtime (children (Demo.sheet_data Demo.prices_rows))
          = true) as Hnum by (vm_compute; reflexivity).
  assert (is_sheet (Demo.sheet_path "sheet1.xml") = true) as Hsheet
    by (vm_compute; reflexivity).
  destruct (Hread _ _ _ _ Hsheet Hdata Hparse Hfind Hnum) as [_ Htwo].
  rewrite Htwo. vm_compute. reflexivity.
Defined.

(** * Further properties of the rewriter

    Properties of [src/xlsx_image_preserving_processor.py] that the code
    shows beyond the statements above. *)

(** ** Column letters *)

Section MoreColumnFacts.
Import Column.

Lemma nat_of_letter_of k : nat_of_ascii (letter_of k) = Z.to_nat (k mod 26 + 65).
Proof.
  unfold letter_of.
  assert (0 <= k mod 26 < 26) by (apply Z.mod_pos_bound; lia).
  apply nat_ascii_embedding. lia.
Qed.

Lemma loop_letters n c :
  c ∈ loop n [] -> (65 <= nat_of_ascii c <= 90)%nat.
Proof.
  destruct (Z_le_gt_dec n 0) as [Hn | Hn].
  { rewrite loop_nonpos by lia. by intros ?%elem_of_nil. }
  assert (0 <= n) as Hn0 by lia. clear Hn. revert n Hn0 c.
  apply (Z_lt_induction
           (fun n => forall c, c ∈ loop n [] -> (65 <= nat_of_ascii c <= 90)%nat)).
  intros n IH c.
  destruct (Z_le_gt_dec n 0) as [Hn | Hn].
  { rewrite loop_nonpos by lia. by intros ?%elem_of_nil. }
  rewrite loop_pos by lia. rewrite loop_acc. cbn.
  assert ((n - 1) / 26 < n) by (apply Z.div_lt_upper_bound; lia).
  assert (0 <= (n - 1) / 26) by (apply Z.div_pos; lia).
  intros [-> | Hc]%elem_of_cons; [| apply (IH ((n - 1) / 26)); [lia | done]].
  rewrite nat_of_letter_of.
  assert (0 <= (n - 1) mod 26 < 26) by (apply Z.mod_pos_bound; lia). lia.
Qed.

Lemma loop_nonempty n : 0 < n -> loop n [] <> [].
Proof.
  intros Hn. rewrite loop_pos by lia. rewrite loop_acc. done.
Qed.

End MoreColumnFacts.

(** X1.  Two different column numbers never get the same letters: from 0
    on, [_column_number_to_letter] is injective, so a cell reference names
    one column. *)
Theorem column_letters_injective n m :
  0 <= n -> 0 <= m -> n <> m ->
  Column._column_number_to_letter n <> Column._column_number_to_letter m.
Proof.
  intros Hn Hm Hne Heq. apply Hne.
  rewrite <- (letter_to_number_inverse n), <- (letter_to_number_inverse m) by done.
  by rewrite Heq.
Qed.

Lemma column_letters_injective_witness :
  Column._column_number_to_letter 26 <> Column._column_number_to_letter 27.
Proof. apply column_letters_injective; lia. Defined.

(** X2.  The letters [_column_number_to_letter] produces are the capital
    letters A to Z and nothing else, and a positive column number has at
    least one letter. *)
Theorem column_letters_alphabet n :
  (forall c, c ∈ list_ascii_of_string (Column._column_number_to_letter n) ->
             (65 <= nat_of_ascii c <= 90)%nat)
  /\ (0 < n -> Column._column_number_to_letter n <> EmptyString).
Proof.
  unfold Column._column_number_to_letter. split.
  - intros c. rewrite list_ascii_of_string_of_list_ascii.
    intros Hc%list_elem_of_In%in_rev%list_elem_of_In. by apply (loop_letters n).
  - intros Hn Hempty. apply (loop_nonempty n Hn).
    apply (f_equal list_ascii_of_string) in Hempty.
    rewrite list_ascii_of_string_of_list_ascii in Hempty. cbn in Hempty.
    apply (f_equal (@rev ascii)) in Hempty. by rewrite rev_involutive in Hempty.
Qed.

Lemma column_letters_alphabet_witness :
  (65 <= nat_of_ascii "Z" <= 90)%nat
  /\ Column._column_number_to_letter 703 <> EmptyString.
Proof.
  split.
  - apply (proj1 (column_letters_alphabet 26)). vm_compute. by left.
  - apply (proj2 (column_letters_alphabet 703)). lia.
Defined.

(** ** A worksheet with nothing to rewrite *)

Section MoreSheetFacts.
Context `{PyRuntime}.

(** Putting back the element the search finds changes nothing. *)
Lemma subst_desc_same name e d :
  find_desc name e = Some d -> subst_desc name d e = e.
Proof.
  revert d. induction e as [t a x tl cs IH] using element_induction. intros d.
  rewrite find_desc_unfold, subst_desc_unfold. cbn. intros Hfind. f_equal.
  induction cs as [| c cs IHcs]; cbn in *; [done |].
  inversion IH as [| ? ? IHc IHrest]; subst.
  destruct (has_tag name c); [by injection Hfind as -> |].
  destruct (find_desc name c) as [d' |] eqn:Hc.
  - injection Hfind as ->. f_equal. by apply IHc.
  - f_equal. by apply IHcs.
Qed.

Lemma filter_length_zero {A} (p : A -> bool) (l : list A) x :
  length (List.filter p l) = 0%nat -> x ∈ l -> p x = false.
Proof.
  induction l as [| y l IH]; cbn; [by intros _ ?%elem_of_nil |].
  destruct (p y) eqn:Hy; cbn; [done |].
  intros Hlen [-> | Hx]%elem_of_cons; [done | by apply IH].
Qed.

Lemma map_row_nothing_eligible g column_letter header_row row :
  length (List.filter (eligible column_letter header_row row) (children row))
  = 0%nat ->
  map_row g column_letter header_row row = row.
Proof.
  intros Hlen. unfold map_row. rewrite map_id_eq; [apply set_children_id |].
  intros cell Hcell. by rewrite (filter_length_zero _ _ _ Hlen Hcell).
Qed.

Lemma map_rows_nothing_eligible g column_letter header_row rows :
  eligible_count column_letter header_row rows = 0%nat ->
  map (map_row g column_letter header_row) rows = rows.
Proof.
  induction rows as [| row rows IH]; [done |].
  rewrite eligible_count_cons. intros Hsum. cbn.
  rewrite map_row_nothing_eligible by lia. rewrite IH by lia. done.
Qed.

(** X3.  A worksheet part with a [sheetData] and no eligible cell is written
    back all the same: [tree.write] is reached with the tree as it was
    parsed, the part holds the serialisation of that tree afterwards, and
    the count is 0. *)
Theorem unchanged_sheet_reserialised s p markup price_column header_row
    data root sheet_data :
  fs_files s !! p = Some data ->
  xml_parse data = Some root ->
  find_desc "sheetData" root = Some sheet_data ->
  rows_numbered (children sheet_data) = true ->
  eligible_count (Column._column_number_to_letter price_column) header_row
                 (children sheet_data) = 0%nat ->
  _update_sheet_prices s p markup price_column header_row
  = (written s p (xml_write root), 0%nat).
Proof.
  intros Hfile Hparse Hfind Hnum Hcount.
  rewrite (update_sheet_prices_spec _ _ _ _ _ _ _ _ Hfile Hparse Hfind).
  cbv zeta. rewrite Hnum, Hcount, map_rows_nothing_eligible by done.
  unfold with_rows. by rewrite set_children_id, subst_desc_same.
Qed.

(** X4.  A worksheet part that parses and has no [sheetData] is not written
    back: whatever the call does with the rest of the archive, the output
    holds the bytes of the input under that name. *)
Theorem sheet_without_data_kept members markup price_column header_row
    out total p data root :
  update_prices_in_xlsx (Some members) markup price_column header_row
  = (out, total) ->
  archive_files members ∅ !! p = Some data ->
  xml_parse data = Some root ->
  find_desc "sheetData" root = None ->
  output_read members out p = Some data.
Proof.
  intros Hres Hdata Hparse Hfind.
  destruct (update_prices_cases members markup price_column header_row)
    as [[Hcopy _] | (s & l & s' & Hext & Hls & Hres' & _ & Hfiles)].
  - assert (out = Copied) as -> by congruence. done.
  - assert (out = Packed (walk s')) as -> by congruence.
    apply extractall_files in Hext. cbn in Hext.
    cbn. unfold walk. rewrite list_to_map_to_list, Hfiles, Hext, Hdata. cbn.
    f_equal. unfold rewrite_member, sheet_outcome.
    destruct (is_sheet p); [| done].
    rewrite Hparse. cbn. unfold update_tree. by rewrite Hfind.
Qed.

(** ** What a rewritten cell keeps *)




End MoreSheetFacts.

Lemma unchanged_sheet_reserialised_witness :
  @_update_sheet_prices Demo.runtime (Demo.one_sheet Demo.prices_xml)
    (Demo.sheet_path "sheet1.xml") Demo.fifty 4 100
  = (written (Demo.one_sheet Demo.prices_xml) (Demo.sheet_path "sheet1.xml")
       (@xml_write Demo.runtime Demo.prices_tree), 0%nat).
Proof.
  apply (@unchanged_sheet_reserialised Demo.runtime _ _ _ _ _
           (list_byte_of_string Demo.prices_xml) Demo.prices_tree
           (Demo.sheet_data Demo.prices_rows));
    vm_compute; reflexivity.
Defined.

Lemma sheet_without_data_kept_witness :
  exists out total,
    @update_prices_in_xlsx Demo.runtime_more (Some Demo.empty_sheet_archive)
      Demo.fifty 4 5 = (out, total)
    /\ output_read Demo.empty_sheet_archive out (Demo.sheet_path "sheet1.xml")
       = Some (list_byte_of_string Demo.empty_xml).
Proof.
  destruct (@update_prices_in_xlsx Demo.runtime_more
              (Some Demo.empty_sheet_archive) Demo.fifty 4 5)
    as [out total] eqn:Hres.
  exists out, total. split; [reflexivity |].
  apply (@sheet_without_data_kept Demo.runtime_more _ _ _ _ _ _ _ _
           Demo.empty_tree Hres); vm_compute; reflexivity.
Defined.


(** ** The order of the listing *)

Section MoreDirectoryFacts.
Context `{PyRuntime}.

(** X6.  [os.listdir] hands out the names of [xl/worksheets] in no
    particular order, each once.  The loop over them does not depend on that
    order: the scratch directory it leaves and the total it returns are the
    same for every order. *)
Theorem listing_order_irrelevant markup price_column header_row
    (l l' : list string) s t :
  NoDup l -> l ≡ₚ l' ->
  foldl (visit_sheet markup price_column header_row) (s, t) l
  = foldl (visit_sheet markup price_column header_row) (s, t) l'.
Proof.
  intros Hnd Hperm.
  assert (NoDup l') as Hnd' by (by rewrite <- Hperm).
  destruct (foldl_visit_sheet markup price_column header_row l Hnd s t)
    as (s1 & -> & Hdirs1 & Hfiles1).
  destruct (foldl_visit_sheet markup price_column header_row l' Hnd' s t)
    as (s2 & -> & Hdirs2 & Hfiles2).
  f_equal.
  - destruct s1 as [f1 d1], s2 as [f2 d2]. cbn in *. f_equal; [| congruence].
    apply map_eq. intros q. rewrite Hfiles1, Hfiles2.
    destruct (fs_files s !! q) as [data |]; [| done]. cbn. f_equal.
    unfold visited_paths.
    do 2 case_bool_decide; try done.
    + exfalso. by rewrite <- Hperm in *.
    + exfalso. by rewrite Hperm in *.
  - f_equal. by rewrite Hperm.
Qed.

End MoreDirectoryFacts.

Lemma listing_order_irrelevant_witness :
  foldl (@visit_sheet Demo.runtime Demo.fifty 4 5)
        (Demo.extracted Demo.two_sheets, 0%nat)
        ["sheet1.xml"; "sheet2.xml"]%string
  = foldl (@visit_sheet Demo.runtime Demo.fifty 4 5)
          (Demo.extracted Demo.two_sheets, 0%nat)
          ["sheet2.xml"; "sheet1.xml"]%string.
Proof.
  apply (@listing_order_irrelevant Demo.runtime).
  - refine (bool_decide_unpack _ _). vm_compute. exact I.
  - apply Permutation_swap.
Defined.

(** ** The output as an input *)

Section MoreArchiveFacts.
Context `{PyRuntime}.

(** What a repacking call wrote extracts again, to the files it wrote. *)
Lemma reextract members s s1 :
  extractall members fs_empty = Some s ->
  fs_dirs s1 = fs_dirs s ->
  dom (fs_files s1) = dom (fs_files s) ->
  exists s2,
    extractall (repacked (walk s1)) fs_empty = Some s2
    /\ fs_files s2 = fs_files s1
    /\ well_formed s2.
Proof.
  intros Hext Hdirs1 Hdom.
  pose proof (extractall_well_formed _ _ _ well_formed_empty Hext) as Hwf.
  assert (well_formed s1) as Hwf1.
  { intros q. rewrite Hdom, Hdirs1. apply Hwf. }
  assert ([] ∈ fs_dirs s1) as Hroot.
  { rewrite Hdirs1. apply (extractall_dirs_grow _ _ _ Hext). cbn. set_solver. }
  destruct (extractall_repacked s1 (walk s1) Hwf1) with (s2 := fs_empty)
    as [s2 Hext2].
  { intros [q d] Hin. by apply elem_of_walk. }
  { cbn. rewrite dom_empty_L. set_solver. }
  { cbn. set_solver. }
  exists s2. split; [done |]. split.
  - rewrite (extractall_files _ _ _ Hext2). cbn.
    rewrite archive_files_repacked.
    + unfold walk. by rewrite list_to_map_to_list, (right_id_L ∅ (∪)).
    + apply NoDup_fst_map_to_list.
    + intros [q d] Hin%elem_of_walk. cbn. apply Hwf1, elem_of_dom. eauto.
  - by apply (extractall_well_formed _ _ _ well_formed_empty Hext2).
Qed.

(** X7.  The archive a call packs is accepted by the next call as long as
    the input held a worksheet document: the next call extracts it, finds
    [xl/worksheets] and packs again, under the same member names.  (The
    directory entries are not written back, so an input whose
    [xl/worksheets] is an empty directory gives an output on which the next
    call takes the fallback.) *)
Theorem output_reaccepted members markup price_column header_row packed total p :
  update_prices_in_xlsx (Some members) markup price_column header_row
  = (Packed packed, total) ->
  is_sheet p = true ->
  is_Some (archive_files members ∅ !! p) ->
  exists packed2 total2,
    update_prices_in_xlsx (Some (repacked packed)) markup price_column header_row
    = (Packed packed2, total2)
    /\ packed2.*1 ≡ₚ packed.*1.
Proof.
  intros Hres Hp Hin.
  destruct (update_prices_cases members markup price_column header_row)
    as [[Hcopy _] | (s & l & s1 & Hext & Hls & Hres1 & Hdirs1 & Hfiles1)];
    [congruence |].
  assert (packed = walk s1) as -> by congruence.
  assert (dom (fs_files s1) = dom (fs_files s)) as Hdom.
  { apply set_eq. intros q. rewrite !elem_of_dom, Hfiles1. by rewrite fmap_is_Some. }
  destruct (reextract _ _ _ Hext Hdirs1 Hdom) as (s2 & Hext2 & Hfiles2 & Hwf2).
  assert (is_dir s2 worksheets_dir = true) as Hdir2.
  { apply (sheet_file_needs_dir _ p Hwf2 Hp).
    rewrite Hfiles2, Hdom. apply elem_of_dom.
    by rewrite (extractall_files _ _ _ Hext). }
  destruct (update_prices_cases (repacked (walk s1))
              markup price_column header_row)
    as [[_ [Hnone | (s2' & Hs2' & Hnodir)]]
       | (s2' & l2 & s3 & Hext2' & Hls2 & Hres2 & _ & Hfiles3)].
  - congruence.
  - assert (s2' = s2) as -> by congruence. congruence.
  - assert (s2' = s2) as -> by congruence.
    eexists _, _. split; [exact Hres2 |].
    apply NoDup_Permutation; [apply NoDup_fst_map_to_list ..|].
    intros q. unfold walk.
    rewrite !list_elem_of_fmap.
    assert (forall (m : gmap path bytes),
              (exists pd : path * bytes, q = pd.1 /\ pd ∈ map_to_list m)
              <-> is_Some (m !! q)) as Hkeys.
    { intros m. split.
      - intros ([q' d] & -> & Hd%elem_of_map_to_list). by eexists.
      - intros [d Hd]. exists (q, d). split; [done |].
        by apply elem_of_map_to_list. }
    rewrite !Hkeys, Hfiles3, Hfiles2. by rewrite fmap_is_Some.
Qed.

End MoreArchiveFacts.

Lemma output_reaccepted_witness :
  exists packed packed2 total2,
    @update_prices_in_xlsx Demo.runtime (Some Demo.prices_archive) Demo.fifty 4 5
    = (Packed packed, 2%nat)
    /\ @update_prices_in_xlsx Demo.runtime (Some (repacked packed)) Demo.fifty 4 5
       = (Packed packed2, total2)
    /\ packed2.*1 ≡ₚ packed.*1.
Proof.
  destruct (@update_prices_in_xlsx Demo.runtime (Some Demo.prices_archive)
              Demo.fifty 4 5) as [out total] eqn:Hres.
  assert (total = 2%nat) as ->.
  { change total with (out, total).2. rewrite <- Hres. vm_compute. reflexivity. }
  destruct out as [| packed].
  { exfalso. assert ((Copied, 2%nat).1 <> Copied) as Hne; [| by apply Hne].
    rewrite <- Hres. vm_compute. discriminate. }
  destruct (@output_reaccepted Demo.runtime _ _ _ _ _ _
              (Demo.sheet_path "sheet1.xml") Hres)
    as (packed2 & total2 & Hres2 & Hnames).
  { vm_compute. reflexivity. }
  { refine (bool_decide_unpack _ _). vm_compute. exact I. }
  exists packed, packed2, total2.
  split; [reflexivity |]. split; [exact Hres2 | exact Hnames].
Defined.

(** * Properties of the configuration and of the choice of a processor *)

(** ** Substrings *)

Section SubstringFacts.

Lemma contains_unfold keyword s :
  contains keyword s
  = String.prefix keyword s
    || match s with
       | EmptyString => false
       | String _ rest => contains keyword rest
       end.
Proof. by destruct s. Qed.

Lemma append_nil (s : string) : (EmptyString ++ s)%string = s.
Proof. reflexivity. Qed.

Lemma append_cons c (s t : string) : (String c s ++ t)%string = String c (s ++ t).
Proof. reflexivity. Qed.

Lemma prefix_append keyword rest :
  String.prefix keyword (keyword ++ rest) = true.
Proof.
  induction keyword as [| c keyword IH].
  - rewrite append_nil. by destruct rest.
  - rewrite append_cons. simpl.
    destruct (ascii_dec c c) as [_ | Hne]; [exact IH | by destruct Hne].
Qed.

(** [keyword in s] holds when [keyword] occurs in [s]. *)
Lemma contains_intro keyword before after :
  contains keyword (before ++ keyword ++ after) = true.
Proof.
  induction before as [| c before IH].
  - by rewrite append_nil, contains_unfold, prefix_append.
  - rewrite append_cons, contains_unfold, IH. apply orb_true_r.
Qed.

Lemma existsb_contains keywords keyword before after :
  keyword ∈ keywords ->
  existsb (fun k => contains k (before ++ keyword ++ after)) keywords = true.
Proof.
  intros Hin. apply existsb_exists. exists keyword.
  split; [by apply list_elem_of_In | apply contains_intro].
Qed.

End SubstringFacts.

(** ** The type of a price list and the factory *)

Section FactoryFacts.
Context `{PyRuntime} `{PyText}.

Lemma to_float_raises text e :
  to_float text = Raise e -> e = NotANumber text /\ py_float text = None.
Proof. unfold to_float. destruct (py_float text); [done | by intros [= <-]]. Qed.

Lemma detect_file_type_cases file_path :
  detect_file_type file_path = "xtreme_case"%string
  \/ detect_file_type file_path = "cifrovoy_ray"%string
  \/ detect_file_type file_path = "default"%string.
Proof. unfold detect_file_type. repeat destruct (existsb _ _); auto. Qed.

(** X8.  A name whose lowered base name holds one of the XtremeCase
    keywords is an XtremeCase price list, whatever else it holds: the
    keywords of CifrovoyRay ([cr] among them) are only looked for when none
    of XtremeCase occurs. *)
Theorem xtreme_keyword_wins file_path keyword before after :
  keyword ∈ ["benks"; "energea"; "pitaka"; "uag"; "uniq"; "vaja"]%string ->
  str_lower (path_basename file_path) = (before ++ keyword ++ after)%string ->
  detect_file_type file_path = "xtreme_case"%string.
Proof.
  intros Hin Hname. unfold detect_file_type. rewrite Hname.
  by rewrite (existsb_contains _ keyword).
Qed.

(** X9.  A price list is of the default type only when none of the nine
    keywords occurs in its lowered base name. *)
Theorem default_type_has_no_keyword file_path keyword before after :
  detect_file_type file_path = "default"%string ->
  keyword ∈ ["benks"; "energea"; "pitaka"; "uag"; "uniq"; "vaja";
             "cifrovoy"; "digital"; "cr"]%string ->
  str_lower (path_basename file_path) <> (before ++ keyword ++ after)%string.
Proof.
  intros Hdefault Hin Hname. unfold detect_file_type in Hdefault.
  rewrite Hname in Hdefault.
  change ["benks"; "energea"; "pitaka"; "uag"; "uniq"; "vaja";
          "cifrovoy"; "digital"; "cr"]%string
    with (["benks"; "energea"; "pitaka"; "uag"; "uniq"; "vaja"]%string
          ++ ["cifrovoy"; "digital"; "cr"]%string) in Hin.
  apply elem_of_app in Hin as [Hin | Hin].
  - by rewrite (existsb_contains _ keyword) in Hdefault.
  - destruct (existsb _ _); [done |].
    by rewrite (existsb_contains _ keyword) in Hdefault.
Qed.

(** X10.  The factory never rejects the type [detect_file_type] gives: the
    error of an unknown file type cannot come out of the two composed. *)
Theorem detected_type_accepted env file_path config file_type :
  ProcessorFactory.create_processor env (detect_file_type file_path) config
  <> Raise (UnknownFileType file_type).
Proof.
  unfold ProcessorFactory.create_processor.
  destruct (detect_file_type_cases file_path) as [-> | [-> | ->]]; cbn.
  - unfold new_XtremeCaseProcessor. destruct config as [c |]; cbn; [done |].
    unfold ProcessorConfig.xtreme_case, to_float. by destruct (py_float _).
  - unfold new_CifrovoyRayProcessor. destruct config as [c |]; cbn; [done |].
    unfold ProcessorConfig.cifrovoy_ray, to_float. by destruct (py_float _).
  - destruct config as [c |]; cbn; [done |].
    unfold ProcessorConfig.default, to_float. by destruct (py_float _).
Qed.

(** X11.  [auto_create_processor] builds a default processor before it
    looks at the file: when the markup of the default type does not
    convert, it raises for every file, those of the other types included.
    Whenever it raises, the exception is the [ValueError] of a markup that
    [float] rejects. *)
Theorem auto_create_needs_default_markup env :
  (py_float (getenv_default env "MARKUP_DEFAULT" "50") = None ->
   forall file_path,
     ProcessorFactory.auto_create_processor env file_path
     = Raise (NotANumber (getenv_default env "MARKUP_DEFAULT" "50")))
  /\ (forall file_path e,
        ProcessorFactory.auto_create_processor env file_path = Raise e ->
        exists text, e = NotANumber text /\ py_float text = None).
Proof.
  unfold ProcessorFactory.auto_create_processor. split.
  - intros Hbad file_path. unfold ProcessorConfig.default, to_float.
    by rewrite Hbad.
  - intros file_path e.
    destruct (ProcessorConfig.default env) as [c |] eqn:Hdefault; cbn.
    + unfold ProcessorFactory.create_processor.
      destruct (detect_file_type_cases file_path) as [-> | [-> | ->]]; cbn.
      * unfold ProcessorConfig.xtreme_case.
        destruct (to_float _) eqn:Hf; cbn; [done |].
        intros [= <-]. apply to_float_raises in Hf. eauto.
      * unfold ProcessorConfig.cifrovoy_ray.
        destruct (to_float _) eqn:Hf; cbn; [done |].
        intros [= <-]. apply to_float_raises in Hf. eauto.
      * by rewrite Hdefault.
    + intros [= <-]. unfold ProcessorConfig.default in Hdefault.
      destruct (to_float _) eqn:Hf; cbn in Hdefault; [done |].
      injection Hdefault as <-. apply to_float_raises in Hf. eauto.
Qed.

(** X12.  The environment can only set the markup of a processor the
    factory configures itself: the price column is 4, which is column D,
    the header row is 5 and the output goes to [processed_files]; the
    processor splits the sheets exactly for the type [cifrovoy_ray], and
    a processor that does not split them processes a workbook by the
    rewrite of column D below row 5. *)
Theorem factory_layout env file_type self :
  ProcessorFactory.create_processor env file_type None = Ok self ->
  ProcessorConfig.price_col_index (config self) = 4
  /\ ProcessorConfig.header_row (config self) = 5
  /\ ProcessorConfig.output_subdir (config self) = "processed_files"%string
  /\ Column._column_number_to_letter
       (ProcessorConfig.price_col_index (config self)) = "D"%string
  /\ (splits_sheets (class_of self) = true <-> file_type = "cifrovoy_ray"%string)
  /\ (splits_sheets (class_of self) = false ->
      forall input,
        _process_workbook self input
        = update_prices_in_xlsx input
            (ProcessorConfig.markup_value (config self)) 4 5).
Proof.
  unfold ProcessorFactory.create_processor, _process_workbook.
  destruct (String.eqb_spec file_type "xtreme_case") as [-> | Hx].
  { unfold new_XtremeCaseProcessor, ProcessorConfig.xtreme_case.
    destruct (to_float _); cbn; [| done]. intros [= <-]. cbn.
    repeat split; done. }
  destruct (String.eqb_spec file_type "cifrovoy_ray") as [-> | Hc].
  { unfold new_CifrovoyRayProcessor, ProcessorConfig.cifrovoy_ray.
    destruct (to_float _); cbn; [| done]. intros [= <-]. cbn.
    repeat split; done. }
  destruct (String.eqb_spec file_type "default") as [-> | Hd]; [| done].
  unfold ProcessorConfig.default.
  destruct (to_float _); cbn; [| done]. intros [= <-]. cbn.
  repeat split; done.
Qed.

End FactoryFacts.

Lemma xtreme_keyword_wins_witness :
  @detect_file_type Demo.text_runtime "/tmp/UAG opt CR.xlsx" = "xtreme_case"%string.
Proof.
  apply (@xtreme_keyword_wins Demo.text_runtime _ "uag" EmptyString
           " opt cr.xlsx").
  - refine (bool_decide_unpack _ _). vm_compute. exact I.
  - vm_compute. reflexivity.
Defined.

Lemma default_type_has_no_keyword_witness :
  @str_lower Demo.text_runtime
    (@path_basename Demo.text_runtime "/tmp/Prices 2025.xlsx")
  <> ("prices 2025" ++ "cr" ++ ".xlsx")%string.
Proof.
  apply (@default_type_has_no_keyword Demo.text_runtime).
  - vm_compute. reflexivity.
  - refine (bool_decide_unpack _ _). vm_compute. exact I.
Defined.

Lemma detected_type_accepted_witness :
  @ProcessorFactory.create_processor Demo.runtime Demo.environment
    (@detect_file_type Demo.text_runtime "/tmp/Prices 2025.xlsx") None
  <> Raise (UnknownFileType "default").
Proof. apply (@detected_type_accepted Demo.runtime Demo.text_runtime). Defined.

Lemma auto_create_needs_default_markup_witness :
  @ProcessorFactory.auto_create_processor Demo.runtime Demo.text_runtime
    Demo.environment_bad_markup "/tmp/UAG opt.xlsx"
  = Raise (NotANumber "fifty").
Proof.
  apply (proj1 (@auto_create_needs_default_markup Demo.runtime Demo.text_runtime
                  Demo.environment_bad_markup)).
  vm_compute. reflexivity.
Defined.

Lemma factory_layout_witness :
  exists self,
    @ProcessorFactory.create_processor Demo.runtime Demo.environment
      "xtreme_case" None = Ok self
    /\ ProcessorConfig.price_col_index (config self) = 4
    /\ ProcessorConfig.header_row (config self) = 5.
Proof.
  destruct (@ProcessorFactory.create_processor Demo.runtime Demo.environment
              "xtreme_case" None) as [self | e] eqn:Hself.
  - destruct (@factory_layout Demo.runtime Demo.environment _ _ Hself)
      as (Hcol & Hrow & _).
    exists self. split; [reflexivity |]. split; [exact Hcol | exact Hrow].
  - exfalso. vm_compute in Hself. discriminate Hself.
Defined.

(** ** The configuration read from the environment *)

Section ConfigFacts.
Context `{PyRuntime} `{PyText}.

Lemma truthy_nonempty value s : truthy value = Some s -> s <> EmptyString.
Proof.
  unfold truthy. destruct value as [s' |]; [| done].
  destruct (String.eqb_spec s' EmptyString); [done |]. by intros [= <-].
Qed.

Lemma required_insert_empty env name name' :
  required (<[name := EmptyString]> env) name' = required (delete name env) name'.
Proof.
  unfold required, getenv. destruct (decide (name = name')) as [-> | Hne].
  - by rewrite lookup_insert_eq, lookup_delete_eq.
  - by rewrite lookup_insert_ne, lookup_delete_ne.
Qed.

Lemma getenv_default_insert_empty env name name' fallback :
  name <> name' ->
  getenv_default (<[name := EmptyString]> env) name' fallback
  = getenv_default (delete name env) name' fallback.
Proof.
  intros Hne. unfold getenv_default.
  by rewrite lookup_insert_ne, lookup_delete_ne.
Qed.

Lemma required_raises env name e :
  required env name = Raise e -> e = NotSet name.
Proof. unfold required. destruct (truthy _); [done | by intros [= <-]]. Qed.

Lemma required_absent env name : env !! name = None -> required env name = Raise (NotSet name).
Proof. unfold required, getenv. by intros ->. Qed.

(** X13.  For the Google Sheets configuration, [required=False] never
    raises and [required=True] never returns [None]; when one of the two
    calls gives a configuration, the other gives the same. *)
Theorem google_sheets_config_required path_exists env :
  (forall e, GoogleSheetsConfig.from_env path_exists env false <> Raise e)
  /\ GoogleSheetsConfig.from_env path_exists env true <> Ok None
  /\ forall c,
       GoogleSheetsConfig.from_env path_exists env false = Ok (Some c)
       <-> GoogleSheetsConfig.from_env path_exists env true = Ok (Some c).
Proof.
  unfold GoogleSheetsConfig.from_env.
  destruct (truthy _); [destruct (path_exists _) |]; cbn; repeat split; done.
Qed.

(** XtremeCase is enabled exactly when its channel was read. *)
Lemma data_sources_channel_inv env c :
  DataSourcesConfig.from_env env = Ok c ->
  DataSourcesConfig.enable_xtreme_case c = true
  <-> is_Some (DataSourcesConfig.xtreme_case_channel_id c).
Proof.
  unfold DataSourcesConfig.from_env.
  destruct (String.eqb _ "true"); cbn.
  - destruct (required _ _) as [channel |]; cbn; [| done].
    intros [= <-]. cbn. by split; eauto.
  - intros [= <-]. cbn. split; [done | by intros []].
Qed.

(** X14.  In a configuration of the data sources that was read without an
    error, the channel of XtremeCase is there exactly when XtremeCase is
    enabled, and it is never the empty string: a disabled source has no
    channel even when the variable is set. *)
Theorem data_sources_channel env c :
  DataSourcesConfig.from_env env = Ok c ->
  (DataSourcesConfig.enable_xtreme_case c = true
   <-> is_Some (DataSourcesConfig.xtreme_case_channel_id c))
  /\ DataSourcesConfig.xtreme_case_channel_id c <> Some EmptyString.
Proof.
  intros Hc. split; [by apply (data_sources_channel_inv env) |].
  revert Hc. unfold DataSourcesConfig.from_env.
  destruct (String.eqb _ "true"); cbn.
  - unfold required.
    destruct (truthy _) as [channel |] eqn:Hchannel; cbn; [| done].
    intros [= <-]. cbn. intros [= ->]. by apply truthy_nonempty in Hchannel.
  - by intros [= <-].
Qed.

(** X15.  For the variables a configuration requires, the empty value is
    the same as no value: setting one of the three Telegram user variables,
    or one of the two bot variables, to the empty string gives what
    unsetting it gives, and that is an error. *)
Theorem empty_value_is_unset env name :
  (name ∈ ["TELEGRAM_API_ID"; "TELEGRAM_API_HASH"; "TELEGRAM_PHONE"]%string ->
   TelegramUserConfig.from_env (<[name := EmptyString]> env)
   = TelegramUserConfig.from_env (delete name env)
   /\ exists name', TelegramUserConfig.from_env (delete name env)
                    = Raise (NotSet name'))
  /\ (name ∈ ["BOT_TOKEN"; "TARGET_CHANNEL_ID"]%string ->
      BotConfig.from_env (<[name := EmptyString]> env)
      = BotConfig.from_env (delete name env)
      /\ exists name', BotConfig.from_env (delete name env)
                       = Raise (NotSet name')).
Proof.
  split.
  - intros Hin. split.
    + unfold TelegramUserConfig.from_env. rewrite !required_insert_empty.
      rewrite getenv_default_insert_empty; [done |].
      intros ->. apply list_elem_of_In in Hin. cbn in Hin.
      by destruct Hin as [? | [? | [? | []]]].
    + unfold TelegramUserConfig.from_env.
      apply list_elem_of_In in Hin. cbn in Hin.
      destruct Hin as [<- | [<- | [<- | []]]].
      * rewrite (required_absent _ "TELEGRAM_API_ID") by apply lookup_delete_eq.
        cbn. eauto.
      * destruct (required _ "TELEGRAM_API_ID") eqn:?; cbn;
          [| by eexists; f_equal; eapply required_raises].
        rewrite (required_absent _ "TELEGRAM_API_HASH") by apply lookup_delete_eq.
        cbn. eauto.
      * destruct (required _ "TELEGRAM_API_ID") eqn:?; cbn;
          [| by eexists; f_equal; eapply required_raises].
        destruct (required _ "TELEGRAM_API_HASH") eqn:?; cbn;
          [| by eexists; f_equal; eapply required_raises].
        rewrite (required_absent _ "TELEGRAM_PHONE") by apply lookup_delete_eq.
        cbn. eauto.
  - intros Hin. split.
    + unfold BotConfig.from_env. by rewrite !required_insert_empty.
    + unfold BotConfig.from_env.
      apply list_elem_of_In in Hin. cbn in Hin.
      destruct Hin as [<- | [<- | []]].
      * rewrite (required_absent _ "BOT_TOKEN") by apply lookup_delete_eq.
        cbn. eauto.
      * destruct (required _ "BOT_TOKEN") eqn:?; cbn;
          [| by eexists; f_equal; eapply required_raises].
        rewrite (required_absent _ "TARGET_CHANNEL_ID") by apply lookup_delete_eq.
        cbn. eauto.
Qed.

(** X16.  When the configuration step of [UnifiedPriceBot.__init__] goes
    through, every enabled source has what [initialize] will hand to its
    reader: the Telegram user configuration and the channel are there
    exactly when XtremeCase is enabled, the Google Sheets configuration
    exactly when CifrovoyRay is. *)
Theorem enabled_sources_configured path_exists env bot :
  UnifiedPriceBot.__init__ path_exists env = Ok bot ->
  let sources := UnifiedPriceBot.data_sources_config bot in
  (DataSourcesConfig.enable_xtreme_case sources = true
   <-> is_Some (UnifiedPriceBot.telegram_user_config bot))
  /\ (DataSourcesConfig.enable_xtreme_case sources = true
      <-> is_Some (DataSourcesConfig.xtreme_case_channel_id sources))
  /\ (DataSourcesConfig.enable_cifrovoy_ray sources = true
      <-> is_Some (UnifiedPriceBot.google_sheets_config bot)).
Proof.
  unfold UnifiedPriceBot.__init__, get_data_sources_config, get_bot_config,
    get_app_config, get_telegram_user_config, get_google_sheets_config.
  destruct (DataSourcesConfig.from_env env) as [sources |] eqn:Hsources;
    cbn; [| done].
  destruct (BotConfig.from_env env) as [bot_config |]; cbn; [| done].
  destruct (AppConfig.from_env env) as [app_config |]; cbn; [| done].
  pose proof (google_sheets_config_required path_exists env) as (_ & Hsome & _).
  pose proof (data_sources_channel_inv _ _ Hsources) as Hchannel.
  destruct (DataSourcesConfig.enable_xtreme_case sources) eqn:Hx; cbn;
    [destruct (TelegramUserConfig.from_env env) as [user |]; cbn; [| done] |];
    (destruct (DataSourcesConfig.enable_cifrovoy_ray sources) eqn:Hc; cbn;
     [destruct (GoogleSheetsConfig.from_env path_exists env true)
        as [[sheets |] |]; cbn; [| done | done] |]);
    intros [= <-]; cbn; rewrite Hx, Hc; unfold is_Some in *; naive_solver.
Qed.

(** X17.  With both sources switched off, the configuration step reads ten
    variables and nothing else: two environments that agree on them give
    the same outcome, whatever they hold for the Telegram user, the channel
    and the spreadsheet, and whatever files exist. *)
Theorem disabled_sources_ignored path_exists path_exists' env env' :
  (forall name, name ∈ UnifiedPriceBot.core_variables ->
                env !! name = env' !! name) ->
  str_lower (getenv_default env "ENABLE_XTREME_CASE" "true") <> "true"%string ->
  str_lower (getenv_default env "ENABLE_CIFROVOY_RAY" "false") <> "true"%string ->
  UnifiedPriceBot.__init__ path_exists env
  = UnifiedPriceBot.__init__ path_exists' env'.
Proof.
  intros Hagree Hx Hc.
  assert (forall name fallback,
            name ∈ UnifiedPriceBot.core_variables ->
            getenv_default env' name fallback = getenv_default env name fallback)
    as Hdefault.
  { intros name fallback Hin. unfold getenv_default. by rewrite Hagree. }
  assert (forall name,
            name ∈ UnifiedPriceBot.core_variables ->
            required env' name = required env name) as Hrequired.
  { intros name Hin. unfold required, getenv. by rewrite Hagree. }
  assert (forall name, In name UnifiedPriceBot.core_variables ->
                       name ∈ UnifiedPriceBot.core_variables) as Hin
    by (intros; by apply list_elem_of_In).
  assert (BotConfig.from_env env' = BotConfig.from_env env) as Hbot.
  { unfold BotConfig.from_env.
    rewrite !Hrequired by (apply Hin; cbn; tauto). done. }
  assert (AppConfig.from_env env' = AppConfig.from_env env) as Happ.
  { unfold AppConfig.from_env.
    rewrite !Hdefault by (apply Hin; cbn; tauto). done. }
  apply String.eqb_neq in Hx, Hc.
  assert (forall e : environ,
            getenv_default e "ENABLE_XTREME_CASE" "true"
            = getenv_default env "ENABLE_XTREME_CASE" "true" ->
            getenv_default e "ENABLE_CIFROVOY_RAY" "false"
            = getenv_default env "ENABLE_CIFROVOY_RAY" "false" ->
            DataSourcesConfig.from_env e
            = Ok {| DataSourcesConfig.enable_xtreme_case := false;
                    DataSourcesConfig.enable_cifrovoy_ray := false;
                    DataSourcesConfig.xtreme_case_channel_id := None |})
    as Hsources.
  { intros e Hex Hec. unfold DataSourcesConfig.from_env.
    by rewrite Hex, Hec, Hx, Hc. }
  unfold UnifiedPriceBot.__init__, get_data_sources_config, get_bot_config,
    get_app_config.
  rewrite (Hsources env) by done.
  rewrite (Hsources env') by (apply Hdefault, Hin; cbn; tauto).
  cbn. rewrite Hbot, Happ. done.
Qed.

End ConfigFacts.

Lemma google_sheets_config_required_witness :
  GoogleSheetsConfig.from_env Demo.no_file Demo.environment true <> Ok None.
Proof.
  apply (proj1 (proj2 (google_sheets_config_required Demo.no_file
                         Demo.environment))).
Defined.

Lemma data_sources_channel_witness :
  exists c,
    @DataSourcesConfig.from_env Demo.text_runtime Demo.environment = Ok c
    /\ DataSourcesConfig.xtreme_case_channel_id c <> Some EmptyString.
Proof.
  destruct (@DataSourcesConfig.from_env Demo.text_runtime Demo.environment)
    as [c | e] eqn:Hc.
  - exists c. split; [reflexivity |].
    apply (proj2 (@data_sources_channel Demo.text_runtime _ _ Hc)).
  - exfalso. vm_compute in Hc. discriminate Hc.
Defined.

Lemma empty_value_is_unset_witness :
  @TelegramUserConfig.from_env Demo.runtime
    (<["TELEGRAM_PHONE"%string := EmptyString]> Demo.environment)
  = @TelegramUserConfig.from_env Demo.runtime
      (delete "TELEGRAM_PHONE"%string Demo.environment).
Proof.
  apply (proj1 (@empty_value_is_unset Demo.runtime Demo.environment
                  "TELEGRAM_PHONE")).
  refine (bool_decide_unpack _ _). vm_compute. exact I.
Defined.

Lemma enabled_sources_configured_witness :
  exists bot,
    @UnifiedPriceBot.__init__ Demo.runtime Demo.text_runtime Demo.no_file
      Demo.environment = Ok bot
    /\ is_Some (UnifiedPriceBot.telegram_user_config bot).
Proof.
  destruct (@UnifiedPriceBot.__init__ Demo.runtime Demo.text_runtime Demo.no_file
              Demo.environment) as [bot | e] eqn:Hbot.
  - exists bot. split; [reflexivity |].
    destruct (@enabled_sources_configured Demo.runtime Demo.text_runtime
                _ _ _ Hbot) as (Huser & _).
    apply Huser.
    change (match Ok bot with
            | Ok b => DataSourcesConfig.enable_xtreme_case
                        (UnifiedPriceBot.data_sources_config b)
            | Raise _ => false
            end = true).
    rewrite <- Hbot. vm_compute. reflexivity.
  - exfalso. vm_compute in Hbot. discriminate Hbot.
Defined.

Lemma disabled_sources_ignored_witness :
  @UnifiedPriceBot.__init__ Demo.runtime Demo.text_runtime Demo.no_file
    Demo.environment_off
  = @UnifiedPriceBot.__init__ Demo.runtime Demo.text_runtime Demo.no_file
      Demo.environment_off_more.
Proof.
  apply (@disabled_sources_ignored Demo.runtime Demo.text_runtime).
  - intros name Hin. apply list_elem_of_In in Hin. cbn in Hin.
    repeat (destruct Hin as [<- | Hin]; [vm_compute; reflexivity |]).
    destruct Hin.
  - vm_compute. discriminate.
  - vm_compute. discriminate.
Defined.
